(* ===== verification/_CoqProject ===== *)
-Q . S2P
Prelude.v
PyValue.v
PyRepr.v
PyString.v
Renderer.v
Machine.v
ResumeRecord.v
Schema.v
Reader.v
Sections.v
Blocks.v
Items.v
Nesting.v
Prefix.v
Summary.v
