(* ===== verification/Prelude.v ===== *)
(** * Career-Compass: a verification development of the resume back end

    The repository's back end is one Python module,
    [src/backend/resume_builder_logic.py], with two functions:

    - [generate_resume_html(data)] (lines 16-133) renders a resume dict
      as a self-contained HTML document.  It builds the document in a
      local variable [html]: one f-string for the head, the contact line
      and the summary, then [html += ...] once per dict entry of the
      [experiences], [education] and [projects] lists, with fixed
      section text in between; the text-list fields [skills],
      [certifications], [languages] and [hobbies] are joined with
      [", "] inside the f-strings.
    - [generate_summary_from_experience(work_experience)] (lines 4-15)
      calls a T5 model through the transformers library (tokenize with
      truncation to 512 tokens, beam-search generation, decoding) and
      post-processes the decoded text: it splits it on [". "] and joins
      the fragments with [". \n"] behind the prefix ["I worked as "].

    The two functions do not call each other; a caller puts the summary
    text into the [summary] field of the resume dict.

    ** Files and what they model

    - [Prelude] (this file): Python's exceptions as the type [exn], the
      error type [result] of a Python computation, a [Monad] interface
      with its laws and its [result] instance, the notation scope
      [py_scope], the string lemmas every file shares, the hint
      databases [strs] (rewriting) and [pyauto] (resolution), and the
      lemmas shared by the readers of the output ([Homomorphism]).
    - [PyValue]: the subset of the Python runtime the module relies on:
      the values a JSON-like resume dict holds ([pyval]: None, bool,
      int, str, list, dict), [type(v).__name__], truthiness,
      [isinstance(v, list)] and [isinstance(v, dict)], [dict.get],
      iteration ([for x in v]), [str(v)] and [repr(v)] on strings of
      Latin-1 code points, and [str.join] with its [TypeError].
    - [PyRepr]: [repr] of a string holds a ['<'] only where the string
      does, so a list shown by an f-string hole adds no tag.
    - [PyString]: [str.split(sep)] as CPython's loop (leftmost search
      [find_sep], one fragment per occurrence, fuel [S (length s)]) and
      [str.replace] as an independent scan, with the lemmas on
      leftmost occurrences the summary post-processing needs.
    - [Renderer]: [generate_resume_html], translated f-string by
      f-string, with [html] as the state of a state-and-exception monad
      [HtmlM]; every [html += ...] is an [emit], every loop a [py_for],
      every f-string hole a [result] computed left to right.  The same
      file holds the abstract document [ResumeDoc] the spec describes,
      [view] (reading a dict once, field by field), [layout] (the text
      as the concatenation of the sections) and [render_ok] (the
      condition for success); the refinement [generate_resume_html] =
      [layout] of [view] on every input, errors included (C1); and the
      renderer's properties: the exact failure condition (C3), the
      exceptions (C4, C5), skipping of non-dict entries (C6), the
      fallbacks of the text lists (C7, C8), absence of escaping (C9).
    - [Machine]: the body of [generate_resume_html] as a program of
      seven statements ([resume_prog]: the head assignment, three
      guarded [for] loops, three [html += ...]) and its execution as a
      small-step relation [step] on configurations (statements left,
      loop items left, [html], or an exception), with the interpreter
      [run_prog] and the reading [denote] of each statement in
      [HtmlM]; on [resume_prog] the interpreter computes
      [generate_resume_html] ([run_prog_resume]) and the machine runs
      to that result ([resume_run_reaches]).
    - [ResumeRecord]: the typed record of spec section 3, its encoding
      as a JSON dict, and the exact output for every such record, which
      never fails (C2).
    - [Schema]: spec section 3 as a type system on Python values
      ([ty], [has_type]) with its checker [type_check]; every value of
      the resume type renders (C12).
    - [Reader]: a reader of the texts of the elements opened by a tag
      (an automaton run character by character, parameterised by the
      tag), its compositional form [emits], and the condition
      [value_clean] (no string of the input, keys included, holds a
      ['<']) under which the renderer's holes add no element.
    - [Sections]: the [<h2>] headings: the output of
      [generate_resume_html] on a clean input has exactly the eight
      section headings in the spec's order (C13).
    - [Blocks]: the [<div class=...>] blocks of the entries: on a clean
      input the output holds one experience, education or project
      block per dict entry of the matching field (C14).
    - [Items]: the [<li>] elements: on a clean input they are exactly
      [str] of the achievements the code iterates, experience after
      experience, in order (C15).
    - [Nesting]: a tag tokenizer (a transducer from characters to
      [Open]/[Close] events, void elements and the doctype skipped),
      the well-nesting of events as an inductive predicate [nested],
      and a stack machine [check_nest] proved to recognise it.  On a
      clean input the output is one well-nested [<html>] element
      (C16); every name holding one end tag breaks it (C17).
    - [Prefix]: [Machine] and [Nesting] together: an invariant of the
      configurations ([cfg_ok]), preserved by every [step], so at every
      point of a run on a clean dict the [html] built so far is a
      well-nested prefix whose open elements are fixed by the position
      in the program (C18).
    - [Summary]: [generate_summary_from_experience]: the post-processing
      [format_summary] exactly, and the transformers calls behind the
      interface [Seq2Seq] with the code's arguments; the
      post-processing is the replacement of every [". "] by [". \n"]
      behind the prefix (C10), and it loses nothing (C11).

    The files build in this order: [Prelude], [PyValue], [PyRepr],
    [PyString], [Renderer], [Machine], [ResumeRecord], [Schema],
    [Reader], [Sections], [Blocks], [Items], [Nesting], [Prefix],
    [Summary].  The renderer's files call the built-ins of [PyValue];
    [Machine], [ResumeRecord], [Schema], [Sections], [Blocks], [Items],
    [Nesting] and [Prefix] state their theorems on [Renderer]'s
    definitions through its refinement lemmas
    ([generate_resume_html_dict], [run_prog_resume]).

    ** Modelling choices

    - A Python [str] is a Rocq [string]; each [ascii] is read as the
      Unicode code point 0-255 it encodes (Latin-1).  Code points above
      255 are not modelled; [repr] follows CPython's rules on the
      modelled ones (quote choice, backslash escapes, [\xhh] for the
      non-printable ones).
    - A Python dict is an association list in insertion order with
      string keys; [dict.get] returns the first binding, which is the
      only one for a dict built by Python.  Floats and tuples are not
      modelled: the resume's JSON shape has neither.
    - Exceptions are values: a computation returns [Ok v] or
      [Raise e]; the first exception raised is the one returned, so the
      order in which the model evaluates the f-string holes is the
      source's left-to-right order.

    ** Fuel

    [split_loop] runs on fuel; [py_split] gives it [S (length s)].
    Every round of the loop removes the separator and what precedes
    it, at least one character when the separator is non-empty (the
    code's is [". "]), so the loop ends before the fuel does; C10 and
    C11 hold for every summary with that fuel.  The machine of
    [Machine] has no fuel, and [run_prog] and [run_loop] recurse
    structurally on the program and on the items.  Everything else is
    structural.

    ** Not modelled

    - The loading of the T5 weights ([from_pretrained], lines 5-6) and
      the network itself: I/O and an external library.  [Summary]
      models the three calls of lines 8-10 as the interface [Seq2Seq],
      whose instance a successful load gives; nothing is assumed of
      what the model returns, and the theorems of [Summary] hold for
      every instance.
    - Unicode beyond Latin-1, and floats and tuples in the input.  A
      JSON resume holds no tuples; a float in a field would go through
      CPython's shortest-repr algorithm, which the module never calls
      on the documented fields (all text).  The Python built-ins stay
      partly modelled for that reason.
    - The imports (lines 1-2) have no behaviour to model.

    Every other line of the module is translated by a definition of
    this development; each definition's comment names its lines.
*)

From Stdlib Require Import List Ascii String Lia.
Import ListNotations.
Open Scope string_scope.

(** ** Python exceptions and results *)

Inductive exn : Type :=
| TypeError (msg : string)
| AttributeError (msg : string)
| ValueError (msg : string).

Inductive result (A : Type) : Type :=
| Ok (a : A)
| Raise (e : exn).
Arguments Ok {A} a.
Arguments Raise {A} e.

Definition is_ok {A} (r : result A) : bool :=
  match r with Ok _ => true | Raise _ => false end.

Definition map_result {A B} (f : A -> B) (r : result A) : result B :=
  match r with Ok a => Ok (f a) | Raise e => Raise e end.

(** ** A monad interface shared by the error and the state models *)

Class Monad (M : Type -> Type) : Type := {
  ret : forall {A}, A -> M A;
  bind : forall {A B}, M A -> (A -> M B) -> M B
}.

Declare Scope py_scope.
Delimit Scope py_scope with py.
Notation "x <- c ;; k" := (bind c (fun x => k))
  (at level 61, c at next level, right associativity) : py_scope.
Notation "c ;;; k" := (bind c (fun _ => k))
  (at level 61, right associativity) : py_scope.

Class MonadLaws (M : Type -> Type) `{Monad M} : Prop := {
  bind_ret_l : forall A B (a : A) (f : A -> M B), bind (ret a) f = f a;
  bind_ret_r : forall A (m : M A), bind m ret = m;
  bind_assoc : forall A B C (m : M A) (f : A -> M B) (g : B -> M C),
    bind (bind m f) g = bind m (fun a => bind (f a) g)
}.

#[export] Instance result_monad : Monad result := {
  ret := fun _ a => Ok a;
  bind := fun _ _ r f => match r with Ok a => f a | Raise e => Raise e end
}.

#[export] Instance result_monad_laws : MonadLaws result.
Proof. split; [reflexivity | intros ? []; reflexivity | intros ? ? ? []; reflexivity]. Qed.

Lemma bind_result_ok {A B} (a : A) (f : A -> result B) :
  bind (Ok a) f = f a.
Proof. reflexivity. Qed.

Lemma bind_result_raise {A B} (e : exn) (f : A -> result B) :
  bind (Raise e) f = Raise e.
Proof. reflexivity. Qed.

Lemma bind_result_ok_inv {A B} (r : result A) (f : A -> result B) b :
  bind r f = Ok b -> exists a, r = Ok a /\ f a = Ok b.
Proof. destruct r; simpl; [eauto | discriminate]. Qed.

(** ** Strings *)

Lemma append_nil_r (s : string) : s ++ "" = s.
Proof. induction s; simpl; congruence. Qed.

Lemma append_assoc (a b c : string) : (a ++ b) ++ c = a ++ (b ++ c).
Proof. induction a; simpl; congruence. Qed.

Lemma length_append (a b : string) :
  String.length (a ++ b) = String.length a + String.length b.
Proof. induction a; simpl; auto. Qed.

Lemma append_cancel_l (p a b : string) : p ++ a = p ++ b -> a = b.
Proof. induction p; simpl; [auto | intros H; injection H; auto]. Qed.

Lemma append_cons (c : ascii) (a b : string) : String c a ++ b = String c (a ++ b).
Proof. reflexivity. Qed.

(** [concat sep] is Python's [sep.join] on a list of [str]. *)
Lemma concat_cons_cons (sep x y : string) (l : list string) :
  concat sep (x :: y :: l) = x ++ sep ++ concat sep (y :: l).
Proof. reflexivity. Qed.

Create Rewrite HintDb strs.
Create HintDb pyauto discriminated.
#[export] Hint Rewrite append_nil_r append_assoc length_append : strs.
#[export] Hint Resolve append_cancel_l : pyauto.

(** Normalise string expressions: compute what computes, then
    reassociate appends to the right. *)
Ltac str_norm := simpl; autorewrite with strs; simpl.

(** Joining with the empty separator is plain concatenation. *)
Lemma concat_empty_cons (x : string) (l : list string) :
  concat "" (x :: l) = x ++ concat "" l.
Proof. destruct l; simpl; [symmetry; apply append_nil_r | reflexivity]. Qed.

Lemma map_result_ok {A B} (f : A -> B) (a : A) : map_result f (Ok a) = Ok (f a).
Proof. reflexivity. Qed.

#[export] Hint Rewrite concat_empty_cons : strs.

(** ** Readers that respect concatenation

    The readers of the output ([Reader.emits], [Nesting.tokens]) relate
    a text to what reading it produces, and reading [a ++ b] produces
    what [a] produces, then what [b] does.  For any such relation a
    [sep.join] of pieces produces the pieces' outputs in order. *)

Section Homomorphism.
Context {T : Type} (E : string -> list T -> Prop).
Hypothesis E_nil : E "" [].
Hypothesis E_app : forall a b t1 t2, E a t1 -> E b t2 -> E (a ++ b) (t1 ++ t2).

Lemma hom_concat_flat {A} (f : A -> string) (w : A -> list T) (sep : string) (xs : list A) :
  E sep [] -> (forall x, In x xs -> E (f x) (w x)) -> E (concat sep (map f xs)) (flat_map w xs).
Proof.
  intros Hs Hf; induction xs as [|x [|y xs] IH]; cbn [flat_map]; [exact E_nil
    | rewrite app_nil_r; apply Hf; left; reflexivity |].
  change (concat sep (map f (x :: y :: xs))) with (f x ++ sep ++ concat sep (map f (y :: xs))).
  apply E_app; [apply Hf; left; reflexivity|].
  apply (E_app _ _ []); [exact Hs|]; apply IH; intros z Hz; apply Hf; right; exact Hz.
Qed.

Lemma hom_entries_flat {A} (lay : A -> string) (ok : A -> bool) (w : A -> list T) (xs : list A) :
  (forall x, ok x = true -> E (lay x) (w x)) -> forallb ok xs = true ->
  E (concat "" (map lay xs)) (flat_map w xs).
Proof.
  rewrite forallb_forall; intros Hl H; apply hom_concat_flat; [exact E_nil|].
  intros x Hx; apply Hl, H, Hx.
Qed.

End Homomorphism.
