(* ===== verification/PyValue.v ===== *)
(** * PyValue: the part of the Python runtime the resume module uses

    The values a JSON-like resume dict holds, and the built-ins that
    [src/backend/resume_builder_logic.py] applies to them: [type(v)],
    truthiness, [isinstance], [dict.get], iteration, [str(v)] (the
    conversion an f-string hole performs), [repr(v)] (which [str] uses
    inside containers) and [str.join].  These are CPython's behaviours,
    written from its documented semantics: they are the library the
    source calls, and each definition says which built-in it is. *)

From Stdlib Require Import List Ascii String Lia ZArith DecimalString.
From S2P Require Import Prelude.
Import ListNotations.
Open Scope bool_scope.
Open Scope string_scope.
Open Scope py_scope.
Set Warnings "-register-all".

(** ** Values *)

Inductive pyval : Type :=
| VNone
| VBool (b : bool)
| VInt (z : Z)
| VStr (s : string)
| VList (items : list pyval)
| VDict (entries : list (string * pyval)).

(** An induction principle that sees the values inside lists and dicts. *)
Section PyvalInd.
Variable P : pyval -> Prop.
Hypothesis HNone : P VNone.
Hypothesis HBool : forall b, P (VBool b).
Hypothesis HInt : forall z, P (VInt z).
Hypothesis HStr : forall s, P (VStr s).
Hypothesis HList : forall l, Forall P l -> P (VList l).
Hypothesis HDict : forall d, Forall (fun kv => P (snd kv)) d -> P (VDict d).

Fixpoint pyval_ind' (v : pyval) : P v :=
  match v with
  | VNone => HNone
  | VBool b => HBool b
  | VInt z => HInt z
  | VStr s => HStr s
  | VList l =>
      HList l ((fix go (l : list pyval) : Forall P l :=
                  match l with
                  | [] => Forall_nil _
                  | x :: l' => Forall_cons _ (pyval_ind' x) (go l')
                  end) l)
  | VDict d =>
      HDict d ((fix go (d : list (string * pyval)) : Forall (fun kv => P (snd kv)) d :=
                  match d with
                  | [] => Forall_nil _
                  | (k, x) :: d' => Forall_cons (P := fun kv => P (snd kv)) (k, x) (pyval_ind' x) (go d')
                  end) d)
  end.
End PyvalInd.

(** ** [type(v).__name__], truthiness, [isinstance] *)

Definition type_name (v : pyval) : string :=
  match v with
  | VNone => "NoneType"
  | VBool _ => "bool"
  | VInt _ => "int"
  | VStr _ => "str"
  | VList _ => "list"
  | VDict _ => "dict"
  end.

(** [bool(v)]: [None], [False], [0], [""], [[]] and [{}] are false. *)
Definition py_truthy (v : pyval) : bool :=
  match v with
  | VNone => false
  | VBool b => b
  | VInt z => negb (Z.eqb z 0)
  | VStr s => negb (String.eqb s "")
  | VList l => match l with [] => false | _ => true end
  | VDict d => match d with [] => false | _ => true end
  end.

Definition is_list (v : pyval) : bool :=
  match v with VList _ => true | _ => false end.

Definition is_dict (v : pyval) : bool :=
  match v with VDict _ => true | _ => false end.

(** ** [obj.get(key, default)] *)

Fixpoint dict_lookup (d : list (string * pyval)) (k : string) : option pyval :=
  match d with
  | [] => None
  | (k', v) :: d' => if String.eqb k' k then Some v else dict_lookup d' k
  end.

(** Only a dict has a [get] method; any other receiver raises
    [AttributeError]. *)
Definition py_get (obj : pyval) (k : string) (default : pyval) : result pyval :=
  match obj with
  | VDict d => Ok (match dict_lookup d k with Some v => v | None => default end)
  | _ => Raise (AttributeError ("'" ++ type_name obj ++ "' object has no attribute 'get'"))
  end.

(** ** Iteration: [for x in v] *)

(** A list yields its items, a string its one-character strings, a
    dict its keys; the other modelled values are not iterable. *)
Definition py_iter (v : pyval) : result (list pyval) :=
  match v with
  | VList l => Ok l
  | VStr s => Ok (map (fun c => VStr (String c EmptyString)) (list_ascii_of_string s))
  | VDict d => Ok (map (fun kv => VStr (fst kv)) d)
  | _ => Raise (TypeError ("'" ++ type_name v ++ "' object is not iterable"))
  end.

(** ** [repr] and [str] *)

Definition dq : ascii := "034"%char.
Definition backslash : ascii := "\"%char.

Fixpoint has_char (c : ascii) (s : string) : bool :=
  match s with
  | EmptyString => false
  | String c' s' => Ascii.eqb c c' || has_char c s'
  end.

(** [Py_UNICODE_ISPRINTABLE] on code points 0-255: the ASCII
    graphic characters and space, and Latin-1 from 0xa1 on except
    the soft hyphen 0xad. *)
Definition latin1_printable (n : nat) : bool :=
  (Nat.leb 32 n && Nat.ltb n 127) || (Nat.leb 161 n && negb (Nat.eqb n 173)).

Definition hexdigit (n : nat) : ascii :=
  match String.get n "0123456789abcdef" with Some c => c | None => "0"%char end.

(** One character of [unicode_repr]: the quote and the backslash are
    escaped, then tab, newline and carriage return, then every
    non-printable code point as [\xhh]. *)
Definition repr_char (quote c : ascii) : string :=
  let n := nat_of_ascii c in
  if Ascii.eqb c quote || Ascii.eqb c backslash then String backslash (String c EmptyString)
  else if Nat.eqb n 9 then "\t"
  else if Nat.eqb n 10 then "\n"
  else if Nat.eqb n 13 then "\r"
  else if latin1_printable n then String c EmptyString
  else "\x" ++ String (hexdigit (n / 16)) (String (hexdigit (n mod 16)) EmptyString).

(** The quote is a single quote unless the text holds a single quote
    and no double quote. *)
Definition repr_quote (s : string) : ascii :=
  if has_char "'"%char s && negb (has_char dq s) then dq else "'"%char.

Fixpoint repr_body (q : ascii) (s : string) : string :=
  match s with
  | EmptyString => EmptyString
  | String c s' => repr_char q c ++ repr_body q s'
  end.

Definition repr_str (s : string) : string :=
  let q := repr_quote s in String q (repr_body q s ++ String q EmptyString).

Definition nat_to_str (n : nat) : string := NilEmpty.string_of_uint (Nat.to_uint n).
Definition int_to_str (z : Z) : string := NilEmpty.string_of_int (Z.to_int z).

(** [repr(v)]; a list shows the [repr] of its items, a dict
    [repr(key): repr(value)] per entry. *)
Fixpoint py_repr (v : pyval) : string :=
  match v with
  | VNone => "None"
  | VBool true => "True"
  | VBool false => "False"
  | VInt z => int_to_str z
  | VStr s => repr_str s
  | VList l => "[" ++ concat ", " (map py_repr l) ++ "]"
  | VDict d => "{" ++ concat ", " (map (fun '(k, x) => repr_str k ++ ": " ++ py_repr x) d) ++ "}"
  end.

(** [str(v)], which is also what an f-string hole [{v}] inserts
    ([format(v, '')]): a string is inserted as it is, the rest as
    their [repr]. *)
Definition py_str (v : pyval) : string :=
  match v with
  | VStr s => s
  | _ => py_repr v
  end.

(** ** [sep.join(items)] *)

(** CPython checks the items in order and raises at the first one
    that is not a [str], naming its index and type. *)
Fixpoint join_items (i : nat) (l : list pyval) : result (list string) :=
  match l with
  | [] => Ok []
  | VStr s :: l' => rest <- join_items (S i) l' ;; ret (s :: rest)
  | v :: _ =>
      Raise (TypeError ("sequence item " ++ nat_to_str i ++ ": expected str instance, "
                        ++ type_name v ++ " found"))
  end.

Definition py_join (sep : string) (l : list pyval) : result string :=
  map_result (concat sep) (join_items 0 l).

Definition is_str (v : pyval) : bool :=
  match v with VStr _ => true | _ => false end.

(** [sep.join(v)] on any value: the items of an iterable, else
    [TypeError]. *)
Definition py_join_value (sep : string) (v : pyval) : result string :=
  match py_iter v with
  | Ok items => py_join sep items
  | Raise _ => Raise (TypeError "can only join an iterable")
  end.

(** [iter(v)] succeeds. *)
Definition py_iterable (v : pyval) : bool :=
  match v with VList _ | VStr _ | VDict _ => true | _ => false end.

(** ** Lemmas *)

Lemma join_items_strs (i : nat) (l : list string) :
  join_items i (map VStr l) = Ok l.
Proof. revert i; induction l as [|s l IH]; intros i; simpl; [|rewrite IH]; reflexivity. Qed.

Lemma py_join_strs (sep : string) (l : list string) :
  py_join sep (map VStr l) = Ok (concat sep l).
Proof. unfold py_join; rewrite join_items_strs; reflexivity. Qed.

(** The first item that is not a [str] decides the error, whatever
    follows it. *)
Lemma join_items_first_bad (i : nat) (pre : list string) (v : pyval) (post : list pyval) :
  is_str v = false ->
  join_items i (map VStr pre ++ v :: post) =
  Raise (TypeError ("sequence item " ++ nat_to_str (i + List.length pre)
                    ++ ": expected str instance, " ++ type_name v ++ " found")).
Proof.
  intros Hv; revert i; induction pre as [|s pre IH]; intros i; simpl.
  - rewrite Nat.add_0_r; destruct v; try discriminate; reflexivity.
  - rewrite IH, Nat.add_succ_r; reflexivity.
Qed.

Lemma join_items_ok_iff (i : nat) (l : list pyval) :
  is_ok (join_items i l) = forallb is_str l.
Proof.
  revert i; induction l as [|v l IH]; intros i; [reflexivity|].
  destruct v; simpl; try reflexivity.
  rewrite <- (IH (S i)); destruct (join_items (S i) l); reflexivity.
Qed.

Lemma py_join_ok_iff (sep : string) (l : list pyval) :
  is_ok (py_join sep l) = forallb is_str l.
Proof.
  unfold py_join; rewrite <- (join_items_ok_iff 0); destruct (join_items 0 l); reflexivity.
Qed.

Lemma py_get_dict (d : list (string * pyval)) (k : string) (dflt : pyval) :
  py_get (VDict d) k dflt = Ok (match dict_lookup d k with Some v => v | None => dflt end).
Proof. reflexivity. Qed.

#[export] Hint Rewrite join_items_strs py_join_strs py_get_dict : strs.

Lemma py_iter_ok_iff (v : pyval) : is_ok (py_iter v) = py_iterable v.
Proof. destruct v; reflexivity. Qed.
