(* ===== verification/PyRepr.v ===== *)
(** * PyRepr: [repr] adds no ['<']

    An f-string hole inserts [str(v)]; for a list value that is the
    [repr] of its items between brackets, e.g. a [technologies] field
    holding a list of strings.  The structure theorems of the renderer
    ([Sections], [Blocks], [Items], [Nesting]) read the output's tags,
    and need that such a hole adds none: [repr] of a string holds a
    ['<'] exactly where the string does ([has_lt_repr_str]), since its
    escapes ([\\], [\'], [\t], [\n], [\r], [\xhh]) are made of
    backslashes, letters and hex digits. *)

From Stdlib Require Import List Ascii String Arith Lia.
From S2P Require Import Prelude PyValue.
Import ListNotations.
Open Scope bool_scope.
Open Scope string_scope.
Open Scope py_scope.

Lemma has_char_app (a : ascii) (x y : string) :
  has_char a (x ++ y) = has_char a x || has_char a y.
Proof. induction x as [|c x IH]; simpl; [reflexivity|]; rewrite IH, Bool.orb_assoc; reflexivity. Qed.

Lemma ascii_of_nat_eq (c : ascii) (n : nat) : nat_of_ascii c = n -> c = ascii_of_nat n.
Proof. intros <-; symmetry; apply ascii_nat_embedding. Qed.

Lemma hexdigit_not_lt (k : nat) : Ascii.eqb "<"%char (hexdigit k) = false.
Proof. unfold hexdigit; do 16 (destruct k as [|k]; [reflexivity|]); reflexivity. Qed.

(** A character printed by [repr] holds ['<'] only when it is ['<']. *)
Lemma has_lt_repr_char (q c : ascii) : has_char "<"%char (repr_char q c) = Ascii.eqb "<"%char c.
Proof.
  unfold repr_char.
  destruct (Ascii.eqb c q || Ascii.eqb c backslash); [cbn; rewrite Bool.orb_false_r; reflexivity|].
  destruct (Nat.eqb_spec (nat_of_ascii c) 9) as [E|]; [apply ascii_of_nat_eq in E; subst c; reflexivity|].
  destruct (Nat.eqb_spec (nat_of_ascii c) 10) as [E|]; [apply ascii_of_nat_eq in E; subst c; reflexivity|].
  destruct (Nat.eqb_spec (nat_of_ascii c) 13) as [E|]; [apply ascii_of_nat_eq in E; subst c; reflexivity|].
  destruct (latin1_printable (nat_of_ascii c)) eqn:P; [cbn; rewrite Bool.orb_false_r; reflexivity|].
  cbn [has_char append]; rewrite !hexdigit_not_lt.
  destruct (Ascii.eqb_spec "<"%char c) as [<-|]; [discriminate | reflexivity].
Qed.

Lemma has_lt_repr_body (q : ascii) (s : string) :
  has_char "<"%char (repr_body q s) = has_char "<"%char s.
Proof.
  induction s as [|c s IH]; [reflexivity|]; simpl.
  rewrite has_char_app, has_lt_repr_char, IH; reflexivity.
Qed.

(** [repr] adds no ['<'] of its own. *)
Lemma has_lt_repr_str (s : string) : has_char "<"%char (repr_str s) = has_char "<"%char s.
Proof.
  unfold repr_str; cbn [has_char]; rewrite has_char_app, has_lt_repr_body; cbn [has_char].
  unfold repr_quote; destruct (_ && _); cbn; rewrite ?Bool.orb_false_r; reflexivity.
Qed.
