(* ===== verification/PyString.v ===== *)
(** * PyString: [str.split(sep)] and [str.replace(old, new)]

    [generate_summary_from_experience] (line 13) splits the decoded
    summary with [str.split(". ")] and joins the fragments with
    [". \n".join].  [py_split] follows CPython's [split] loop: search
    the leftmost occurrence of the separator from the current position
    ([find_sep]), emit the text before it, continue after it; the loop
    runs on fuel, and [S (length s)] rounds are enough because every
    round consumes at least one character.  [py_replace] is Python's
    [str.replace], written as an independent left-to-right scan; it is
    the reference the split-then-join of the code is compared with. *)

From Stdlib Require Import List Ascii String Arith Lia.
From S2P Require Import Prelude.
Import ListNotations.
Open Scope bool_scope.
Open Scope string_scope.
Open Scope py_scope.

(** [s] with the prefix [p] removed, when [p] is a prefix of [s]. *)
Fixpoint strip_prefix (p s : string) : option string :=
  match p, s with
  | EmptyString, _ => Some s
  | String c p', String c' s' => if Ascii.eqb c c' then strip_prefix p' s' else None
  | String _ _, EmptyString => None
  end.

(** The leftmost occurrence of [sep] in [s], as the text before it and
    the text after it. *)
Fixpoint find_sep (sep s : string) : option (string * string) :=
  match strip_prefix sep s with
  | Some rest => Some (EmptyString, rest)
  | None =>
      match s with
      | EmptyString => None
      | String c s' =>
          match find_sep sep s' with
          | Some (pre, post) => Some (String c pre, post)
          | None => None
          end
      end
  end.

(** The loop of CPython's [split]: one fragment per occurrence, then the
    rest. *)
Fixpoint split_loop (fuel : nat) (sep s : string) : list string :=
  match fuel with
  | O => [s]
  | S fuel' =>
      match find_sep sep s with
      | None => [s]
      | Some (pre, post) => pre :: split_loop fuel' sep post
      end
  end.

(** [s.split(sep)]: an empty separator raises [ValueError]. *)
Definition py_split (sep s : string) : result (list string) :=
  if String.eqb sep "" then Raise (ValueError "empty separator")
  else Ok (split_loop (S (String.length s)) sep s).

(** [str.replace] for a non-empty [old]: scan left to right; where [old]
    starts, emit [new] and skip the rest of the match ([skip] counts the
    characters still to skip). *)
Fixpoint replace_go (old new : string) (skip : nat) (s : string) : string :=
  match s with
  | EmptyString => EmptyString
  | String c s' =>
      match skip with
      | S k => replace_go old new k s'
      | O =>
          match strip_prefix old s with
          | Some _ => new ++ replace_go old new (String.length old - 1) s'
          | None => String c (replace_go old new 0 s')
          end
      end
  end.

(** An empty [old] matches before every character and at the end. *)
Fixpoint interleave (new s : string) : string :=
  match s with
  | EmptyString => new
  | String c s' => new ++ String c (interleave new s')
  end.

Definition py_replace (old new s : string) : string :=
  if String.eqb old "" then interleave new s else replace_go old new 0 s.

(** ** The search *)

Lemma find_sep_cons (sep : string) (c : ascii) (s : string) :
  find_sep sep (String c s) =
  match strip_prefix sep (String c s) with
  | Some rest => Some (EmptyString, rest)
  | None => match find_sep sep s with Some (pre, post) => Some (String c pre, post) | None => None end
  end.
Proof. reflexivity. Qed.

Lemma strip_prefix_app (p r : string) : strip_prefix p (p ++ r) = Some r.
Proof. induction p; simpl; [reflexivity|]; rewrite Ascii.eqb_refl; exact IHp. Qed.

Lemma strip_prefix_some (p s r : string) : strip_prefix p s = Some r -> s = p ++ r.
Proof.
  revert s; induction p as [|c p IH]; intros [|c' s]; simpl; try congruence.
  destruct (Ascii.eqb_spec c c') as [<-|]; [intros H; rewrite (IH s H)|]; congruence.
Qed.

Lemma find_sep_some (sep s pre post : string) :
  find_sep sep s = Some (pre, post) -> s = pre ++ sep ++ post.
Proof.
  revert pre; induction s as [|c s IH]; intros pre; simpl.
  - destruct (strip_prefix sep "") eqn:E; intros H; [|discriminate].
    injection H as <- <-; exact (strip_prefix_some _ _ _ E).
  - destruct (strip_prefix sep (String c s)) eqn:E.
    + intros H; injection H as <- <-; exact (strip_prefix_some _ _ _ E).
    + destruct (find_sep sep s) as [[pre' post']|] eqn:F; intros H; [|discriminate].
      injection H as <- <-; simpl; rewrite (IH pre' eq_refl); reflexivity.
Qed.

Lemma length_strip_prefix (p s r : string) :
  strip_prefix p s = Some r -> String.length s = String.length p + String.length r.
Proof. intros H; rewrite (strip_prefix_some _ _ _ H), length_append; reflexivity. Qed.

(** Each round of the split loop consumes at least one character. *)
Lemma find_sep_shorter (sep s pre post : string) :
  sep <> "" -> find_sep sep s = Some (pre, post) -> String.length post < String.length s.
Proof.
  intros Hsep H; rewrite (find_sep_some _ _ _ _ H), !length_append.
  destruct sep; [congruence|]; simpl; lia.
Qed.

#[export] Hint Resolve find_sep_shorter : pyauto.

(** ** Splitting *)

Lemma split_loop_nonempty (fuel : nat) (sep s : string) : split_loop fuel sep s <> [].
Proof. destruct fuel; simpl; [|destruct (find_sep sep s) as [[]|]]; discriminate. Qed.

Lemma concat_cons_nonempty (sep x : string) (l : list string) :
  l <> [] -> concat sep (x :: l) = x ++ sep ++ concat sep l.
Proof. destruct l; [congruence | reflexivity]. Qed.

(** Joining the fragments with the separator gives the text back,
    whatever the fuel. *)
Lemma concat_split_loop (fuel : nat) (sep s : string) :
  concat sep (split_loop fuel sep s) = s.
Proof.
  revert s; induction fuel as [|fuel IH]; intros s; simpl; [reflexivity|].
  destruct (find_sep sep s) as [[pre post]|] eqn:E; [|reflexivity].
  rewrite concat_cons_nonempty by apply split_loop_nonempty.
  rewrite IH; symmetry; exact (find_sep_some _ _ _ _ E).
Qed.

(** ** Replacing *)

Lemma replace_go_skip (old new a r : string) :
  replace_go old new (String.length a) (a ++ r) = replace_go old new 0 r.
Proof. induction a; simpl; auto. Qed.

Lemma replace_go_found (sep r s pre post : string) :
  sep <> "" -> find_sep sep s = Some (pre, post) ->
  replace_go sep r 0 s = pre ++ r ++ replace_go sep r 0 post.
Proof.
  intros Hsep; revert pre; induction s as [|c s IH]; intros pre H.
  - pose proof (find_sep_some _ _ _ _ H) as E.
    destruct sep; [congruence|]; destruct pre; discriminate.
  - simpl in H |- *; destruct (strip_prefix sep (String c s)) as [rest|] eqn:E.
    + injection H as <- <-; simpl.
      pose proof (strip_prefix_some _ _ _ E) as Es.
      destruct sep as [|c0 sep']; [congruence|]; injection Es as -> Es; subst s; simpl.
      rewrite Nat.sub_0_r, replace_go_skip; reflexivity.
    + destruct (find_sep sep s) as [[pre' post']|] eqn:F; [|discriminate].
      injection H as <- <-; simpl; rewrite (IH pre' eq_refl); reflexivity.
Qed.

Lemma replace_go_not_found (sep r s : string) :
  find_sep sep s = None -> replace_go sep r 0 s = s.
Proof.
  induction s as [|c s IH]; intros H; simpl in H |- *; [reflexivity|].
  destruct (strip_prefix sep (String c s)); [discriminate|].
  destruct (find_sep sep s) as [[]|]; [discriminate|]; rewrite IH; reflexivity.
Qed.

Lemma concat_split_loop_replace (fuel : nat) (sep r s : string) :
  sep <> "" -> String.length s < fuel ->
  concat r (split_loop fuel sep s) = replace_go sep r 0 s.
Proof.
  intros Hsep; revert s; induction fuel as [|fuel IH]; intros s Hf; [lia|]; simpl.
  destruct (find_sep sep s) as [[pre post]|] eqn:E.
  - pose proof (find_sep_shorter _ _ _ _ Hsep E).
    rewrite concat_cons_nonempty by apply split_loop_nonempty.
    rewrite IH by lia; symmetry; exact (replace_go_found _ _ _ _ _ Hsep E).
  - symmetry; exact (replace_go_not_found _ _ _ E).
Qed.

(** ** Leftmost occurrences *)

Lemma strip_prefix_app_r (p a b r : string) :
  strip_prefix p a = Some r -> strip_prefix p (a ++ b) = Some (r ++ b).
Proof. intros H; rewrite (strip_prefix_some _ _ _ H), append_assoc; apply strip_prefix_app. Qed.

(** An occurrence is always found. *)
Lemma find_sep_complete (sep a b : string) : find_sep sep (a ++ sep ++ b) <> None.
Proof.
  induction a as [|c a IH]; simpl.
  - destruct sep; simpl; [destruct b; discriminate|]; rewrite Ascii.eqb_refl, strip_prefix_app; discriminate.
  - destruct (strip_prefix sep _); [discriminate|].
    destruct (find_sep sep (a ++ sep ++ b)) as [[]|]; [discriminate | contradiction].
Qed.

(** The text before the leftmost occurrence holds no occurrence. *)
Lemma find_sep_pre_clean (sep s pre post : string) :
  sep <> "" -> find_sep sep s = Some (pre, post) -> find_sep sep pre = None.
Proof.
  intros Hsep; revert pre; induction s as [|c s IH]; intros pre H; simpl in H.
  - destruct sep; [congruence|]; discriminate.
  - destruct (strip_prefix sep (String c s)) as [r|] eqn:E.
    + injection H as <- <-; destruct sep; [congruence|]; reflexivity.
    + destruct (find_sep sep s) as [[pre' post']|] eqn:F; [|discriminate].
      injection H as <- <-; simpl; rewrite (IH pre' eq_refl).
      destruct (strip_prefix sep (String c pre')) as [r|] eqn:G; [|reflexivity].
      rewrite (find_sep_some _ _ _ _ F) in E.
      apply (strip_prefix_app_r _ _ (sep ++ post')) in G; simpl in G; congruence.
Qed.

(** With enough fuel, no fragment of a split holds the separator. *)
Lemma split_loop_clean (fuel : nat) (sep s : string) :
  sep <> "" -> String.length s < fuel ->
  Forall (fun f => find_sep sep f = None) (split_loop fuel sep s).
Proof.
  intros Hsep; revert s; induction fuel as [|fuel IH]; intros s Hf; [lia|]; simpl.
  destruct (find_sep sep s) as [[pre post]|] eqn:E; [|constructor; auto].
  pose proof (find_sep_shorter _ _ _ _ Hsep E).
  constructor; [exact (find_sep_pre_clean _ _ _ _ Hsep E) | apply IH; lia].
Qed.

(** ** [str.split] *)

