(* ===== verification/Renderer.v ===== *)
(** * Renderer: [generate_resume_html] (resume_builder_logic.py, lines 16-133)

    The function keeps one piece of state, the local [html].  It is
    initialised by the f-string of lines 17-56 and grown by [html += ...]
    at lines 61, 70, 80, 88, 108 and 117.  Here [html] is the state of
    the monad [HtmlM], which also carries Python's exceptions: a failing
    f-string hole ([data.get] on a non-dict, iteration over a
    non-iterable, [str.join] over a non-[str]) ends the call.

    Each f-string is split into its text, a pure function of the strings
    its holes produce ([head_html], [experience_html], ...), and the
    evaluation of its holes in the source's left-to-right order
    ([head_fstring], [experience_fstring], ...).  The template text is
    the source's, character for character, with a backquote standing
    for each double quote of the HTML (Rocq writes a double quote in a
    string literal by doubling it), which [tmpl] puts back. *)

From Stdlib Require Import List Ascii String ZArith Lia.
From S2P Require Import Prelude PyValue.
Import ListNotations.
Open Scope bool_scope.
Open Scope string_scope.
Open Scope py_scope.

Fixpoint tmpl (s : string) : string :=
  match s with
  | EmptyString => EmptyString
  | String c s' => String (if Ascii.eqb c "`"%char then dq else c) (tmpl s')
  end.

(** ** The f-strings' text *)

(** Lines 17-56: document head, style sheet, header, contact line,
    summary, and the opening of the Work Experience section. *)
Definition head_html (title_name h1_name phone email linkedin portfolio address summary : string)
  : string :=
  tmpl "
    <!DOCTYPE html>
    <html lang=`en`>
    <head>
        <meta charset=`UTF-8`>
        <meta name=`viewport` content=`width=device-width, initial-scale=1.0`>
        <title>Resume - " ++ title_name ++ tmpl "</title>
        <style>
            body { font-family: Arial, sans-serif; line-height: 1.6; color: #333; }
            .container { max-width: 800px; margin: 0 auto; padding: 20px; }
            h1 { text-align: center; font-size: 36px; margin-bottom: 10px; color: #000; }
            .contact-info { text-align: center; margin-bottom: 20px; }
            .section { margin-bottom: 20px; }
            .section h2 { font-size: 20px; color: #000; border-bottom: 2px solid #000; padding-bottom: 5px; margin-bottom: 10px; font-weight: bold; }
            .experience, .education, .project { margin-bottom: 15px; }
            .experience h3, .education h3, .project h3 { margin: 0; font-size: 18px; }
            .experience p, .education p, .project p { margin: 5px 0; }
            .skills, .certifications, .languages, .hobbies { margin-bottom: 10px; }
            ul { padding-left: 20px; }
        </style>
    </head>
    <body>
        <div class=`container`>
            <h1>" ++ h1_name ++ tmpl "</h1>
            <div class=`contact-info`>
                <span>Phone: " ++ phone ++ "</span> | " ++ "
                <span>Email: " ++ email ++ "</span> | " ++ "
                <span>LinkedIn: " ++ linkedin ++ "</span> | " ++ "
                <span>Portfolio: " ++ portfolio ++ "</span> | " ++ "
                <span>Address: " ++ address ++ tmpl "</span>
            </div>

            <div class=`section`>
                <h2>Professional Summary</h2>
                <p>" ++ summary ++ tmpl "</p>
            </div>

            <div class=`section`>
                <h2>Work Experience</h2>
    ".

(** Lines 61-68: one work-experience block. *)
Definition experience_html (job_title company location start_date end_date items : string)
  : string :=
  tmpl "
                    <div class=`experience`>
                        <h3>" ++ job_title ++ " | " ++ company ++ " | " ++ location ++ " | "
  ++ start_date ++ " - " ++ end_date ++ "</h3>
                        <ul>
                            " ++ items ++ "
                        </ul>
                    </div>
                ".

(** Lines 70-75: a plain string, closing Work Experience and opening
    Education. *)
Definition education_open : string :=
  tmpl "
            </div>

            <div class=`section`>
                <h2>Education</h2>
    ".

(** Lines 80-86: one education block. *)
Definition education_html (degree institution location graduation_date honors : string)
  : string :=
  tmpl "
                    <div class=`education`>
                        <h3>" ++ degree ++ "</h3>
                        <p>" ++ institution ++ " | " ++ location ++ " | Graduated: "
  ++ graduation_date ++ "</p>
                        <p>Honors/Awards: " ++ honors ++ "</p>
                    </div>
                ".

(** Lines 88-103: Skills and Certifications, and the opening of
    Projects. *)
Definition middle_html (skills certifications : string) : string :=
  tmpl "
            </div>

            <div class=`section`>
                <h2>Skills</h2>
                <p>" ++ skills ++ tmpl "</p>
            </div>

            <div class=`section`>
                <h2>Certifications</h2>
                <p>" ++ certifications ++ tmpl "</p>
            </div>

            <div class=`section`>
                <h2>Projects</h2>
    ".

(** Lines 108-115: one project block. *)
Definition project_html (title description technologies role : string) : string :=
  tmpl "
                    <div class=`project`>
                        <h3>" ++ title ++ "</h3>
                        <p><strong>Description:</strong> " ++ description ++ "</p>
                        <p><strong>Technologies:</strong> " ++ technologies ++ "</p>
                        <p><strong>Role:</strong> " ++ role ++ "</p>
                    </div>
                ".

(** Lines 117-132: Languages, Hobbies and Interests, and the end of
    the document. *)
Definition footer_html (languages hobbies : string) : string :=
  tmpl "
            </div>

            <div class=`section`>
                <h2>Languages</h2>
                <p>" ++ languages ++ tmpl "</p>
            </div>

            <div class=`section`>
                <h2>Hobbies and Interests</h2>
                <p>" ++ hobbies ++ "</p>
            </div>
        </div>
    </body>
    </html>
    ".

(** ** The accumulator [html] as state *)

Definition HtmlM (A : Type) : Type := string -> result (A * string).

#[export] Instance html_monad : Monad HtmlM := {
  ret := fun _ a html => Ok (a, html);
  bind := fun _ _ m f html =>
    match m html with Ok (a, html') => f a html' | Raise e => Raise e end
}.

(** [html += s] *)
Definition emit (s : string) : HtmlM unit := fun html => Ok (tt, html ++ s).

(** A computation that does not touch [html]. *)
Definition lift {A} (r : result A) : HtmlM A :=
  fun html => match r with Ok a => Ok (a, html) | Raise e => Raise e end.

(** [for x in l: body] *)
Fixpoint py_for {A} (l : list A) (body : A -> HtmlM unit) : HtmlM unit :=
  match l with
  | [] => ret tt
  | x :: l' => body x ;;; py_for l' body
  end.

(** ** The f-strings' holes, evaluated left to right *)

(** [{d.get(key, default)}] *)
Definition hole (d : pyval) (key : string) (default : string) : result string :=
  v <- py_get d key (VStr default) ;; ret (py_str v).

Definition head_fstring (data : pyval) : result string :=
  title_name <- hole data "name" "" ;;
  h1_name <- hole data "name" "" ;;
  phone <- hole data "phone" "" ;;
  email <- hole data "email" "" ;;
  linkedin <- hole data "linkedin" "N/A" ;;
  portfolio <- hole data "portfolio" "N/A" ;;
  address <- hole data "address" "N/A" ;;
  summary <- hole data "summary" "" ;;
  ret (head_html title_name h1_name phone email linkedin portfolio address summary).

(** Line 65: [' '.join([f'<li>{ach}</li>' for ach in achievements])];
    the items are strings, so this join cannot fail, but the iteration
    can. *)
Definition li_items (achievements : pyval) : result string :=
  items <- py_iter achievements ;;
  ret (concat " " (map (fun ach => "<li>" ++ py_str ach ++ "</li>") items)).

Definition experience_fstring (exp : pyval) : result string :=
  job_title <- hole exp "job_title" "" ;;
  company <- hole exp "company" "" ;;
  location <- hole exp "location" "" ;;
  start_date <- hole exp "start_date" "" ;;
  end_date <- hole exp "end_date" "" ;;
  achievements <- py_get exp "achievements" (VList []) ;;
  items <- li_items achievements ;;
  ret (experience_html job_title company location start_date end_date items).

Definition education_fstring (edu : pyval) : result string :=
  degree <- hole edu "degree" "" ;;
  institution <- hole edu "institution" "" ;;
  location <- hole edu "location" "" ;;
  graduation_date <- hole edu "graduation_date" "" ;;
  honors <- hole edu "honors" "N/A" ;;
  ret (education_html degree institution location graduation_date honors).

(** Line 93: [', '.join(data.get('skills', [])) if
    isinstance(data.get('skills'), list) else ''] *)
Definition skills_text (data : pyval) : result string :=
  probe <- py_get data "skills" VNone ;;
  if is_list probe
  then (xs <- py_get data "skills" (VList []) ;; py_join_value ", " xs)
  else ret "".

(** Lines 98, 122, 127: [', '.join(data.get(key, [])) if data.get(key)
    and isinstance(data.get(key), list) else "N/A"]; [and] evaluates
    its right operand only when the left one is truthy. *)
Definition na_list_text (data : pyval) (key : string) : result string :=
  probe <- py_get data key VNone ;;
  cond <- (if py_truthy probe
           then (probe' <- py_get data key VNone ;; ret (is_list probe'))
           else ret false) ;;
  if cond
  then (xs <- py_get data key (VList []) ;; py_join_value ", " xs)
  else ret "N/A".

Definition middle_fstring (data : pyval) : result string :=
  skills <- skills_text data ;;
  certifications <- na_list_text data "certifications" ;;
  ret (middle_html skills certifications).

Definition project_fstring (proj : pyval) : result string :=
  title <- hole proj "title" "" ;;
  description <- hole proj "description" "" ;;
  technologies <- hole proj "technologies" "" ;;
  role <- hole proj "role" "" ;;
  ret (project_html title description technologies role).

Definition footer_fstring (data : pyval) : result string :=
  languages <- na_list_text data "languages" ;;
  hobbies <- na_list_text data "hobbies" ;;
  ret (footer_html languages hobbies).

(** ** The function *)

(** Lines 57-60, 76-79, 104-107: [xs = data.get(key, [])], then [if
    isinstance(xs, list): for x in xs: if isinstance(x, dict): html +=
    block(x)]. *)
Definition entries_loop (data : pyval) (key : string) (block : pyval -> result string)
  : HtmlM unit :=
  xs <- lift (py_get data key (VList [])) ;;
  match xs with
  | VList items =>
      py_for items (fun x => if is_dict x then (s <- lift (block x) ;; emit s) else ret tt)
  | _ => ret tt
  end.

Definition resume_body (data : pyval) : HtmlM unit :=
  entries_loop data "experiences" experience_fstring ;;;
  emit education_open ;;;
  entries_loop data "education" education_fstring ;;;
  s <- lift (middle_fstring data) ;; emit s ;;;
  entries_loop data "projects" project_fstring ;;;
  s' <- lift (footer_fstring data) ;; emit s'.

Definition generate_resume_html (data : pyval) : result string :=
  html <- head_fstring data ;;
  match resume_body data html with
  | Ok (_, html') => Ok html'
  | Raise e => Raise e
  end.

(** * The abstract document

    The spec (sections 3 and 4.1) describes the output as ten sections
    in a fixed order, filled from a resume dict with per-field defaults:
    an absent scalar shows as [""] or ["N/A"], a list-of-records field
    keeps its dict entries and drops the others, [skills] shows the
    comma-joined list or [""], [certifications], [languages] and
    [hobbies] the comma-joined list or ["N/A"] when absent, empty or not
    a list.  [view] reads a dict that way, once and field by field, as a
    [ResumeDoc], with the errors [str.join] and iteration raise;
    [layout] is the document's text as the concatenation of its parts. *)

Record ExperienceView := {
  xv_job_title : string; xv_company : string; xv_location : string;
  xv_start_date : string; xv_end_date : string;
  xv_achievements : list string
}.

Record EducationView := {
  ev_degree : string; ev_institution : string; ev_location : string;
  ev_graduation_date : string; ev_honors : string
}.

Record ProjectView := {
  pv_title : string; pv_description : string; pv_technologies : string; pv_role : string
}.

Record ResumeDoc := {
  doc_name : string; doc_phone : string; doc_email : string;
  doc_linkedin : string; doc_portfolio : string; doc_address : string;
  doc_summary : string;
  doc_experiences : list ExperienceView;
  doc_education : list EducationView;
  doc_skills : string;
  doc_certifications : string;
  doc_projects : list ProjectView;
  doc_languages : string;
  doc_hobbies : string
}.

(** ** Reading a dict *)

Section View.
Variable d : list (string * pyval).

(** A scalar field as displayed: its [str], or the default. *)
Definition field (k dflt : string) : string :=
  match dict_lookup d k with Some v => py_str v | None => dflt end.

Definition skills_spec : result string :=
  match dict_lookup d "skills" with
  | Some (VList l) => py_join ", " l
  | _ => ret ""
  end.

Definition na_list_spec (k : string) : result string :=
  match dict_lookup d k with
  | Some (VList (x :: l)) => py_join ", " (x :: l)
  | _ => ret "N/A"
  end.
End View.

(** The entries of a list-of-records field that are dicts, read by [f];
    the others are skipped. *)
Fixpoint view_entries {A} (f : list (string * pyval) -> result A) (l : list pyval)
  : result (list A) :=
  match l with
  | [] => ret []
  | VDict e :: l' => a <- f e ;; rest <- view_entries f l' ;; ret (a :: rest)
  | _ :: l' => view_entries f l'
  end.

Definition entries_spec {A} (d : list (string * pyval)) (k : string)
  (f : list (string * pyval) -> result A) : result (list A) :=
  match dict_lookup d k with
  | Some (VList l) => view_entries f l
  | _ => ret []
  end.

Definition achievements_of (e : list (string * pyval)) : pyval :=
  match dict_lookup e "achievements" with Some v => v | None => VList [] end.

Definition view_experience (e : list (string * pyval)) : result ExperienceView :=
  items <- py_iter (achievements_of e) ;;
  ret {| xv_job_title := field e "job_title" ""; xv_company := field e "company" "";
         xv_location := field e "location" ""; xv_start_date := field e "start_date" "";
         xv_end_date := field e "end_date" ""; xv_achievements := map py_str items |}.

Definition view_education (e : list (string * pyval)) : result EducationView :=
  ret {| ev_degree := field e "degree" ""; ev_institution := field e "institution" "";
         ev_location := field e "location" ""; ev_graduation_date := field e "graduation_date" "";
         ev_honors := field e "honors" "N/A" |}.

Definition view_project (e : list (string * pyval)) : result ProjectView :=
  ret {| pv_title := field e "title" ""; pv_description := field e "description" "";
         pv_technologies := field e "technologies" ""; pv_role := field e "role" "" |}.

(** The sections that can fail are read in the order the document
    shows them, so the first failing one decides the error. *)
Definition view_dict (d : list (string * pyval)) : result ResumeDoc :=
  exps <- entries_spec d "experiences" view_experience ;;
  edus <- entries_spec d "education" view_education ;;
  skills <- skills_spec d ;;
  certs <- na_list_spec d "certifications" ;;
  projs <- entries_spec d "projects" view_project ;;
  langs <- na_list_spec d "languages" ;;
  hobbies <- na_list_spec d "hobbies" ;;
  ret {| doc_name := field d "name" ""; doc_phone := field d "phone" "";
         doc_email := field d "email" ""; doc_linkedin := field d "linkedin" "N/A";
         doc_portfolio := field d "portfolio" "N/A"; doc_address := field d "address" "N/A";
         doc_summary := field d "summary" "";
         doc_experiences := exps; doc_education := edus; doc_skills := skills;
         doc_certifications := certs; doc_projects := projs;
         doc_languages := langs; doc_hobbies := hobbies |}.

Definition view (data : pyval) : result ResumeDoc :=
  match data with
  | VDict d => view_dict d
  | _ => Raise (AttributeError ("'" ++ type_name data ++ "' object has no attribute 'get'"))
  end.

(** ** The document's text *)

Definition layout_experience (x : ExperienceView) : string :=
  experience_html (xv_job_title x) (xv_company x) (xv_location x) (xv_start_date x)
    (xv_end_date x) (concat " " (map (fun a => "<li>" ++ a ++ "</li>") (xv_achievements x))).

Definition layout_education (x : EducationView) : string :=
  education_html (ev_degree x) (ev_institution x) (ev_location x) (ev_graduation_date x)
    (ev_honors x).

Definition layout_project (x : ProjectView) : string :=
  project_html (pv_title x) (pv_description x) (pv_technologies x) (pv_role x).

Definition layout (r : ResumeDoc) : string :=
  head_html (doc_name r) (doc_name r) (doc_phone r) (doc_email r) (doc_linkedin r)
    (doc_portfolio r) (doc_address r) (doc_summary r)
  ++ concat "" (map layout_experience (doc_experiences r))
  ++ education_open
  ++ concat "" (map layout_education (doc_education r))
  ++ middle_html (doc_skills r) (doc_certifications r)
  ++ concat "" (map layout_project (doc_projects r))
  ++ footer_html (doc_languages r) (doc_hobbies r).

(** ** When rendering succeeds *)

(** Every dict entry of the list bound to [k] satisfies [ok]. *)
Definition entries_ok (d : list (string * pyval)) (k : string)
  (ok : list (string * pyval) -> bool) : bool :=
  match dict_lookup d k with
  | Some (VList l) => forallb (fun x => match x with VDict e => ok e | _ => true end) l
  | _ => true
  end.

(** A text-list field holds only strings when it is a list. *)
Definition text_list_ok (d : list (string * pyval)) (k : string) : bool :=
  match dict_lookup d k with
  | Some (VList l) => forallb is_str l
  | _ => true
  end.

(** The input is a dict, the achievements of every experience entry are
    iterable, and the four text lists hold only strings. *)
Definition render_ok (data : pyval) : bool :=
  match data with
  | VDict d =>
      entries_ok d "experiences" (fun e => py_iterable (achievements_of e))
      && text_list_ok d "skills" && text_list_ok d "certifications"
      && text_list_ok d "languages" && text_list_ok d "hobbies"
  | _ => false
  end.

(** The body of the loops of lines 59-60, 78-79 and 106-107. *)
Definition loop_body (block : pyval -> result string) (x : pyval) : HtmlM unit :=
  if is_dict x then (s <- lift (block x) ;; emit s) else ret tt.

(** * Refinement: [generate_resume_html] computes [layout] of [view]

    The renderer threads [html] through [html += ...] statements inside
    loops, asks [data.get] twice for the same key and decides the text
    lists with truthiness and [isinstance]; [view] reads the dict once.
    [generate_resume_html_refines] (C1) says the two agree on every
    input, errors included; the lemmas prove it one f-string and one
    loop at a time. *)

(** The template text stays folded in these proofs. *)
Local Opaque head_html experience_html education_open education_html middle_html
  project_html footer_html.



(** ** One f-string hole at a time *)

Lemma hole_dict (d : list (string * pyval)) (k dflt : string) :
  hole (VDict d) k dflt = Ok (field d k dflt).
Proof. unfold hole, field; simpl; destruct (dict_lookup d k); reflexivity. Qed.

Lemma py_join_value_list (sep : string) (l : list pyval) :
  py_join_value sep (VList l) = py_join sep l.
Proof. reflexivity. Qed.

#[export] Hint Rewrite hole_dict py_join_value_list : strs.

(** Line 93 reads [skills] twice; the result is the spec's. *)
Lemma skills_text_dict (d : list (string * pyval)) :
  skills_text (VDict d) = skills_spec d.
Proof.
  unfold skills_text, skills_spec; simpl.
  destruct (dict_lookup d "skills") as [[]|]; reflexivity.
Qed.

(** Lines 98, 122, 127: truthiness and [isinstance] together select
    exactly the non-empty lists. *)
Lemma na_list_text_dict (d : list (string * pyval)) (k : string) :
  na_list_text (VDict d) k = na_list_spec d k.
Proof.
  unfold na_list_text, na_list_spec; simpl.
  destruct (dict_lookup d k) as [[| b | z | s | [|x l] | [|kv e]]|]; simpl;
    try reflexivity; try (destruct b; reflexivity);
    try (destruct (Z.eqb z 0); reflexivity); destruct (String.eqb s ""); reflexivity.
Qed.

Lemma experience_fstring_dict (e : list (string * pyval)) :
  experience_fstring (VDict e) = map_result layout_experience (view_experience e).
Proof.
  unfold experience_fstring, view_experience, li_items; autorewrite with strs; simpl.
  destruct (py_iter _); simpl; [|reflexivity].
  unfold layout_experience; simpl; rewrite map_map; reflexivity.
Qed.

Lemma education_fstring_dict (e : list (string * pyval)) :
  education_fstring (VDict e) = map_result layout_education (view_education e).
Proof. unfold education_fstring; autorewrite with strs; reflexivity. Qed.

Lemma project_fstring_dict (e : list (string * pyval)) :
  project_fstring (VDict e) = map_result layout_project (view_project e).
Proof. unfold project_fstring; autorewrite with strs; reflexivity. Qed.

(** ** The loops *)

Section Loop.
Context {A : Type}.
Variable block : pyval -> result string.
Variable f : list (string * pyval) -> result A.
Variable render : A -> string.
Hypothesis block_spec : forall e, block (VDict e) = map_result render (f e).

(** Running the loop appends the rendered dict entries, in order, to
    whatever [html] held; the first failing entry ends it. *)
Lemma py_for_entries (l : list pyval) (html : string) :
  py_for l (loop_body block) html
  = map_result (fun xs => (tt, html ++ concat "" (map render xs))) (view_entries f l).
Proof.
  revert html; induction l as [|x l IH]; intros html; simpl.
  - rewrite append_nil_r; reflexivity.
  - unfold loop_body at 1; destruct x; simpl; try apply IH.
    rewrite block_spec; destruct (f entries) as [a|]; simpl; [|reflexivity].
    rewrite IH; destruct (view_entries f l); cbn [map_result map]; [|reflexivity].
    rewrite concat_empty_cons, append_assoc; reflexivity.
Qed.

Lemma entries_loop_dict (d : list (string * pyval)) (k : string) (html : string) :
  entries_loop (VDict d) k block html
  = map_result (fun xs => (tt, html ++ concat "" (map render xs))) (entries_spec d k f).
Proof.
  unfold entries_loop, entries_spec; simpl.
  destruct (dict_lookup d k) as [[]|]; simpl; try (rewrite append_nil_r; reflexivity).
  apply py_for_entries.
Qed.
End Loop.

(** ** The whole function *)

Lemma generate_resume_html_dict (d : list (string * pyval)) :
  generate_resume_html (VDict d) = map_result layout (view_dict d).
Proof.
  unfold generate_resume_html, head_fstring; autorewrite with strs; simpl.
  unfold resume_body, view_dict; simpl.
  rewrite (entries_loop_dict _ _ _ experience_fstring_dict).
  destruct (entries_spec d "experiences" view_experience) as [exps|]; simpl; [|reflexivity].
  rewrite (entries_loop_dict _ _ _ education_fstring_dict).
  destruct (entries_spec d "education" view_education) as [edus|]; simpl; [|reflexivity].
  unfold middle_fstring; rewrite skills_text_dict, na_list_text_dict.
  destruct (skills_spec d) as [skills|]; simpl; [|reflexivity].
  destruct (na_list_spec d "certifications") as [certs|]; simpl; [|reflexivity].
  rewrite (entries_loop_dict _ _ _ project_fstring_dict).
  destruct (entries_spec d "projects" view_project) as [projs|]; simpl; [|reflexivity].
  unfold footer_fstring; rewrite !na_list_text_dict.
  destruct (na_list_spec d "languages") as [langs|]; simpl; [|reflexivity].
  destruct (na_list_spec d "hobbies") as [hobbies|]; simpl; [|reflexivity].
  unfold layout; simpl; autorewrite with strs; reflexivity.
Qed.

(** C1: the imperative renderer refines the abstract document: on
    every input, [generate_resume_html] returns the text [layout] gives
    to the document [view] reads from the dict, and raises exactly the
    exception [view] raises when it fails. *)
Theorem generate_resume_html_refines (data : pyval) :
  generate_resume_html data = map_result layout (view data).
Proof. destruct data; try reflexivity; apply generate_resume_html_dict. Qed.

(** * What the renderer shows and when it fails

    Properties stated on the code's definitions and proved through the
    refinement lemmas: the exact failure condition, the exceptions, the
    skipping of non-dict entries, the defaults, the joins, and the
    absence of HTML escaping. *)


(** ** Shared lemmas *)

Lemma view_entries_skip {A} (f : list (string * pyval) -> result A) (l1 l2 : list pyval)
  (x : pyval) :
  is_dict x = false -> view_entries f (l1 ++ x :: l2) = view_entries f (l1 ++ l2).
Proof.
  intros Hx; induction l1 as [|y l1 IH]; simpl.
  - destruct x; try discriminate; reflexivity.
  - destruct y; try apply IH; rewrite IH; reflexivity.
Qed.

(** An entry that fails after entries that succeed decides the error. *)
Lemma view_entries_first_error {A} (f : list (string * pyval) -> result A)
  (pre : list pyval) (e : list (string * pyval)) (post : list pyval) (err : exn) :
  forallb (fun x => match x with VDict e' => is_ok (f e') | _ => true end) pre = true ->
  f e = Raise err -> view_entries f (pre ++ VDict e :: post) = Raise err.
Proof.
  intros Hpre He; induction pre as [|y pre IH]; simpl in *.
  - rewrite He; reflexivity.
  - destruct y; try (apply IH; exact Hpre).
    apply andb_prop in Hpre as [Hy Hpre].
    destruct (f entries); [|discriminate]; simpl; rewrite IH; auto.
Qed.

Lemma is_ok_bind {A B} (r : result A) (k : A -> result B) (b : bool) :
  (forall a, is_ok (k a) = b) -> is_ok (bind r k) = is_ok r && b.
Proof. intros H; destruct r; simpl; auto. Qed.

Lemma is_ok_view_entries {A} (f : list (string * pyval) -> result A) (l : list pyval) :
  is_ok (view_entries f l)
  = forallb (fun x => match x with VDict e => is_ok (f e) | _ => true end) l.
Proof.
  induction l as [|x l IH]; [reflexivity|].
  destruct x; simpl; try exact IH.
  destruct (f entries); simpl; [|reflexivity].
  rewrite <- IH; destruct (view_entries f l); reflexivity.
Qed.

(** ** Defaults *)

(** ** Entries that are not dicts *)

(** C6: in [experiences], [education] and [projects], an entry that is
    not a dict is dropped without affecting its siblings: removing it
    leaves the output, or the exception, unchanged. *)
Theorem generate_resume_html_skips_non_dict (k : string) (d : list (string * pyval))
  (l1 l2 : list pyval) (x : pyval) :
  In k ["experiences"; "education"; "projects"] -> is_dict x = false ->
  generate_resume_html (VDict ((k, VList (l1 ++ x :: l2)) :: d))
  = generate_resume_html (VDict ((k, VList (l1 ++ l2)) :: d)).
Proof.
  intros Hk Hx; rewrite !generate_resume_html_dict.
  destruct Hk as [<-|[<-|[<-|[]]]];
    unfold view_dict, entries_spec; simpl; rewrite view_entries_skip by exact Hx;
    reflexivity.
Qed.

Lemma generate_resume_html_skips_non_dict_witness :
  In "experiences" ["experiences"; "education"; "projects"] /\ is_dict (VStr "junk") = false /\
  generate_resume_html
    (VDict [("experiences", VList ([] ++ VStr "junk" :: [VDict [("job_title", VStr "Dev")]]))])
  = generate_resume_html (VDict [("experiences", VList ([] ++ [VDict [("job_title", VStr "Dev")]]))]).
Proof.
  split; [simpl; auto|]; split; [reflexivity|].
  apply (generate_resume_html_skips_non_dict "experiences" [] [] _ (VStr "junk")); simpl; auto.
Defined.

(** ** Achievements and text lists *)

(** C8: line 93 shows the skills only when the field is a list: when
    [skills] is absent or holds anything that is not a list ([None], a
    boolean, a number, a dict, or a string, which is not split into its
    characters), the Skills section shows [""]. *)
Theorem skills_text_non_list (d : list (string * pyval)) :
  (forall l, dict_lookup d "skills" <> Some (VList l)) -> skills_text (VDict d) = Ok "".
Proof.
  intros H; unfold skills_text; simpl.
  destruct (dict_lookup d "skills") as [[| | | |l|]|] eqn:E; try reflexivity.
  exfalso; eapply H; reflexivity.
Qed.

Lemma skills_text_non_list_witness :
  (forall l, dict_lookup [("skills", VStr "Python, Go")] "skills" <> Some (VList l)) /\
  skills_text (VDict [("skills", VStr "Python, Go")]) = Ok "".
Proof.
  assert (H : forall l, dict_lookup [("skills", VStr "Python, Go")] "skills" <> Some (VList l))
    by (intros l; simpl; congruence).
  split; [exact H | exact (skills_text_non_list _ H)].
Defined.

(** C7: lines 98, 122, 127: [certifications], [languages] and
    [hobbies] show ["N/A"] whenever the field is not a non-empty list:
    absent, [None], an empty list, a string, a dict, a number. *)
Theorem na_list_text_fallback (d : list (string * pyval)) (k : string) :
  (forall x l, dict_lookup d k <> Some (VList (x :: l))) ->
  na_list_text (VDict d) k = Ok "N/A".
Proof.
  intros H; unfold na_list_text; simpl.
  destruct (dict_lookup d k) as [v|] eqn:E; [|reflexivity].
  destruct v as [|b|z|s|[|x l]|e]; simpl; try reflexivity.
  all: try (exfalso; eapply H; reflexivity).
  all: repeat match goal with |- context [if ?c then _ else _] => destruct c end;
    reflexivity.
Qed.

Lemma na_list_text_fallback_witness :
  (forall x l, dict_lookup [("certifications", VList [])] "certifications" <> Some (VList (x :: l)))
  /\ na_list_text (VDict [("certifications", VList [])]) "certifications" = Ok "N/A".
Proof.
  assert (H : forall x l, dict_lookup [("certifications", VList [])] "certifications"
                          <> Some (VList (x :: l))) by (intros x l; simpl; congruence).
  split; [exact H | exact (na_list_text_fallback _ _ H)].
Defined.

(** ** When rendering fails *)

Lemma is_ok_map_result {A B} (f : A -> B) (r : result A) : is_ok (map_result f r) = is_ok r.
Proof. destruct r; reflexivity. Qed.

Lemma is_ok_entries_spec {A} (d : list (string * pyval)) (k : string)
  (f : list (string * pyval) -> result A) :
  is_ok (entries_spec d k f) = entries_ok d k (fun e => is_ok (f e)).
Proof.
  unfold entries_spec, entries_ok; destruct (dict_lookup d k) as [[]|]; try reflexivity.
  apply is_ok_view_entries.
Qed.

Lemma entries_ok_ext (d : list (string * pyval)) (k : string)
  (f g : list (string * pyval) -> bool) :
  (forall e, f e = g e) -> entries_ok d k f = entries_ok d k g.
Proof.
  intros H; unfold entries_ok; destruct (dict_lookup d k) as [[| | | |l|]|]; try reflexivity.
  induction l as [|[] l IH]; simpl; rewrite ?H, ?IH; reflexivity.
Qed.

Lemma entries_ok_true (d : list (string * pyval)) (k : string) :
  entries_ok d k (fun _ => true) = true.
Proof.
  unfold entries_ok; destruct (dict_lookup d k) as [[| | | |l|]|]; try reflexivity.
  apply forallb_forall; intros [] _; reflexivity.
Qed.

Lemma is_ok_skills_spec (d : list (string * pyval)) :
  is_ok (skills_spec d) = text_list_ok d "skills".
Proof.
  unfold skills_spec, text_list_ok; destruct (dict_lookup d "skills") as [[]|]; try reflexivity.
  apply py_join_ok_iff.
Qed.

Lemma is_ok_na_list_spec (d : list (string * pyval)) (k : string) :
  is_ok (na_list_spec d k) = text_list_ok d k.
Proof.
  unfold na_list_spec, text_list_ok; destruct (dict_lookup d k) as [[| | | |[|x l]|]|];
    try reflexivity; apply py_join_ok_iff.
Qed.

Lemma is_ok_view_experience (e : list (string * pyval)) :
  is_ok (view_experience e) = py_iterable (achievements_of e).
Proof. unfold view_experience; rewrite <- py_iter_ok_iff; destruct (py_iter _); reflexivity. Qed.

Lemma is_ok_view_dict (d : list (string * pyval)) :
  is_ok (view_dict d)
  = is_ok (entries_spec d "experiences" view_experience)
    && is_ok (entries_spec d "education" view_education)
    && is_ok (skills_spec d) && is_ok (na_list_spec d "certifications")
    && is_ok (entries_spec d "projects" view_project)
    && is_ok (na_list_spec d "languages") && is_ok (na_list_spec d "hobbies").
Proof.
  unfold view_dict.
  destruct (entries_spec d "experiences" view_experience); simpl; [|reflexivity].
  destruct (entries_spec d "education" view_education); simpl; [|reflexivity].
  destruct (skills_spec d); simpl; [|reflexivity].
  destruct (na_list_spec d "certifications"); simpl; [|reflexivity].
  destruct (entries_spec d "projects" view_project); simpl; [|reflexivity].
  destruct (na_list_spec d "languages"); simpl; [|reflexivity].
  destruct (na_list_spec d "hobbies"); reflexivity.
Qed.

(** [render_ok] decides whether the renderer returns. *)
Lemma is_ok_generate_resume_html (data : pyval) :
  is_ok (generate_resume_html data) = render_ok data.
Proof.
  destruct data as [| | | | |d]; try reflexivity; simpl.
  rewrite generate_resume_html_dict, is_ok_map_result.
  rewrite is_ok_view_dict, !is_ok_entries_spec, is_ok_skills_spec, !is_ok_na_list_spec.
  unfold view_education, view_project; simpl; rewrite !entries_ok_true.
  rewrite (entries_ok_ext _ _ _ _ is_ok_view_experience).
  destruct (entries_ok _ _ _), (text_list_ok d "skills"), (text_list_ok d "certifications"),
    (text_list_ok d "languages"), (text_list_ok d "hobbies"); reflexivity.
Qed.

(** C3: the exact condition under which [generate_resume_html] raises
    instead of returning a document: it succeeds if and only if the
    input is a dict, every dict entry of [experiences] has iterable
    [achievements] (absent counts as [[]]), and [skills],
    [certifications], [languages] and [hobbies], when they are lists,
    hold only strings.  The spec's "no operation can fail" holds only
    on such inputs. *)
Theorem generate_resume_html_ok_iff (data : pyval) :
  is_ok (generate_resume_html data) = render_ok data.
Proof. exact (is_ok_generate_resume_html data). Qed.


(** C4: an experience entry whose [achievements] is present but not
    iterable ([null] in JSON, a number, a boolean) makes the call raise
    [TypeError: '<type>' object is not iterable] (line 65), provided the
    experience entries before it render. *)
Theorem generate_resume_html_achievements_error (d e : list (string * pyval))
  (pre post : list pyval) (v : pyval) :
  dict_lookup d "experiences" = Some (VList (pre ++ VDict e :: post)) ->
  forallb (fun x => match x with VDict e' => py_iterable (achievements_of e') | _ => true end)
    pre = true ->
  dict_lookup e "achievements" = Some v -> py_iterable v = false ->
  generate_resume_html (VDict d)
  = Raise (TypeError ("'" ++ type_name v ++ "' object is not iterable")).
Proof.
  intros Hd Hpre He Hv; rewrite generate_resume_html_dict.
  unfold view_dict, entries_spec; rewrite Hd.
  rewrite (view_entries_first_error _ pre e post (TypeError ("'" ++ type_name v ++ "' object is not iterable"))).
  - reflexivity.
  - rewrite <- Hpre at 1; clear Hd Hpre He Hv.
    induction pre as [|[] pre IH]; simpl; rewrite ?is_ok_view_experience, ?IH; reflexivity.
  - unfold view_experience, achievements_of; rewrite He; destruct v; try discriminate; reflexivity.
Qed.

Lemma generate_resume_html_achievements_error_witness :
  generate_resume_html
    (VDict [("experiences", VList ([] ++ VDict [("job_title", VStr "Dev"); ("achievements", VNone)] :: []))])
  = Raise (TypeError ("'" ++ type_name VNone ++ "' object is not iterable")).
Proof.
  apply (generate_resume_html_achievements_error _ [("job_title", VStr "Dev"); ("achievements", VNone)]
           [] [] VNone); reflexivity.
Defined.

(** C5: line 93 raises [TypeError] when [skills] is a list holding a
    value that is not a string: the message names the index of the
    first such item and its type. *)
Theorem skills_text_type_error (d : list (string * pyval)) (pre : list string)
  (v : pyval) (post : list pyval) :
  dict_lookup d "skills" = Some (VList (map VStr pre ++ v :: post)) -> is_str v = false ->
  skills_text (VDict d)
  = Raise (TypeError ("sequence item " ++ nat_to_str (List.length pre)
                      ++ ": expected str instance, " ++ type_name v ++ " found")).
Proof.
  intros Hd Hv; unfold skills_text; simpl; rewrite Hd; simpl.
  unfold py_join_value, py_join; simpl; rewrite join_items_first_bad by exact Hv; reflexivity.
Qed.

Lemma skills_text_type_error_witness :
  skills_text (VDict [("skills", VList (map VStr ["Python"] ++ VInt 3 :: []))])
  = Raise (TypeError "sequence item 1: expected str instance, int found").
Proof. apply (skills_text_type_error _ ["Python"] (VInt 3) []); reflexivity. Defined.

(** ** No escaping *)

Lemma view_dict_name (d : list (string * pyval)) (r : ResumeDoc) :
  view_dict d = Ok r -> doc_name r = field d "name" "".
Proof.
  unfold view_dict; intros H.
  repeat (apply bind_result_ok_inv in H as [? [_ H]]); injection H as <-; reflexivity.
Qed.

Local Transparent head_html.

(** C9: the name is inserted into the document unescaped (spec section
    7 requires escaping): whenever rendering succeeds, the [name]
    string occurs verbatim in the output, markup included. *)
Theorem generate_resume_html_name_verbatim (d : list (string * pyval)) (s html : string) :
  dict_lookup d "name" = Some (VStr s) -> generate_resume_html (VDict d) = Ok html ->
  exists pre post, html = pre ++ s ++ post.
Proof.
  intros Hn Hr; rewrite generate_resume_html_dict in Hr.
  destruct (view_dict d) as [r|] eqn:E; [|discriminate]; injection Hr as <-.
  apply view_dict_name in E; unfold field in E; rewrite Hn in E; simpl in E.
  unfold layout, head_html; rewrite E, !append_assoc; eexists; eexists; reflexivity.
Qed.

Lemma generate_resume_html_name_verbatim_witness :
  exists pre post,
    match generate_resume_html (VDict [("name", VStr "<script>alert(1)</script>")]) with
    | Ok html => html = pre ++ "<script>alert(1)</script>" ++ post
    | Raise _ => False
    end.
Proof.
  destruct (generate_resume_html_name_verbatim [("name", VStr "<script>alert(1)</script>")]
              "<script>alert(1)</script>"
              (match generate_resume_html (VDict [("name", VStr "<script>alert(1)</script>")]) with
               | Ok h => h | Raise _ => "" end) eq_refl eq_refl) as [pre [post H]].
  exists pre, post; exact H.
Defined.

