(* ===== verification/Machine.v ===== *)
(** * Machine: [generate_resume_html] statement by statement

    The body of [generate_resume_html] (lines 17-132) is a sequence of
    seven statements on the local [html]: the assignment of the head
    f-string, three [for] loops over [data.get(key, [])] each followed by
    an [html += ...] of fixed or f-string text, and the final
    [html += ...].  This file writes that sequence as a program
    ([resume_prog], a list of [instr]) and its execution as a small-step
    transition relation [step] on configurations ([cfg]): a statement
    to run, a loop with the items still to visit, a returned [html], or
    a raised exception.  One step is one statement, one loop iteration,
    or the end of a loop.

    The interpreter [run_prog] runs the statements as functions, and
    [denote] reads each statement as an [HtmlM] computation; on
    [resume_prog] the interpreter computes [generate_resume_html]
    ([run_prog_resume]), and the machine runs to that result
    ([resume_run_reaches]).  The invariant of the runs from the start
    is proved in [Prefix] (C18). *)

From Stdlib Require Import List Ascii String Lia.
From S2P Require Import Prelude PyValue Renderer.
Import ListNotations.
Open Scope bool_scope.
Open Scope string_scope.
Open Scope py_scope.

(** ** Statements and configurations *)

Inductive instr : Type :=
(** [html += f"..."]: the f-string's holes read [data]. *)
| Append (f : pyval -> result string)
(** [xs = data.get(key, [])]; [if isinstance(xs, list): for x in xs:
    if isinstance(x, dict): html += block(x)]. *)
| ForEntries (key : string) (block : pyval -> result string).

(** Lines 17-132; the assignment [html = f"..."] is an append to the
    empty text. *)
Definition resume_prog : list instr :=
  [Append head_fstring; ForEntries "experiences" experience_fstring;
   Append (fun _ => Ok education_open); ForEntries "education" education_fstring;
   Append middle_fstring; ForEntries "projects" project_fstring; Append footer_fstring].

Inductive cfg : Type :=
| Run (prog : list instr) (html : string)
| Loop (items : list pyval) (block : pyval -> result string) (prog : list instr) (html : string)
| Done (html : string)
| Failed (e : exn).

Definition html_of (c : cfg) : option string :=
  match c with
  | Run _ h | Loop _ _ _ h | Done h => Some h
  | Failed _ => None
  end.

Definition outcome (r : result string) : cfg :=
  match r with Ok h => Done h | Raise e => Failed e end.

Section Step.
Variable data : pyval.

Inductive step : cfg -> cfg -> Prop :=
| step_append (f : pyval -> result string) (p : list instr) (h s : string) :
    f data = Ok s -> step (Run (Append f :: p) h) (Run p (h ++ s))
| step_append_raise (f : pyval -> result string) (p : list instr) (h : string) (e : exn) :
    f data = Raise e -> step (Run (Append f :: p) h) (Failed e)
| step_for (k : string) (b : pyval -> result string) (p : list instr) (h : string)
    (items : list pyval) :
    py_get data k (VList []) = Ok (VList items) -> step (Run (ForEntries k b :: p) h) (Loop items b p h)
| step_for_skip (k : string) (b : pyval -> result string) (p : list instr) (h : string) (v : pyval) :
    py_get data k (VList []) = Ok v -> is_list v = false -> step (Run (ForEntries k b :: p) h) (Run p h)
| step_for_raise (k : string) (b : pyval -> result string) (p : list instr) (h : string) (e : exn) :
    py_get data k (VList []) = Raise e -> step (Run (ForEntries k b :: p) h) (Failed e)
| step_loop_end (b : pyval -> result string) (p : list instr) (h : string) :
    step (Loop [] b p h) (Run p h)
| step_loop_skip (x : pyval) (xs : list pyval) (b : pyval -> result string) (p : list instr)
    (h : string) :
    is_dict x = false -> step (Loop (x :: xs) b p h) (Loop xs b p h)
| step_loop_emit (x : pyval) (xs : list pyval) (b : pyval -> result string) (p : list instr)
    (h s : string) :
    is_dict x = true -> b x = Ok s -> step (Loop (x :: xs) b p h) (Loop xs b p (h ++ s))
| step_loop_raise (x : pyval) (xs : list pyval) (b : pyval -> result string) (p : list instr)
    (h : string) (e : exn) :
    is_dict x = true -> b x = Raise e -> step (Loop (x :: xs) b p h) (Failed e)
| step_return (h : string) : step (Run [] h) (Done h).

Inductive star : cfg -> cfg -> Prop :=
| star_refl (c : cfg) : star c c
| star_step (a b c : cfg) : step a b -> star b c -> star a c.

(** ** The execution as functions *)

Fixpoint run_loop (items : list pyval) (b : pyval -> result string) (h : string)
  : result string :=
  match items with
  | [] => Ok h
  | x :: xs =>
      if is_dict x then
        match b x with Ok s => run_loop xs b (h ++ s) | Raise e => Raise e end
      else run_loop xs b h
  end.

Fixpoint run_prog (p : list instr) (h : string) : result string :=
  match p with
  | [] => Ok h
  | Append f :: p' => match f data with Ok s => run_prog p' (h ++ s) | Raise e => Raise e end
  | ForEntries k b :: p' =>
      match py_get data k (VList []) with
      | Ok (VList items) =>
          match run_loop items b h with Ok h' => run_prog p' h' | Raise e => Raise e end
      | Ok _ => run_prog p' h
      | Raise e => Raise e
      end
  end.

(** The statements read as [HtmlM] computations. *)
Definition denote (i : instr) : HtmlM unit :=
  match i with
  | Append f => s <- lift (f data) ;; emit s
  | ForEntries k b => entries_loop data k b
  end.

Fixpoint denote_prog (p : list instr) : HtmlM unit :=
  match p with
  | [] => ret tt
  | i :: p' => denote i ;;; denote_prog p'
  end.

End Step.

Definition unpack (r : result (unit * string)) : result string :=
  match r with Ok (_, h) => Ok h | Raise e => Raise e end.

(** ** Runs *)

Section Runs.
Variable data : pyval.

Lemma star_trans (a b c : cfg) : star data a b -> star data b c -> star data a c.
Proof. induction 1; eauto using star. Qed.

(** A loop runs to the end of its items, or to the first raise. *)
Lemma star_loop (items : list pyval) (b : pyval -> result string) (p : list instr) (h : string) :
  match run_loop items b h with
  | Ok h' => star data (Loop items b p h) (Run p h')
  | Raise e => star data (Loop items b p h) (Failed e)
  end.
Proof.
  revert h; induction items as [|x xs IH]; intros h; simpl.
  - eapply star_step; [apply step_loop_end | apply star_refl].
  - destruct (is_dict x) eqn:Hx; [destruct (b x) as [s|e] eqn:Hb|].
    + specialize (IH (h ++ s)); destruct (run_loop xs b (h ++ s));
        (eapply star_step; [eapply step_loop_emit; eassumption | exact IH]).
    + eapply star_step; [eapply step_loop_raise; eassumption | apply star_refl].
    + specialize (IH h); destruct (run_loop xs b h);
        (eapply star_step; [eapply step_loop_skip; eassumption | exact IH]).
Qed.

Lemma star_run (p : list instr) (h : string) : star data (Run p h) (outcome (run_prog data p h)).
Proof.
  revert h; induction p as [|[f|k b] p IH]; intros h; simpl.
  - eapply star_step; [apply step_return | apply star_refl].
  - destruct (f data) as [s|e] eqn:Hf.
    + eapply star_step; [apply step_append; exact Hf | apply IH].
    + eapply star_step; [apply step_append_raise; exact Hf | apply star_refl].
  - destruct (py_get data k (VList [])) as [v|e] eqn:Hg.
    + destruct (is_list v) eqn:Hv.
      * destruct v; try discriminate.
        pose proof (star_loop items b p h) as Hl; destruct (run_loop items b h) as [h'|e].
        -- eapply star_step; [apply step_for; exact Hg|]; eapply star_trans; [exact Hl | apply IH].
        -- eapply star_step; [apply step_for; exact Hg | exact Hl].
      * replace (match v with VList items => _ | _ => run_prog data p h end) with (run_prog data p h)
          by (destruct v; try discriminate; reflexivity).
        eapply star_step; [eapply step_for_skip; eassumption | apply IH].
    + eapply star_step; [apply step_for_raise; exact Hg | apply star_refl].
Qed.

(** ** The machine computes what the monadic model computes *)

Lemma run_loop_py_for (items : list pyval) (b : pyval -> result string) (h : string) :
  run_loop items b h
  = unpack (py_for items (fun x => if is_dict x then (s <- lift (b x) ;; emit s) else ret tt) h).
Proof.
  revert h; induction items as [|x xs IH]; intros h; simpl; [reflexivity|].
  destruct (is_dict x); simpl; [|apply IH]; destruct (b x); simpl; [apply IH | reflexivity].
Qed.

Lemma run_prog_denote (p : list instr) (h : string) :
  run_prog data p h = unpack (denote_prog data p h).
Proof.
  revert h; induction p as [|[f|k b] p IH]; intros h; simpl; [reflexivity| |].
  - destruct (f data); simpl; [apply IH | reflexivity].
  - unfold entries_loop; simpl; destruct (py_get data k (VList [])) as [v|e]; simpl; [|reflexivity].
    destruct v; simpl; try apply IH.
    rewrite run_loop_py_for; destruct (py_for items _ h) as [[[] h']|]; simpl; [apply IH | reflexivity].
Qed.

Lemma run_prog_resume :
  run_prog data resume_prog "" = generate_resume_html data.
Proof.
  rewrite run_prog_denote; unfold generate_resume_html; simpl.
  destruct (head_fstring data) as [s|e]; simpl; [|reflexivity].
  unfold resume_body; simpl; destruct (entries_loop data "experiences" experience_fstring s)
    as [[[] h1]|]; simpl; try reflexivity.
  destruct (entries_loop data "education" education_fstring (h1 ++ education_open))
    as [[[] h2]|]; simpl; try reflexivity.
  destruct (middle_fstring data); simpl; try reflexivity.
  destruct (entries_loop data "projects" project_fstring _) as [[[] h3]|]; simpl; try reflexivity.
  destruct (footer_fstring data); reflexivity.
Qed.

(** Every run of the statements from an empty [html] can be completed,
    and it completes with what [generate_resume_html] returns or
    raises: the configurations [Prefix] reasons about are those of the
    code's execution. *)
Lemma resume_run_reaches : star data (Run resume_prog "") (outcome (generate_resume_html data)).
Proof. rewrite <- run_prog_resume; apply star_run. Qed.

End Runs.

