(* ===== verification/ResumeRecord.v ===== *)
(** * ResumeRecord: the typed input of the spec and its JSON encoding

    Section 3 of the spec gives the renderer's input a type: every field
    optional, scalars are text, [achievements], [skills],
    [certifications], [languages] and [hobbies] are lists of text, and
    [experiences], [education], [projects] lists of records.  This file
    writes that type as Rocq records ([ResumeRecord] and its entries),
    their encoding as the Python dict a JSON decoder produces
    ([encode_resume]: a present field is a binding, an absent one is
    not), and the document the spec says such a record shows
    ([doc_of]).  It proves that [generate_resume_html] never fails on an
    encoded record and renders exactly [layout (doc_of r)]. *)

From Stdlib Require Import List Ascii String Lia.
From S2P Require Import Prelude PyValue Renderer.
Import ListNotations.
Open Scope bool_scope.
Open Scope string_scope.
Open Scope py_scope.

Record ExperienceEntry := {
  xe_job_title : option string; xe_company : option string; xe_location : option string;
  xe_start_date : option string; xe_end_date : option string;
  xe_achievements : option (list string)
}.

Record EducationEntry := {
  ee_degree : option string; ee_institution : option string; ee_location : option string;
  ee_graduation_date : option string; ee_honors : option string
}.

Record ProjectEntry := {
  pe_title : option string; pe_description : option string;
  pe_technologies : option string; pe_role : option string
}.

Record ResumeRecord := {
  rr_name : option string; rr_phone : option string; rr_email : option string;
  rr_linkedin : option string; rr_portfolio : option string; rr_address : option string;
  rr_summary : option string;
  rr_experiences : option (list ExperienceEntry);
  rr_education : option (list EducationEntry);
  rr_skills : option (list string);
  rr_certifications : option (list string);
  rr_projects : option (list ProjectEntry);
  rr_languages : option (list string);
  rr_hobbies : option (list string)
}.

(** ** Encoding as a Python dict *)

(** The bindings of the fields that are present, in order. *)
Definition present (l : list (string * option pyval)) : list (string * pyval) :=
  flat_map (fun '(k, o) => match o with Some v => [(k, v)] | None => [] end) l.

Definition vstrs (l : list string) : pyval := VList (map VStr l).

Definition experience_fields (x : ExperienceEntry) : list (string * option pyval) :=
  [("job_title", option_map VStr (xe_job_title x)); ("company", option_map VStr (xe_company x));
   ("location", option_map VStr (xe_location x)); ("start_date", option_map VStr (xe_start_date x));
   ("end_date", option_map VStr (xe_end_date x));
   ("achievements", option_map vstrs (xe_achievements x))].

Definition education_fields (x : EducationEntry) : list (string * option pyval) :=
  [("degree", option_map VStr (ee_degree x)); ("institution", option_map VStr (ee_institution x));
   ("location", option_map VStr (ee_location x));
   ("graduation_date", option_map VStr (ee_graduation_date x));
   ("honors", option_map VStr (ee_honors x))].

Definition project_fields (x : ProjectEntry) : list (string * option pyval) :=
  [("title", option_map VStr (pe_title x)); ("description", option_map VStr (pe_description x));
   ("technologies", option_map VStr (pe_technologies x)); ("role", option_map VStr (pe_role x))].

Definition encode_entries {A} (fields : A -> list (string * option pyval)) (l : list A) : pyval :=
  VList (map (fun x => VDict (present (fields x))) l).

Definition resume_fields (r : ResumeRecord) : list (string * option pyval) :=
  [("name", option_map VStr (rr_name r)); ("phone", option_map VStr (rr_phone r));
   ("email", option_map VStr (rr_email r)); ("linkedin", option_map VStr (rr_linkedin r));
   ("portfolio", option_map VStr (rr_portfolio r)); ("address", option_map VStr (rr_address r));
   ("summary", option_map VStr (rr_summary r));
   ("experiences", option_map (encode_entries experience_fields) (rr_experiences r));
   ("education", option_map (encode_entries education_fields) (rr_education r));
   ("skills", option_map vstrs (rr_skills r));
   ("certifications", option_map vstrs (rr_certifications r));
   ("projects", option_map (encode_entries project_fields) (rr_projects r));
   ("languages", option_map vstrs (rr_languages r));
   ("hobbies", option_map vstrs (rr_hobbies r))].

Definition encode_resume (r : ResumeRecord) : pyval := VDict (present (resume_fields r)).

(** ** The document the spec describes *)

Definition show (o : option string) (dflt : string) : string :=
  match o with Some s => s | None => dflt end.

(** [certifications], [languages], [hobbies]: the joined list, or
    ["N/A"] when absent or empty. *)
Definition list_or_na (o : option (list string)) : string :=
  match o with Some ((_ :: _) as l) => concat ", " l | _ => "N/A" end.

Definition show_experience (x : ExperienceEntry) : ExperienceView :=
  {| xv_job_title := show (xe_job_title x) ""; xv_company := show (xe_company x) "";
     xv_location := show (xe_location x) ""; xv_start_date := show (xe_start_date x) "";
     xv_end_date := show (xe_end_date x) "";
     xv_achievements := match xe_achievements x with Some l => l | None => [] end |}.

Definition show_education (x : EducationEntry) : EducationView :=
  {| ev_degree := show (ee_degree x) ""; ev_institution := show (ee_institution x) "";
     ev_location := show (ee_location x) ""; ev_graduation_date := show (ee_graduation_date x) "";
     ev_honors := show (ee_honors x) "N/A" |}.

Definition show_project (x : ProjectEntry) : ProjectView :=
  {| pv_title := show (pe_title x) ""; pv_description := show (pe_description x) "";
     pv_technologies := show (pe_technologies x) ""; pv_role := show (pe_role x) "" |}.

Definition doc_of (r : ResumeRecord) : ResumeDoc :=
  {| doc_name := show (rr_name r) ""; doc_phone := show (rr_phone r) "";
     doc_email := show (rr_email r) ""; doc_linkedin := show (rr_linkedin r) "N/A";
     doc_portfolio := show (rr_portfolio r) "N/A"; doc_address := show (rr_address r) "N/A";
     doc_summary := show (rr_summary r) "";
     doc_experiences := map show_experience (match rr_experiences r with Some l => l | None => [] end);
     doc_education := map show_education (match rr_education r with Some l => l | None => [] end);
     doc_skills := match rr_skills r with Some l => concat ", " l | None => "" end;
     doc_certifications := list_or_na (rr_certifications r);
     doc_projects := map show_project (match rr_projects r with Some l => l | None => [] end);
     doc_languages := list_or_na (rr_languages r);
     doc_hobbies := list_or_na (rr_hobbies r) |}.

(** ** Reading an encoded record back *)

Fixpoint find_key (l : list (string * option pyval)) (k : string) : option (option pyval) :=
  match l with
  | [] => None
  | (k', o) :: l' => if String.eqb k' k then Some o else find_key l' k
  end.

Lemma find_key_notin (l : list (string * option pyval)) (k : string) :
  ~ In k (map fst l) -> find_key l k = None.
Proof.
  induction l as [|[k' o] l IH]; simpl; intros Hn; [reflexivity|].
  destruct (String.eqb_spec k' k); [tauto | auto].
Qed.

(** With distinct keys, looking a key up in the present bindings finds
    the field's value, or nothing when the field is absent. *)
Lemma lookup_present (l : list (string * option pyval)) (k : string) :
  NoDup (map fst l) ->
  dict_lookup (present l) k = match find_key l k with Some o => o | None => None end.
Proof.
  induction l as [|[k' o] l IH]; simpl; intros Hnd; [reflexivity|].
  inversion Hnd as [|? ? Hnotin Hnd']; subst.
  destruct o as [v|]; simpl; destruct (String.eqb_spec k' k) as [->|]; auto.
  rewrite IH, find_key_notin; auto.
Qed.

Arguments present : simpl never.

Ltac nodup_keys := simpl; repeat constructor; simpl; intuition discriminate.

Lemma field_present (l : list (string * option pyval)) (k dflt : string) (o : option string) :
  NoDup (map fst l) -> find_key l k = Some (option_map VStr o) ->
  field (present l) k dflt = show o dflt.
Proof. intros Hnd Hk; unfold field; rewrite lookup_present, Hk by exact Hnd; destruct o; reflexivity. Qed.

Lemma view_entries_encode {A B} (fields : A -> list (string * option pyval))
  (view1 : list (string * pyval) -> result B) (sh : A -> B)
  (H : forall x, view1 (present (fields x)) = Ok (sh x)) (l : list A) :
  view_entries view1 (map (fun x => VDict (present (fields x))) l) = Ok (map sh l).
Proof. induction l as [|x l IH]; simpl; [|rewrite H, IH]; reflexivity. Qed.

Lemma entries_spec_present {A B} (l : list (string * option pyval)) (k : string)
  (fields : A -> list (string * option pyval)) (view1 : list (string * pyval) -> result B)
  (sh : A -> B) (o : option (list A)) :
  NoDup (map fst l) -> find_key l k = Some (option_map (encode_entries fields) o) ->
  (forall x, view1 (present (fields x)) = Ok (sh x)) ->
  entries_spec (present l) k view1 = Ok (map sh (match o with Some xs => xs | None => [] end)).
Proof.
  intros Hnd Hk H; unfold entries_spec; rewrite lookup_present, Hk by exact Hnd.
  destruct o; simpl; [apply view_entries_encode, H | reflexivity].
Qed.

Lemma na_list_spec_present (l : list (string * option pyval)) (k : string)
  (o : option (list string)) :
  NoDup (map fst l) -> find_key l k = Some (option_map vstrs o) ->
  na_list_spec (present l) k = Ok (list_or_na o).
Proof.
  intros Hnd Hk; unfold na_list_spec; rewrite lookup_present, Hk by exact Hnd.
  destruct o as [[|s xs]|]; [reflexivity | exact (py_join_strs _ (s :: xs)) | reflexivity].
Qed.

Lemma skills_spec_present (l : list (string * option pyval)) (o : option (list string)) :
  NoDup (map fst l) -> find_key l "skills" = Some (option_map vstrs o) ->
  skills_spec (present l) = Ok (match o with Some xs => concat ", " xs | None => "" end).
Proof.
  intros Hnd Hk; unfold skills_spec; rewrite lookup_present, Hk by exact Hnd.
  destruct o; [apply py_join_strs | reflexivity].
Qed.

Lemma view_experience_encode (x : ExperienceEntry) :
  view_experience (present (experience_fields x)) = Ok (show_experience x).
Proof.
  destruct x as [jt co lo sd ed [xs|]];
    unfold view_experience, achievements_of; rewrite lookup_present by nodup_keys; simpl;
    [rewrite map_map, map_id|]; unfold show_experience; f_equal; f_equal;
    apply field_present; solve [nodup_keys | reflexivity].
Qed.

Lemma view_education_encode (x : EducationEntry) :
  view_education (present (education_fields x)) = Ok (show_education x).
Proof.
  unfold view_education, show_education; simpl; f_equal; f_equal;
    apply field_present; solve [nodup_keys | reflexivity].
Qed.

Lemma view_project_encode (x : ProjectEntry) :
  view_project (present (project_fields x)) = Ok (show_project x).
Proof.
  unfold view_project, show_project; simpl; f_equal; f_equal;
    apply field_present; solve [nodup_keys | reflexivity].
Qed.

Lemma view_encode_resume (r : ResumeRecord) : view (encode_resume r) = Ok (doc_of r).
Proof.
  assert (Hnd : NoDup (map fst (resume_fields r))) by nodup_keys.
  unfold view, encode_resume, view_dict.
  rewrite (entries_spec_present _ "experiences" _ _ _ (rr_experiences r) Hnd eq_refl
             view_experience_encode).
  rewrite (entries_spec_present _ "education" _ _ _ (rr_education r) Hnd eq_refl
             view_education_encode).
  rewrite (skills_spec_present _ (rr_skills r) Hnd eq_refl).
  rewrite (na_list_spec_present _ "certifications" (rr_certifications r) Hnd eq_refl).
  rewrite (entries_spec_present _ "projects" _ _ _ (rr_projects r) Hnd eq_refl
             view_project_encode).
  rewrite (na_list_spec_present _ "languages" (rr_languages r) Hnd eq_refl).
  rewrite (na_list_spec_present _ "hobbies" (rr_hobbies r) Hnd eq_refl).
  simpl; unfold doc_of; f_equal; f_equal; apply field_present; solve [exact Hnd | reflexivity].
Qed.

(** C2: rendering never fails on an input of the shape the spec gives
    (section 3; section 8, first property): for every typed resume
    record, [generate_resume_html] on its JSON encoding returns the
    layout of the document with the spec's defaults: [""] for absent
    scalars, ["N/A"] for [linkedin], [portfolio], [address] and
    [honors], [""] for absent [skills], ["N/A"] for absent or empty
    [certifications], [languages] and [hobbies]. *)
Theorem generate_resume_html_typed (r : ResumeRecord) :
  generate_resume_html (encode_resume r) = Ok (layout (doc_of r)).
Proof.
  unfold encode_resume; rewrite generate_resume_html_dict.
  change (view_dict (present (resume_fields r))) with (view (encode_resume r)).
  rewrite view_encode_resume; reflexivity.
Qed.
