(* ===== verification/Schema.v ===== *)
(** * Schema: the shape of a valid resume as a type system

    Section 3 of the spec describes the renderer's input as a mapping
    whose fields are all optional: scalars are text, [experiences],
    [education] and [projects] are sequences of records with named
    fields, [skills], [certifications], [languages], [hobbies] and
    [achievements] are sequences of text.  This file writes that
    description as types of JSON values ([ty]: text, list of, record
    with optional fields; a record is open, extra keys are allowed), the
    typing relation [has_type] between a [pyval] and a [ty], and a
    checker [type_check] that decides it.  [resume_ty] is the type of
    section 3.

    The theorem: every value of type [resume_ty] renders,
    [generate_resume_html] returns a document (C12).  The checker
    [type_check] is proved to decide [has_type]
    ([type_check_sound_complete]), so that a concrete input is shown to
    have the type by computation. *)

From Stdlib Require Import List Ascii String Bool Lia.
From S2P Require Import Prelude PyValue Renderer.
Import ListNotations.
Open Scope bool_scope.
Open Scope string_scope.
Open Scope py_scope.
Set Warnings "-register-all".

(** ** Types *)

Inductive ty : Type :=
| TStr
| TList (t : ty)
| TRecord (fields : list (string * ty)).

(** Induction that sees the types of a record's fields. *)
Section TyInd.
Variable P : ty -> Prop.
Hypothesis HStr : P TStr.
Hypothesis HList : forall t, P t -> P (TList t).
Hypothesis HRecord : forall fs, Forall (fun kt => P (snd kt)) fs -> P (TRecord fs).

Fixpoint ty_ind' (t : ty) : P t :=
  match t with
  | TStr => HStr
  | TList t' => HList t' (ty_ind' t')
  | TRecord fs =>
      HRecord fs ((fix go (fs : list (string * ty)) : Forall (fun kt => P (snd kt)) fs :=
                     match fs with
                     | [] => Forall_nil _
                     | (k, t') :: fs' =>
                         Forall_cons (P := fun kt => P (snd kt)) (k, t') (ty_ind' t') (go fs')
                     end) fs)
  end.
End TyInd.

(** A value has a type: a string is text; a list has [TList t] when
    each of its items has [t]; a dict has [TRecord fs] when each field
    of [fs] that the dict binds holds a value of the field's type. *)
Inductive has_type : pyval -> ty -> Prop :=
| HTStr (s : string) : has_type (VStr s) TStr
| HTList (l : list pyval) (t : ty) :
    (forall v, In v l -> has_type v t) -> has_type (VList l) (TList t)
| HTRecord (d : list (string * pyval)) (fs : list (string * ty)) :
    (forall k t v, In (k, t) fs -> dict_lookup d k = Some v -> has_type v t) ->
    has_type (VDict d) (TRecord fs).

Fixpoint type_check (t : ty) (v : pyval) {struct t} : bool :=
  match t, v with
  | TStr, VStr _ => true
  | TList t', VList l => forallb (type_check t') l
  | TRecord fs, VDict d =>
      (fix go (fs : list (string * ty)) : bool :=
         match fs with
         | [] => true
         | (k, t') :: fs' =>
             match dict_lookup d k with Some v' => type_check t' v' | None => true end && go fs'
         end) fs
  | _, _ => false
  end.

(** ** The resume of spec section 3 *)

Definition text_fields (ks : list string) : list (string * ty) := map (fun k => (k, TStr)) ks.

Definition experience_ty : ty :=
  TRecord (text_fields ["job_title"; "company"; "location"; "start_date"; "end_date"]
           ++ [("achievements", TList TStr)]).

Definition education_ty : ty :=
  TRecord (text_fields ["degree"; "institution"; "location"; "graduation_date"; "honors"]).

Definition project_ty : ty :=
  TRecord (text_fields ["title"; "description"; "technologies"; "role"]).

Definition resume_ty : ty :=
  TRecord (text_fields ["name"; "phone"; "email"; "linkedin"; "portfolio"; "address"; "summary"]
           ++ [("experiences", TList experience_ty); ("education", TList education_ty);
               ("skills", TList TStr); ("certifications", TList TStr);
               ("projects", TList project_ty); ("languages", TList TStr);
               ("hobbies", TList TStr)]).

(** ** The checker decides the relation *)

Lemma type_check_record (fs : list (string * ty)) (d : list (string * pyval)) :
  type_check (TRecord fs) (VDict d)
  = forallb (fun kt => match dict_lookup d (fst kt) with
                       | Some v => type_check (snd kt) v | None => true end) fs.
Proof. induction fs as [|[k t] fs IH]; simpl; [reflexivity|]; rewrite <- IH; reflexivity. Qed.

Lemma has_type_record_iff (fs : list (string * ty)) (d : list (string * pyval)) :
  Forall (fun kt => forall v, type_check (snd kt) v = true <-> has_type v (snd kt)) fs ->
  (forallb (fun kt => match dict_lookup d (fst kt) with
                      | Some v => type_check (snd kt) v | None => true end) fs = true
   <-> has_type (VDict d) (TRecord fs)).
Proof.
  intros IH; rewrite forallb_forall; split.
  - intros H; constructor; intros k t v Hin Hl.
    specialize (H _ Hin); simpl in H; rewrite Hl in H.
    rewrite Forall_forall in IH; apply (IH _ Hin), H.
  - intros Ht [k t] Hin; simpl; destruct (dict_lookup d k) as [v|] eqn:Hl; [|reflexivity].
    inversion Ht as [| |? ? Hf]; subst.
    rewrite Forall_forall in IH; apply (IH _ Hin); exact (Hf _ _ _ Hin Hl).
Qed.

Lemma type_check_sound_complete (t : ty) :
  forall v, type_check t v = true <-> has_type v t.
Proof.
  induction t as [| t IH | fs IH] using ty_ind'; intros v.
  - destruct v; simpl; split; intros H; try discriminate; try inversion H; constructor.
  - destruct v as [| | | |l|]; simpl; split; intros H; try discriminate; try inversion H.
    + constructor; intros v Hv; apply IH; rewrite forallb_forall in H; auto.
    + subst; apply forallb_forall; intros v Hv; apply IH; auto.
  - destruct v as [| | | | |d]; try (split; intros H; [discriminate | inversion H]).
    rewrite type_check_record; apply has_type_record_iff, IH.
Qed.

(** Reading a typed record's field. *)
Lemma has_type_field (d : list (string * pyval)) (fs : list (string * ty)) (k : string)
  (t : ty) (v : pyval) :
  has_type (VDict d) (TRecord fs) -> In (k, t) fs -> dict_lookup d k = Some v -> has_type v t.
Proof. intros Ht Hin Hl; inversion Ht as [| |? ? Hf]; subst; exact (Hf _ _ _ Hin Hl). Qed.

(** A field typed as a list of text passes [text_list_ok]. *)
Lemma text_list_ok_typed (d : list (string * pyval)) (fs : list (string * ty)) (k : string) :
  has_type (VDict d) (TRecord fs) -> In (k, TList TStr) fs -> text_list_ok d k = true.
Proof.
  intros Ht Hin; unfold text_list_ok; destruct (dict_lookup d k) as [v|] eqn:Hl; [|reflexivity].
  pose proof (has_type_field _ _ _ _ _ Ht Hin Hl) as Hv; inversion Hv as [|l ? Hl'|]; subst.
  apply forallb_forall; intros x Hx; specialize (Hl' _ Hx); inversion Hl'; reflexivity.
Qed.

Lemma achievements_typed (e : list (string * pyval)) :
  has_type (VDict e) experience_ty -> py_iterable (achievements_of e) = true.
Proof.
  intros Ht; unfold achievements_of; destruct (dict_lookup e "achievements") as [v|] eqn:Hl;
    [|reflexivity].
  assert (Hv : has_type v (TList TStr))
    by (apply (has_type_field _ _ "achievements" _ _ Ht); [simpl; tauto | exact Hl]).
  inversion Hv; reflexivity.
Qed.

Lemma experiences_typed (d : list (string * pyval)) :
  has_type (VDict d) resume_ty ->
  entries_ok d "experiences" (fun e => py_iterable (achievements_of e)) = true.
Proof.
  intros Ht; unfold entries_ok; destruct (dict_lookup d "experiences") as [v|] eqn:Hl;
    [|reflexivity].
  assert (Hv : has_type v (TList experience_ty))
    by (apply (has_type_field _ _ "experiences" _ _ Ht); [simpl; tauto | exact Hl]).
  destruct v; try reflexivity; inversion Hv as [|? ? Hi|]; subst.
  apply forallb_forall; intros [] Hx; try reflexivity; apply achievements_typed, Hi, Hx.
Qed.

Lemma render_ok_typed (data : pyval) : has_type data resume_ty -> render_ok data = true.
Proof.
  intros Ht; inversion Ht as [| |d ? _]; subst; simpl.
  rewrite experiences_typed by exact Ht.
  rewrite !(text_list_ok_typed d _ _ Ht) by (simpl; tauto); reflexivity.
Qed.

(** ** Theorems *)

(** C12: every input of the shape of spec section 3 renders:
    [generate_resume_html] returns a document, whatever fields are
    absent and whatever other keys the dict holds. *)
Theorem generate_resume_html_well_typed (data : pyval) :
  has_type data resume_ty -> exists html, generate_resume_html data = Ok html.
Proof.
  intros Ht; pose proof (is_ok_generate_resume_html data) as H.
  rewrite render_ok_typed in H by exact Ht.
  destruct (generate_resume_html data) as [html|]; [eauto | discriminate].
Qed.

Lemma generate_resume_html_well_typed_witness :
  exists html, generate_resume_html
    (VDict [("name", VStr "Ada"); ("skills", VList [VStr "Python"; VStr "Go"]);
            ("experiences", VList [VDict [("achievements", VList [VStr "Led team"])]]);
            ("extra", VBool true)]) = Ok html.
Proof.
  apply generate_resume_html_well_typed, type_check_sound_complete; vm_compute; reflexivity.
Defined.

