(* ===== verification/Reader.v ===== *)
(** * Reader: the texts of the elements a tag opens

    The structure properties of the renderer's output ([Sections],
    [Blocks]) read the HTML text with one small automaton, [scan_char],
    parameterised by an opening tag such as [<h2>] or
    [<div class="experience">]: outside an element it matches the tag
    character by character, inside it collects the text up to the next
    ['<'].  [element_texts tag html] lists those texts in order.

    The automaton runs left to right, so reading [a ++ b] is reading
    [a], then [b] from where [a] left it ([scan_app]); read from outside
    an element, a text with no ['<'] changes nothing ([emits_clean]).
    [emits tag x ts] says that [x] adds the texts [ts] and ends outside
    an element; templates are handled piece by piece with [emits_app]
    and the tactic [emits_build], which computes the literal pieces.

    The second half of the file shows that an input whose strings hold
    no ['<'] ([value_clean]) gives a document whose texts hold none
    ([doc_clean], [view_dict_clean]): [str] and [repr] add no ['<'],
    joins and iteration keep the strings they are given. *)

From Stdlib Require Import List Ascii String ZArith DecimalString Lia.
From S2P Require Import Prelude PyValue PyRepr Renderer.
Import ListNotations.
Open Scope bool_scope.
Open Scope string_scope.
Open Scope py_scope.

(** ** The element reader *)

Inductive scan_mode : Type :=
| Outside (matched : nat)
| Inside (title : string).

Record scan_state : Type := mk_scan {
  headings : list string;
  mode_of : scan_mode
}.

Section Reader.
Variable tag : string.

(** Outside an element the reader matches [tag] character by
    character ([k] characters matched so far); a mismatch on ['<']
    starts a new match, since the tags read here hold no other ['<'].
    Inside an element it collects the text up to the next ['<']. *)
Definition scan_char (st : scan_state) (c : ascii) : scan_state :=
  match mode_of st with
  | Outside k =>
      match String.get k tag with
      | Some c' =>
          if Ascii.eqb c c' then
            (if Nat.eqb (S k) (String.length tag) then mk_scan (headings st) (Inside "")
             else mk_scan (headings st) (Outside (S k)))
          else if Ascii.eqb c "<"%char then mk_scan (headings st) (Outside 1)
          else mk_scan (headings st) (Outside 0)
      | None => mk_scan (headings st) (Outside 0)
      end
  | Inside t =>
      if Ascii.eqb c "<"%char then mk_scan (headings st ++ [t]) (Outside 1)
      else mk_scan (headings st) (Inside (t ++ String c EmptyString))
  end.

Fixpoint scan (st : scan_state) (s : string) : scan_state :=
  match s with
  | EmptyString => st
  | String c s' => scan (scan_char st c) s'
  end.

(** The texts of the elements [tag] opens, in order. *)
Definition element_texts (html : string) : list string :=
  headings (scan (mk_scan [] (Outside 0)) html).

(** Read from outside an element, [x] adds the element texts [ts] and
    ends outside an element. *)
Definition emits (x : string) (ts : list string) : Prop :=
  forall hs, scan (mk_scan hs (Outside 0)) x = mk_scan (hs ++ ts) (Outside 0).

End Reader.

(** [n] copies of the texts [w], one after the other. *)
Fixpoint concat_map_repeat (w : list string) (n : nat) : list string :=
  match n with O => [] | S n' => w ++ concat_map_repeat w n' end.

Definition no_lt (s : string) : bool := negb (has_char "<"%char s).

Definition experience_clean (x : ExperienceView) : bool :=
  forallb no_lt [xv_job_title x; xv_company x; xv_location x; xv_start_date x; xv_end_date x]
  && forallb no_lt (xv_achievements x).

Definition education_clean (x : EducationView) : bool :=
  forallb no_lt [ev_degree x; ev_institution x; ev_location x; ev_graduation_date x;
                 ev_honors x].

Definition project_clean (x : ProjectView) : bool :=
  forallb no_lt [pv_title x; pv_description x; pv_technologies x; pv_role x].

(** Every text a document shows holds no ['<']. *)
Definition doc_clean (r : ResumeDoc) : bool :=
  forallb no_lt [doc_name r; doc_phone r; doc_email r; doc_linkedin r; doc_portfolio r;
                 doc_address r; doc_summary r; doc_skills r; doc_certifications r;
                 doc_languages r; doc_hobbies r]
  && forallb experience_clean (doc_experiences r)
  && forallb education_clean (doc_education r)
  && forallb project_clean (doc_projects r).

(** Every string of a value, dict keys included, holds no ['<']. *)
Fixpoint value_clean (v : pyval) : bool :=
  match v with
  | VStr s => no_lt s
  | VList l => forallb value_clean l
  | VDict d => forallb (fun '(k, x) => no_lt k && value_clean x) d
  | _ => true
  end.

(** ** Reading in pieces *)

Section ReaderFacts.
Variable tag : string.
Hypothesis tag_lt : String.get 0 tag = Some "<"%char.

Lemma scan_app (st : scan_state) (a b : string) :
  scan tag st (a ++ b) = scan tag (scan tag st a) b.
Proof. revert st; induction a as [|c a IH]; intros st; simpl; auto. Qed.

Lemma emits_clean (x : string) : no_lt x = true -> emits tag x [].
Proof.
  unfold no_lt, emits; intros H hs; rewrite app_nil_r.
  induction x as [|c x IH]; [reflexivity|]; cbn [has_char] in H.
  destruct (Ascii.eqb_spec "<"%char c) as [Ec|Hc]; [subst c; discriminate|].
  assert (E : Ascii.eqb c "<"%char = false) by (apply Ascii.eqb_neq; congruence).
  cbn [scan]; unfold scan_char; cbn [mode_of headings]; rewrite tag_lt, E.
  apply IH, H.
Qed.

Lemma emits_app (a b : string) (t1 t2 : list string) :
  emits tag a t1 -> emits tag b t2 -> emits tag (a ++ b) (t1 ++ t2).
Proof. intros H1 H2 hs; rewrite scan_app, H1, H2, app_assoc; reflexivity. Qed.

Lemma emits_eq (x : string) (ts ts' : list string) :
  emits tag x ts -> ts = ts' -> emits tag x ts'.
Proof. intros H <-; exact H. Qed.

(** Reading from a state with texts [hs] is reading from no texts,
    then putting [hs] in front. *)
Lemma scan_char_offset (hs : list string) (m : scan_mode) (c : ascii) :
  scan_char tag (mk_scan hs m) c
  = mk_scan (hs ++ headings (scan_char tag (mk_scan [] m) c))
            (mode_of (scan_char tag (mk_scan [] m) c)).
Proof.
  unfold scan_char; destruct m as [k|t]; cbn [mode_of headings];
    [destruct (String.get k tag)|];
    repeat match goal with |- context [if ?b then _ else _] => destruct b end;
    cbn [mode_of headings]; rewrite ?app_nil_r; reflexivity.
Qed.

Lemma scan_offset (x : string) (hs : list string) (m : scan_mode) :
  scan tag (mk_scan hs m) x
  = mk_scan (hs ++ headings (scan tag (mk_scan [] m) x)) (mode_of (scan tag (mk_scan [] m) x)).
Proof.
  revert hs m; induction x as [|c x IH]; intros hs m; cbn [scan]; [rewrite app_nil_r; reflexivity|].
  rewrite scan_char_offset, IH; destruct (scan_char tag (mk_scan [] m) c) as [h1 m1];
    cbn [headings mode_of].
  rewrite (IH h1 m1); cbn [headings mode_of]; rewrite app_assoc; reflexivity.
Qed.

(** A text with no hole: what it emits is computed. *)
Lemma emits_lit (x : string) (ts : list string) :
  scan tag (mk_scan [] (Outside 0)) x = mk_scan ts (Outside 0) -> emits tag x ts.
Proof. intros H hs; rewrite scan_offset, H; reflexivity. Qed.

Lemma emits_nil : emits tag "" [].
Proof. intros hs; rewrite app_nil_r; reflexivity. Qed.

(** Items joined with [sep], each adding its own texts: their texts in
    order. *)
Lemma emits_concat_flat {A} (f : A -> string) (w : A -> list string) (sep : string)
  (xs : list A) :
  emits tag sep [] -> (forall x, In x xs -> emits tag (f x) (w x)) ->
  emits tag (concat sep (map f xs)) (flat_map w xs).
Proof. apply hom_concat_flat; [exact emits_nil | exact emits_app]. Qed.

Lemma flat_map_nil {A B} (xs : list A) : flat_map (fun _ => @nil B) xs = [].
Proof. induction xs; simpl; auto. Qed.

Lemma flat_map_repeat {A} (w : list string) (xs : list A) :
  flat_map (fun _ => w) xs = concat_map_repeat w (List.length xs).
Proof. induction xs as [|x xs IH]; simpl; [reflexivity | rewrite IH; reflexivity]. Qed.

Lemma emits_concat {A} (f : A -> string) (sep : string) (xs : list A) :
  emits tag sep [] -> (forall x, In x xs -> emits tag (f x) []) ->
  emits tag (concat sep (map f xs)) [].
Proof.
  intros Hs Hf; rewrite <- (flat_map_nil (B := string) xs).
  apply emits_concat_flat; assumption.
Qed.

(** Entries, each of which adds the texts [w x] when [ok x] holds,
    joined with nothing: their texts in order. *)
Lemma emits_entries_flat {A} (lay : A -> string) (ok : A -> bool) (w : A -> list string)
  (xs : list A) :
  (forall x, ok x = true -> emits tag (lay x) (w x)) -> forallb ok xs = true ->
  emits tag (concat "" (map lay xs)) (flat_map w xs).
Proof. apply hom_entries_flat; [exact emits_nil | exact emits_app]. Qed.

(** Entries that each add the text [w], joined with nothing: one [w]
    per entry. *)
Lemma emits_entries {A} (lay : A -> string) (ok : A -> bool) (w : list string) (xs : list A) :
  (forall x, ok x = true -> emits tag (lay x) w) -> forallb ok xs = true ->
  emits tag (concat "" (map lay xs)) (concat_map_repeat w (List.length xs)).
Proof. rewrite <- flat_map_repeat; apply emits_entries_flat. Qed.

(** Inside an element, a text with no ['<'] extends the element's
    text. *)
Lemma scan_inside_clean (hs : list string) (t x : string) :
  no_lt x = true -> scan tag (mk_scan hs (Inside t)) x = mk_scan hs (Inside (t ++ x)).
Proof.
  unfold no_lt; revert t; induction x as [|c x IH]; intros t H; [rewrite append_nil_r; reflexivity|].
  cbn [has_char] in H; destruct (Ascii.eqb_spec "<"%char c) as [Ec|Hc]; [subst c; discriminate|].
  assert (E : Ascii.eqb c "<"%char = false) by (apply Ascii.eqb_neq; congruence).
  cbn [scan]; unfold scan_char; cbn [mode_of headings]; rewrite E, IH by exact H.
  rewrite append_assoc; reflexivity.
Qed.

Lemma concat_map_repeat_nil (n : nat) : concat_map_repeat [] n = [].
Proof. induction n; simpl; auto. Qed.

Lemma forallb_no_lt_emits (l : list string) (x : string) :
  forallb no_lt l = true -> In x l -> emits tag x [].
Proof. rewrite forallb_forall; intros H Hx; apply emits_clean, H, Hx. Qed.

End ReaderFacts.

(** Split a text at each append; a hole is discharged by its [emits]
    hypothesis, a literal by computation. *)
Ltac emits_split :=
  match goal with
  | |- emits ?t (?a ++ ?b) _ => apply emits_app; emits_split
  | |- emits _ _ _ => first [eassumption | apply emits_lit; vm_compute; reflexivity]
  end.

Ltac emits_build := eapply emits_eq; [emits_split | reflexivity].

(** ** Clean inputs give clean documents *)

Lemma forallb_map_comp {A B} (f : A -> B) (p : B -> bool) (l : list A) :
  forallb p (map f l) = forallb (fun x => p (f x)) l.
Proof. induction l as [|x l IH]; simpl; [|rewrite IH]; reflexivity. Qed.

Lemma no_lt_app (a b : string) : no_lt (a ++ b) = no_lt a && no_lt b.
Proof. unfold no_lt; rewrite has_char_app, Bool.negb_orb; reflexivity. Qed.

Lemma no_lt_concat (sep : string) (l : list string) :
  no_lt sep = true -> forallb no_lt l = true -> no_lt (concat sep l) = true.
Proof.
  intros Hs; induction l as [|x [|y l] IH]; [reflexivity | simpl; rewrite Bool.andb_true_r; auto|].
  intros H; simpl in H; apply andb_prop in H as [Hx H].
  rewrite concat_cons_cons, !no_lt_app, Hx, Hs; apply IH, H.
Qed.

Lemma no_lt_uint (u : Decimal.uint) : no_lt (NilEmpty.string_of_uint u) = true.
Proof. induction u; exact IHu || reflexivity. Qed.

Lemma no_lt_int (z : Z) : no_lt (int_to_str z) = true.
Proof.
  unfold int_to_str; destruct (Z.to_int z) as [u|u]; simpl; [apply no_lt_uint|].
  apply no_lt_uint.
Qed.

Lemma no_lt_repr (v : pyval) : value_clean v = true -> no_lt (py_repr v) = true.
Proof.
  induction v as [| b | z | s | l IH | d IH] using pyval_ind'; intros H.
  - reflexivity.
  - destruct b; reflexivity.
  - apply no_lt_int.
  - simpl; unfold no_lt in *; rewrite has_lt_repr_str; exact H.
  - assert (Hc : no_lt (concat ", " (map py_repr l)) = true).
    { apply no_lt_concat; [reflexivity|]; rewrite forallb_map_comp, forallb_forall; intros x Hx.
      rewrite Forall_forall in IH; simpl in H; rewrite forallb_forall in H; auto. }
    cbn [py_repr]; rewrite !no_lt_app, Hc; reflexivity.
  - assert (Hc : no_lt (concat ", " (map (fun '(k, x) => repr_str k ++ ": " ++ py_repr x) d))
                 = true).
    { apply no_lt_concat; [reflexivity|]; rewrite forallb_map_comp, forallb_forall; intros [k x] Hin.
      rewrite Forall_forall in IH; simpl in H; rewrite forallb_forall in H.
      pose proof (H _ Hin) as Hkx; apply andb_prop in Hkx as [Hk Hv].
      rewrite !no_lt_app; unfold no_lt in Hk |- *; rewrite has_lt_repr_str, Hk; simpl.
      exact (IH (k, x) Hin Hv). }
    cbn [py_repr]; rewrite !no_lt_app, Hc; reflexivity.
Qed.

Lemma no_lt_py_str (v : pyval) : value_clean v = true -> no_lt (py_str v) = true.
Proof. destruct v; try apply no_lt_repr; simpl; auto. Qed.

Lemma lookup_clean (d : list (string * pyval)) (k : string) (v : pyval) :
  value_clean (VDict d) = true -> dict_lookup d k = Some v -> value_clean v = true.
Proof.
  induction d as [|[k' x] d IH]; simpl; [discriminate|]; intros H.
  apply andb_prop in H as [Hkx H]; apply andb_prop in Hkx as [_ Hx].
  destruct (String.eqb k' k); [intros E; injection E as <-; exact Hx | apply IH, H].
Qed.

Lemma field_clean (d : list (string * pyval)) (k dflt : string) :
  value_clean (VDict d) = true -> no_lt dflt = true -> no_lt (field d k dflt) = true.
Proof.
  intros H Hd; unfold field; destruct (dict_lookup d k) eqn:E; [|exact Hd].
  apply no_lt_py_str, (lookup_clean _ _ _ H E).
Qed.

Lemma join_items_clean (i : nat) (l : list pyval) (strs : list string) :
  join_items i l = Ok strs -> forallb value_clean l = true -> forallb no_lt strs = true.
Proof.
  revert i strs; induction l as [|v l IH]; intros i strs; simpl; [intros E; injection E as <-; reflexivity|].
  destruct v; try discriminate; destruct (join_items (S i) l) as [rest|] eqn:E; try discriminate.
  intros E'; injection E' as <-; intros H; apply andb_prop in H as [Hs H]; simpl in Hs |- *.
  rewrite Hs; exact (IH _ _ E H).
Qed.

Lemma py_join_clean (l : list pyval) (s : string) :
  py_join ", " l = Ok s -> forallb value_clean l = true -> no_lt s = true.
Proof.
  unfold py_join; destruct (join_items 0 l) as [strs|] eqn:E; simpl; [|discriminate].
  intros E'; injection E' as <-; intros H; apply no_lt_concat; [reflexivity|].
  exact (join_items_clean _ _ _ E H).
Qed.

Lemma skills_spec_clean (d : list (string * pyval)) (s : string) :
  value_clean (VDict d) = true -> skills_spec d = Ok s -> no_lt s = true.
Proof.
  unfold skills_spec; intros H; destruct (dict_lookup d "skills") as [[| | | |l|]|] eqn:E;
    try (intros E'; injection E' as <-; reflexivity).
  intros J; apply (py_join_clean l); [exact J|]; exact (lookup_clean _ _ _ H E).
Qed.

Lemma na_list_spec_clean (d : list (string * pyval)) (k s : string) :
  value_clean (VDict d) = true -> na_list_spec d k = Ok s -> no_lt s = true.
Proof.
  unfold na_list_spec; intros H; destruct (dict_lookup d k) as [[| | | |[|x l]|]|] eqn:E;
    try (intros E'; injection E' as <-; reflexivity).
  intros J; apply (py_join_clean (x :: l)); [exact J|]; exact (lookup_clean _ _ _ H E).
Qed.

Lemma chars_clean (s : string) :
  no_lt s = true ->
  forallb value_clean (map (fun c => VStr (String c EmptyString)) (list_ascii_of_string s)) = true.
Proof.
  unfold no_lt; induction s as [|c s IH]; [reflexivity|]; cbn [has_char]; intros H.
  rewrite Bool.negb_orb in H; apply andb_prop in H as [Hc H].
  cbn [map list_ascii_of_string forallb value_clean]; unfold no_lt; cbn [has_char].
  rewrite Bool.orb_false_r, Hc; apply IH, H.
Qed.

Lemma py_iter_clean (v : pyval) (items : list pyval) :
  value_clean v = true -> py_iter v = Ok items -> forallb value_clean items = true.
Proof.
  intros H; destruct v as [| | | s | l | d]; simpl; try discriminate;
    intros E; injection E as <-; [apply chars_clean, H | exact H|].
  simpl in H; rewrite forallb_map_comp; rewrite forallb_forall in H |- *.
  intros [k x] Hin; specialize (H _ Hin); apply andb_prop in H as [Hk _]; exact Hk.
Qed.

Lemma view_experience_clean (e : list (string * pyval)) (x : ExperienceView) :
  value_clean (VDict e) = true -> view_experience e = Ok x -> experience_clean x = true.
Proof.
  intros H; unfold view_experience; destruct (py_iter (achievements_of e)) as [items|] eqn:E;
    simpl; [|discriminate]; intros E'; injection E' as <-.
  unfold experience_clean; simpl; rewrite !field_clean by (exact H || reflexivity); simpl.
  rewrite forallb_map_comp, forallb_forall; intros v Hv; apply no_lt_py_str.
  assert (Ha : value_clean (achievements_of e) = true)
    by (unfold achievements_of; destruct (dict_lookup e "achievements") eqn:L;
        [exact (lookup_clean _ _ _ H L) | reflexivity]).
  pose proof (py_iter_clean _ _ Ha E) as Hi; rewrite forallb_forall in Hi; auto.
Qed.

Lemma view_education_clean (e : list (string * pyval)) (x : EducationView) :
  value_clean (VDict e) = true -> view_education e = Ok x -> education_clean x = true.
Proof.
  intros H E; injection E as <-; unfold education_clean; simpl.
  rewrite !field_clean by (exact H || reflexivity); reflexivity.
Qed.

Lemma view_project_clean (e : list (string * pyval)) (x : ProjectView) :
  value_clean (VDict e) = true -> view_project e = Ok x -> project_clean x = true.
Proof.
  intros H E; injection E as <-; unfold project_clean; simpl.
  rewrite !field_clean by (exact H || reflexivity); reflexivity.
Qed.

Lemma view_entries_clean {A} (f : list (string * pyval) -> result A) (ok : A -> bool)
  (Hf : forall e x, value_clean (VDict e) = true -> f e = Ok x -> ok x = true)
  (l : list pyval) (xs : list A) :
  forallb value_clean l = true -> view_entries f l = Ok xs -> forallb ok xs = true.
Proof.
  revert xs; induction l as [|v l IH]; intros xs H; simpl; [intros E; injection E as <-; reflexivity|].
  simpl in H; apply andb_prop in H as [Hv H].
  destruct v; try (apply IH, H); destruct (f entries) as [a|] eqn:Ef; simpl; [|discriminate].
  destruct (view_entries f l) as [rest|] eqn:Er; simpl; [|discriminate].
  intros E; injection E as <-; simpl; rewrite (Hf _ _ Hv Ef); apply IH; auto.
Qed.

Lemma entries_spec_clean {A} (f : list (string * pyval) -> result A) (ok : A -> bool)
  (Hf : forall e x, value_clean (VDict e) = true -> f e = Ok x -> ok x = true)
  (d : list (string * pyval)) (k : string) (xs : list A) :
  value_clean (VDict d) = true -> entries_spec d k f = Ok xs -> forallb ok xs = true.
Proof.
  intros H; unfold entries_spec; destruct (dict_lookup d k) as [[| | | |l|]|] eqn:E;
    try (intros E'; injection E' as <-; reflexivity).
  apply (view_entries_clean f ok Hf); exact (lookup_clean _ _ _ H E).
Qed.

Lemma view_dict_clean (d : list (string * pyval)) (r : ResumeDoc) :
  value_clean (VDict d) = true -> view_dict d = Ok r -> doc_clean r = true.
Proof.
  intros H; unfold view_dict.
  destruct (entries_spec d "experiences" view_experience) as [exps|] eqn:E1; [|discriminate].
  destruct (entries_spec d "education" view_education) as [edus|] eqn:E2; [|discriminate].
  destruct (skills_spec d) as [sk|] eqn:E3; [|discriminate].
  destruct (na_list_spec d "certifications") as [ce|] eqn:E4; [|discriminate].
  destruct (entries_spec d "projects" view_project) as [prs|] eqn:E5; [|discriminate].
  destruct (na_list_spec d "languages") as [la|] eqn:E6; [|discriminate].
  destruct (na_list_spec d "hobbies") as [ho|] eqn:E7; [|discriminate].
  simpl; intros E; injection E as <-; unfold doc_clean; simpl.
  rewrite !field_clean by (exact H || reflexivity).
  rewrite (skills_spec_clean _ _ H E3), (na_list_spec_clean _ _ _ H E4),
    (na_list_spec_clean _ _ _ H E6), (na_list_spec_clean _ _ _ H E7).
  rewrite (entries_spec_clean _ _ view_experience_clean _ _ _ H E1),
    (entries_spec_clean _ _ view_education_clean _ _ _ H E2),
    (entries_spec_clean _ _ view_project_clean _ _ _ H E5); reflexivity.
Qed.

