(* ===== verification/Sections.v ===== *)
(** * Sections: the document's section headings

    Spec section 4.1 fixes the document's sections and their order, and
    section 8 asks that "section presence/order never varies".  The
    sections of [generate_resume_html]'s output are marked by [<h2>]
    headings: Professional Summary, Work Experience, Education, Skills,
    Certifications, Projects, Languages, Hobbies and Interests (the
    shell and the header, the other two of the spec's ten blocks, carry
    [<title>] and [<h1>]).

    [h2_headings] is [Reader.element_texts] for the tag [<h2>].  The
    theorems: [layout] of any document whose texts hold no ['<'] has
    exactly the eight headings in the spec's order, and so has every
    text [generate_resume_html] returns for an input whose strings hold
    no ['<'] (C13); an input string holding markup can add headings (C9
    shows the name is inserted unescaped). *)

From Stdlib Require Import List Ascii String Lia.
From S2P Require Import Prelude PyValue Renderer Reader.
Import ListNotations.
Open Scope bool_scope.
Open Scope string_scope.
Open Scope py_scope.

Definition h2_open : string := "<h2>".

Definition h2_headings (html : string) : list string := element_texts h2_open html.

(** The eight headings of spec section 4.1, in order. *)
Definition section_titles : list string :=
  ["Professional Summary"; "Work Experience"; "Education"; "Skills"; "Certifications";
   "Projects"; "Languages"; "Hobbies and Interests"].

(** ** The templates' headings *)

Lemma head_html_emits (a1 a2 a3 a4 a5 a6 a7 a8 : string) :
  emits h2_open a1 [] -> emits h2_open a2 [] -> emits h2_open a3 [] -> emits h2_open a4 [] -> emits h2_open a5 [] -> emits h2_open a6 [] ->
  emits h2_open a7 [] -> emits h2_open a8 [] ->
  emits h2_open (head_html a1 a2 a3 a4 a5 a6 a7 a8) ["Professional Summary"; "Work Experience"].
Proof. intros; unfold head_html; emits_build. Qed.

Lemma experience_html_emits (a1 a2 a3 a4 a5 a6 : string) :
  emits h2_open a1 [] -> emits h2_open a2 [] -> emits h2_open a3 [] -> emits h2_open a4 [] -> emits h2_open a5 [] -> emits h2_open a6 [] ->
  emits h2_open (experience_html a1 a2 a3 a4 a5 a6) [].
Proof. intros; unfold experience_html; emits_build. Qed.

Lemma education_open_emits : emits h2_open education_open ["Education"].
Proof. unfold education_open; emits_build. Qed.

Lemma education_html_emits (a1 a2 a3 a4 a5 : string) :
  emits h2_open a1 [] -> emits h2_open a2 [] -> emits h2_open a3 [] -> emits h2_open a4 [] -> emits h2_open a5 [] ->
  emits h2_open (education_html a1 a2 a3 a4 a5) [].
Proof. intros; unfold education_html; emits_build. Qed.

Lemma middle_html_emits (a1 a2 : string) :
  emits h2_open a1 [] -> emits h2_open a2 [] -> emits h2_open (middle_html a1 a2) ["Skills"; "Certifications"; "Projects"].
Proof. intros; unfold middle_html; emits_build. Qed.

Lemma project_html_emits (a1 a2 a3 a4 : string) :
  emits h2_open a1 [] -> emits h2_open a2 [] -> emits h2_open a3 [] -> emits h2_open a4 [] -> emits h2_open (project_html a1 a2 a3 a4) [].
Proof. intros; unfold project_html; emits_build. Qed.

Lemma footer_html_emits (a1 a2 : string) :
  emits h2_open a1 [] -> emits h2_open a2 [] -> emits h2_open (footer_html a1 a2) ["Languages"; "Hobbies and Interests"].
Proof. intros; unfold footer_html; emits_build. Qed.

(** ** The document's headings *)

Lemma li_items_emits (achs : list string) :
  forallb no_lt achs = true -> emits h2_open (concat " " (map (fun a => "<li>" ++ a ++ "</li>") achs)) [].
Proof.
  intros H; apply emits_concat; [apply emits_lit; reflexivity|].
  intros a Ha; pose proof (forallb_no_lt_emits h2_open eq_refl _ _ H Ha); emits_build.
Qed.

Lemma layout_experience_emits (x : ExperienceView) :
  experience_clean x = true -> emits h2_open (layout_experience x) [].
Proof.
  unfold experience_clean, layout_experience; intros H; apply andb_prop in H as [H1 H2].
  apply experience_html_emits; try (apply (forallb_no_lt_emits h2_open eq_refl _ _ H1); simpl; tauto).
  apply li_items_emits, H2.
Qed.

Lemma layout_education_emits (x : EducationView) :
  education_clean x = true -> emits h2_open (layout_education x) [].
Proof.
  unfold education_clean, layout_education; intros H.
  apply education_html_emits; apply (forallb_no_lt_emits h2_open eq_refl _ _ H); simpl; tauto.
Qed.

Lemma layout_project_emits (x : ProjectView) :
  project_clean x = true -> emits h2_open (layout_project x) [].
Proof.
  unfold project_clean, layout_project; intros H.
  apply project_html_emits; apply (forallb_no_lt_emits h2_open eq_refl _ _ H); simpl; tauto.
Qed.

Lemma layout_emits (r : ResumeDoc) : doc_clean r = true -> emits h2_open (layout r) section_titles.
Proof.
  unfold doc_clean; intros H; apply andb_prop in H as [H Hp]; apply andb_prop in H as [H Hd];
    apply andb_prop in H as [Hs He].
  assert (Hf : forall x, In x [doc_name r; doc_phone r; doc_email r; doc_linkedin r;
    doc_portfolio r; doc_address r; doc_summary r; doc_skills r; doc_certifications r;
    doc_languages r; doc_hobbies r] -> emits h2_open x []) by (intros; eapply (forallb_no_lt_emits h2_open eq_refl); eauto).
  unfold layout; eapply emits_eq.
  { repeat match goal with |- emits _ (_ ++ _) _ => apply emits_app end.
    all: match goal with
         | |- emits _ (head_html _ _ _ _ _ _ _ _) _ => apply head_html_emits
         | |- emits _ (middle_html _ _) _ => apply middle_html_emits
         | |- emits _ (footer_html _ _) _ => apply footer_html_emits
         | |- emits _ education_open _ => exact education_open_emits
         | |- emits _ (concat "" (map layout_experience _)) _ =>
             exact (emits_entries h2_open _ _ [] _ layout_experience_emits He)
         | |- emits _ (concat "" (map layout_education _)) _ =>
             exact (emits_entries h2_open _ _ [] _ layout_education_emits Hd)
         | |- emits _ (concat "" (map layout_project _)) _ =>
             exact (emits_entries h2_open _ _ [] _ layout_project_emits Hp)
         end.
    all: apply Hf; simpl; tauto. }
  rewrite !concat_map_repeat_nil; reflexivity.
Qed.

(** ** Theorems *)

(** C13: the document always shows its sections in the spec's order
    (sections 4.1 and 8): whenever [generate_resume_html] returns, on
    an input none of whose strings (dict keys included) holds a ['<'],
    its [<h2>] headings are exactly Professional Summary, Work
    Experience, Education, Skills, Certifications, Projects, Languages,
    Hobbies and Interests, in this order, each once, whatever the
    number of entries and whichever fields are absent. *)
Theorem generate_resume_html_headings (data : pyval) (html : string) :
  generate_resume_html data = Ok html -> value_clean data = true ->
  h2_headings html = section_titles.
Proof.
  intros E H; destruct data as [| | | | |d]; try discriminate.
  rewrite generate_resume_html_dict in E; destruct (view_dict d) as [r|] eqn:V; [|discriminate].
  injection E as <-; unfold h2_headings, element_texts.
  rewrite (layout_emits r (view_dict_clean d r H V)); reflexivity.
Qed.

Lemma generate_resume_html_headings_witness :
  value_clean (VDict [("name", VStr "Ada"); ("experiences", VList [VDict []; VStr "x"])]) = true /\
  h2_headings (match generate_resume_html
                 (VDict [("name", VStr "Ada"); ("experiences", VList [VDict []; VStr "x"])])
               with Ok h => h | Raise _ => "" end) = section_titles.
Proof.
  split; [reflexivity|].
  apply (generate_resume_html_headings
           (VDict [("name", VStr "Ada"); ("experiences", VList [VDict []; VStr "x"])])); reflexivity.
Defined.
