(* ===== verification/Blocks.v ===== *)
(** * Blocks: one block per record entry

    Spec section 8: "given [experiences] containing one valid entry and
    one non-record item, the output contains exactly one experience
    block".  Each record entry of [experiences], [education] and
    [projects] is rendered as a [<div class="experience">],
    [<div class="education">] or [<div class="project">] block (lines
    62, 81, 109).  This file counts those blocks in the output with
    [Reader.element_texts] and proves that, on an input whose strings
    hold no ['<'], each kind of block occurs exactly as many times as
    the field holds dict entries (C14): a non-dict entry gives no block,
    every dict entry gives one, and no block of one kind appears in
    another's section. *)

From Stdlib Require Import List Ascii String Lia.
From S2P Require Import Prelude PyValue Renderer Reader.
Import ListNotations.
Open Scope bool_scope.
Open Scope string_scope.
Open Scope py_scope.

Definition experience_div : string := tmpl "<div class=`experience`>".
Definition education_div : string := tmpl "<div class=`education`>".
Definition project_div : string := tmpl "<div class=`project`>".

Definition block_tags : list string := [experience_div; education_div; project_div].

(** The text between a block's opening tag and its [<h3>]. *)
Definition block_indent : string := "
                        ".

(** What a block of kind [div] adds when blocks of kind [t] are read. *)
Definition block_of (t div : string) : list string :=
  if String.eqb t div then [block_indent] else [].

(** The number of record entries the list field [k] holds: what the
    loops of lines 57-60, 76-79 and 104-107 render. *)
Definition dict_entries (data : pyval) (k : string) : nat :=
  match data with
  | VDict d =>
      match dict_lookup d k with Some (VList l) => List.length (filter is_dict l) | _ => 0 end
  | _ => 0
  end.

Definition block_count (r : ResumeDoc) (t : string) : nat :=
  if String.eqb t experience_div then List.length (doc_experiences r)
  else if String.eqb t education_div then List.length (doc_education r)
  else List.length (doc_projects r).

(** ** The templates' blocks *)

(** For a concrete tag, turn each [no_lt] hypothesis into the hole's
    [emits]. *)
Ltac holes_emit t :=
  repeat match goal with
  | H : no_lt ?a = true |- _ => pose proof (emits_clean t eq_refl a H); clear H
  end.

Ltac block_cases :=
  intros Ht; simpl in Ht; destruct Ht as [<- | [<- | [<- | []]]]; intros;
  match goal with |- emits ?t _ _ => holes_emit t end.

Lemma head_html_blocks (t a1 a2 a3 a4 a5 a6 a7 a8 : string) :
  In t block_tags -> no_lt a1 = true -> no_lt a2 = true -> no_lt a3 = true -> no_lt a4 = true ->
  no_lt a5 = true -> no_lt a6 = true -> no_lt a7 = true -> no_lt a8 = true ->
  emits t (head_html a1 a2 a3 a4 a5 a6 a7 a8) [].
Proof. block_cases; unfold head_html; emits_build. Qed.

Lemma li_items_blocks (t : string) (achs : list string) :
  In t block_tags -> forallb no_lt achs = true ->
  emits t (concat " " (map (fun a => "<li>" ++ a ++ "</li>") achs)) [].
Proof.
  block_cases; (apply emits_concat; [apply emits_lit; reflexivity|]);
    intros a Ha; match goal with H : forallb no_lt _ = true |- emits ?t _ _ =>
      pose proof (forallb_no_lt_emits t eq_refl _ _ H Ha) end; emits_build.
Qed.

Lemma experience_html_blocks (t a1 a2 a3 a4 a5 a6 : string) :
  In t block_tags -> no_lt a1 = true -> no_lt a2 = true -> no_lt a3 = true -> no_lt a4 = true ->
  no_lt a5 = true -> emits t a6 [] ->
  emits t (experience_html a1 a2 a3 a4 a5 a6) (block_of t experience_div).
Proof. block_cases; unfold experience_html; emits_build. Qed.

Lemma education_open_blocks (t : string) : In t block_tags -> emits t education_open [].
Proof. block_cases; unfold education_open; emits_build. Qed.

Lemma education_html_blocks (t a1 a2 a3 a4 a5 : string) :
  In t block_tags -> no_lt a1 = true -> no_lt a2 = true -> no_lt a3 = true -> no_lt a4 = true ->
  no_lt a5 = true -> emits t (education_html a1 a2 a3 a4 a5) (block_of t education_div).
Proof. block_cases; unfold education_html; emits_build. Qed.

Lemma middle_html_blocks (t a1 a2 : string) :
  In t block_tags -> no_lt a1 = true -> no_lt a2 = true -> emits t (middle_html a1 a2) [].
Proof. block_cases; unfold middle_html; emits_build. Qed.

Lemma project_html_blocks (t a1 a2 a3 a4 : string) :
  In t block_tags -> no_lt a1 = true -> no_lt a2 = true -> no_lt a3 = true -> no_lt a4 = true ->
  emits t (project_html a1 a2 a3 a4) (block_of t project_div).
Proof. block_cases; unfold project_html; emits_build. Qed.

Lemma footer_html_blocks (t a1 a2 : string) :
  In t block_tags -> no_lt a1 = true -> no_lt a2 = true -> emits t (footer_html a1 a2) [].
Proof. block_cases; unfold footer_html; emits_build. Qed.

(** ** The document's blocks *)

Lemma layout_experience_blocks (t : string) (x : ExperienceView) :
  In t block_tags -> experience_clean x = true ->
  emits t (layout_experience x) (block_of t experience_div).
Proof.
  unfold experience_clean, layout_experience; intros Ht H; apply andb_prop in H as [H1 H2].
  apply experience_html_blocks; try assumption;
    try (apply (proj1 (forallb_forall _ _) H1); simpl; tauto).
  apply li_items_blocks; assumption.
Qed.

Lemma layout_education_blocks (t : string) (x : EducationView) :
  In t block_tags -> education_clean x = true ->
  emits t (layout_education x) (block_of t education_div).
Proof.
  unfold education_clean, layout_education; intros Ht H.
  apply education_html_blocks; try assumption; apply (proj1 (forallb_forall _ _) H); simpl; tauto.
Qed.

Lemma layout_project_blocks (t : string) (x : ProjectView) :
  In t block_tags -> project_clean x = true ->
  emits t (layout_project x) (block_of t project_div).
Proof.
  unfold project_clean, layout_project; intros Ht H.
  apply project_html_blocks; try assumption; apply (proj1 (forallb_forall _ _) H); simpl; tauto.
Qed.

Lemma layout_blocks (t : string) (r : ResumeDoc) :
  In t block_tags -> doc_clean r = true ->
  emits t (layout r)
    (concat_map_repeat (block_of t experience_div) (List.length (doc_experiences r))
     ++ concat_map_repeat (block_of t education_div) (List.length (doc_education r))
     ++ concat_map_repeat (block_of t project_div) (List.length (doc_projects r))).
Proof.
  unfold doc_clean; intros Ht H; apply andb_prop in H as [H Hp]; apply andb_prop in H as [H Hd];
    apply andb_prop in H as [Hs He].
  pose proof (proj1 (forallb_forall _ _) Hs) as Hf.
  unfold layout; eapply emits_eq.
  { repeat match goal with |- emits _ (_ ++ _) _ => apply emits_app end.
    all: match goal with
         | |- emits _ (head_html _ _ _ _ _ _ _ _) _ => apply head_html_blocks
         | |- emits _ (middle_html _ _) _ => apply middle_html_blocks
         | |- emits _ (footer_html _ _) _ => apply footer_html_blocks
         | |- emits _ education_open _ => apply education_open_blocks
         | |- emits _ (concat "" (map layout_experience _)) _ =>
             exact (emits_entries t _ _ _ _ (fun x => layout_experience_blocks t x Ht) He)
         | |- emits _ (concat "" (map layout_education _)) _ =>
             exact (emits_entries t _ _ _ _ (fun x => layout_education_blocks t x Ht) Hd)
         | |- emits _ (concat "" (map layout_project _)) _ =>
             exact (emits_entries t _ _ _ _ (fun x => layout_project_blocks t x Ht) Hp)
         end.
    all: first [exact Ht | apply Hf; simpl; tauto]. }
  rewrite !app_nil_l, app_nil_r; reflexivity.
Qed.

(** ** Counting *)

Lemma length_concat_map_repeat (w : list string) (n : nat) :
  List.length (concat_map_repeat w n) = n * List.length w.
Proof. induction n as [|n IH]; simpl; [reflexivity|]; rewrite length_app, IH; reflexivity. Qed.

(** [view_entries] keeps one view per dict entry. *)
Lemma view_entries_length {A} (f : list (string * pyval) -> result A) (l : list pyval)
  (xs : list A) :
  view_entries f l = Ok xs -> List.length xs = List.length (filter is_dict l).
Proof.
  revert xs; induction l as [|x l IH]; intros xs E; simpl in E.
  - injection E as <-; reflexivity.
  - destruct x; simpl; try (apply IH; exact E).
    apply bind_result_ok_inv in E as [a [_ E]]; apply bind_result_ok_inv in E as [rest [E' E]].
    injection E as <-; simpl; f_equal; apply IH, E'.
Qed.

Lemma entries_spec_length {A} (d : list (string * pyval)) (k : string)
  (f : list (string * pyval) -> result A) (xs : list A) :
  entries_spec d k f = Ok xs -> List.length xs = dict_entries (VDict d) k.
Proof.
  unfold entries_spec, dict_entries; destruct (dict_lookup d k) as [[]|]; intros E;
    try (injection E as <-; reflexivity).
  apply (view_entries_length f), E.
Qed.

Lemma view_dict_counts (d : list (string * pyval)) (r : ResumeDoc) :
  view_dict d = Ok r ->
  List.length (doc_experiences r) = dict_entries (VDict d) "experiences" /\
  List.length (doc_education r) = dict_entries (VDict d) "education" /\
  List.length (doc_projects r) = dict_entries (VDict d) "projects".
Proof.
  unfold view_dict; intros V; repeat (apply bind_result_ok_inv in V as [? [? V]]).
  injection V as <-; cbn [doc_experiences doc_education doc_projects].
  repeat split; eapply entries_spec_length; eassumption.
Qed.

(** Reading the blocks of kind [t] in a clean document. *)
Lemma layout_block_count (t : string) (r : ResumeDoc) :
  In t block_tags -> doc_clean r = true ->
  List.length (element_texts t (layout r)) = block_count r t.
Proof.
  intros Ht H; unfold element_texts; rewrite (layout_blocks t r Ht H); simpl.
  rewrite !length_app, !length_concat_map_repeat.
  destruct Ht as [<- | [<- | [<- | []]]]; unfold block_count; simpl; lia.
Qed.

(** ** Theorems *)

(** C14: one block per record entry (spec section 8): whenever
    [generate_resume_html] returns, on an input none of whose strings
    holds a ['<'], the output holds exactly as many experience,
    education and project blocks as [experiences], [education] and
    [projects] hold dict entries; non-dict entries give no block, and a
    field that is absent or not a list gives none. *)
Theorem generate_resume_html_block_counts (data : pyval) (html : string) :
  generate_resume_html data = Ok html -> value_clean data = true ->
  List.length (element_texts experience_div html) = dict_entries data "experiences" /\
  List.length (element_texts education_div html) = dict_entries data "education" /\
  List.length (element_texts project_div html) = dict_entries data "projects".
Proof.
  intros E H; destruct data as [| | | | |d]; try discriminate.
  rewrite generate_resume_html_dict in E; destruct (view_dict d) as [r|] eqn:V; [|discriminate].
  injection E as <-; pose proof (view_dict_clean d r H V) as C.
  destruct (view_dict_counts d r V) as [Ex [Ed Ep]].
  rewrite !layout_block_count by (assumption || (simpl; tauto)); unfold block_count; simpl.
  auto.
Qed.

Lemma generate_resume_html_block_counts_witness :
  value_clean (VDict [("experiences", VList [VDict [("job_title", VStr "Dev")]; VStr "x"; VDict []]); ("projects", VList [VDict []])]) = true /\
  List.length (element_texts experience_div (match generate_resume_html (VDict [("experiences", VList [VDict [("job_title", VStr "Dev")]; VStr "x"; VDict []]); ("projects", VList [VDict []])]) with Ok h => h | Raise _ => "" end)) = 2 /\
  List.length (element_texts education_div (match generate_resume_html (VDict [("experiences", VList [VDict [("job_title", VStr "Dev")]; VStr "x"; VDict []]); ("projects", VList [VDict []])]) with Ok h => h | Raise _ => "" end)) = 0 /\
  List.length (element_texts project_div (match generate_resume_html (VDict [("experiences", VList [VDict [("job_title", VStr "Dev")]; VStr "x"; VDict []]); ("projects", VList [VDict []])]) with Ok h => h | Raise _ => "" end)) = 1.
Proof.
  split; [reflexivity|].
  apply (generate_resume_html_block_counts (VDict [("experiences", VList [VDict [("job_title", VStr "Dev")]; VStr "x"; VDict []]); ("projects", VList [VDict []])])); reflexivity.
Defined.
