(* ===== verification/Items.v ===== *)
(** * Items: the achievements as list items

    Each experience block of [generate_resume_html] holds the list
    [' '.join([f'<li>{ach}</li>' for ach in exp.get('achievements', [])])]
    (line 65), and no other part of the document writes a [<li>].  This
    file reads the output's [<li>] elements with [Reader.element_texts]
    and proves that, on an input whose strings hold no ['<'], they are
    exactly [str] of the items the code iterates, experience after
    experience, in order (C15): a list of strings gives its strings, a
    string gives its characters, a dict its keys; an experience without
    [achievements] gives none. *)

From Stdlib Require Import List Ascii String Lia.
From S2P Require Import Prelude PyValue Renderer Reader.
Import ListNotations.
Open Scope bool_scope.
Open Scope string_scope.
Open Scope py_scope.

Definition li_open : string := "<li>".

(** [str(ach)] for each [ach in exp.get('achievements', [])], for a
    dict [exp]. *)
Definition experience_items (x : pyval) : list string :=
  match x with
  | VDict e => match py_iter (achievements_of e) with Ok items => map py_str items | Raise _ => [] end
  | _ => []
  end.

(** The items of every dict entry of [data.get('experiences', [])], in
    the order of lines 57-65. *)
Definition achievement_texts (data : pyval) : list string :=
  match data with
  | VDict d =>
      match dict_lookup d "experiences" with Some (VList l) => flat_map experience_items l | _ => [] end
  | _ => []
  end.

(** ** The templates' items *)

Ltac li_holes :=
  intros; repeat match goal with
  | H : no_lt ?a = true |- _ => pose proof (emits_clean li_open eq_refl a H); clear H
  end.

Lemma head_html_items (a1 a2 a3 a4 a5 a6 a7 a8 : string) :
  no_lt a1 = true -> no_lt a2 = true -> no_lt a3 = true -> no_lt a4 = true ->
  no_lt a5 = true -> no_lt a6 = true -> no_lt a7 = true -> no_lt a8 = true ->
  emits li_open (head_html a1 a2 a3 a4 a5 a6 a7 a8) [].
Proof. li_holes; unfold head_html; emits_build. Qed.

Lemma experience_html_items (a1 a2 a3 a4 a5 a6 : string) (w : list string) :
  no_lt a1 = true -> no_lt a2 = true -> no_lt a3 = true -> no_lt a4 = true ->
  no_lt a5 = true -> emits li_open a6 w -> emits li_open (experience_html a1 a2 a3 a4 a5 a6) w.
Proof. li_holes; unfold experience_html; eapply emits_eq; [emits_split | simpl; apply app_nil_r]. Qed.

Lemma education_open_items : emits li_open education_open [].
Proof. unfold education_open; emits_build. Qed.

Lemma education_html_items (a1 a2 a3 a4 a5 : string) :
  no_lt a1 = true -> no_lt a2 = true -> no_lt a3 = true -> no_lt a4 = true ->
  no_lt a5 = true -> emits li_open (education_html a1 a2 a3 a4 a5) [].
Proof. li_holes; unfold education_html; emits_build. Qed.

Lemma middle_html_items (a1 a2 : string) :
  no_lt a1 = true -> no_lt a2 = true -> emits li_open (middle_html a1 a2) [].
Proof. li_holes; unfold middle_html; emits_build. Qed.

Lemma project_html_items (a1 a2 a3 a4 : string) :
  no_lt a1 = true -> no_lt a2 = true -> no_lt a3 = true -> no_lt a4 = true ->
  emits li_open (project_html a1 a2 a3 a4) [].
Proof. li_holes; unfold project_html; emits_build. Qed.

Lemma footer_html_items (a1 a2 : string) :
  no_lt a1 = true -> no_lt a2 = true -> emits li_open (footer_html a1 a2) [].
Proof. li_holes; unfold footer_html; emits_build. Qed.

(** One [<li>{ach}</li>] is one item. *)
Lemma li_element_items (a : string) : no_lt a = true -> emits li_open ("<li>" ++ a ++ "</li>") [a].
Proof.
  intros H hs; rewrite !scan_app.
  assert (E : scan li_open (mk_scan hs (Outside 0)) "<li>" = mk_scan hs (Inside "")) by reflexivity.
  rewrite E, (scan_inside_clean li_open hs "" a H); reflexivity.
Qed.

Lemma li_items_items (achs : list string) :
  forallb no_lt achs = true ->
  emits li_open (concat " " (map (fun a => "<li>" ++ a ++ "</li>") achs)) achs.
Proof.
  rewrite forallb_forall; intros H; eapply emits_eq.
  - apply (emits_concat_flat li_open _ (fun a => [a])); [apply emits_lit; reflexivity|].
    intros a Ha; apply li_element_items, H, Ha.
  - induction achs as [|a achs IH]; simpl; [reflexivity|]; f_equal; apply IH.
    intros x Hx; apply H; right; exact Hx.
Qed.

(** ** The document's items *)

Lemma layout_experience_items (x : ExperienceView) :
  experience_clean x = true -> emits li_open (layout_experience x) (xv_achievements x).
Proof.
  unfold experience_clean, layout_experience; intros H; apply andb_prop in H as [H1 H2].
  rewrite forallb_forall in H1.
  apply experience_html_items; try (apply H1; simpl; tauto).
  apply li_items_items, H2.
Qed.

Lemma layout_education_items (x : EducationView) :
  education_clean x = true -> emits li_open (layout_education x) [].
Proof.
  unfold education_clean, layout_education; rewrite forallb_forall; intros H.
  apply education_html_items; apply H; simpl; tauto.
Qed.

Lemma layout_project_items (x : ProjectView) :
  project_clean x = true -> emits li_open (layout_project x) [].
Proof.
  unfold project_clean, layout_project; rewrite forallb_forall; intros H.
  apply project_html_items; apply H; simpl; tauto.
Qed.

Lemma layout_items (r : ResumeDoc) :
  doc_clean r = true -> emits li_open (layout r) (flat_map xv_achievements (doc_experiences r)).
Proof.
  unfold doc_clean; intros H; apply andb_prop in H as [H Hp]; apply andb_prop in H as [H Hd];
    apply andb_prop in H as [Hs He].
  rewrite forallb_forall in Hs.
  unfold layout; eapply emits_eq.
  { repeat match goal with |- emits _ (_ ++ _) _ => apply emits_app end.
    all: match goal with
         | |- emits _ (head_html _ _ _ _ _ _ _ _) _ => apply head_html_items
         | |- emits _ (middle_html _ _) _ => apply middle_html_items
         | |- emits _ (footer_html _ _) _ => apply footer_html_items
         | |- emits _ education_open _ => exact education_open_items
         | |- emits _ (concat "" (map layout_experience _)) _ =>
             exact (emits_entries_flat li_open _ _ _ _ layout_experience_items He)
         | |- emits _ (concat "" (map layout_education _)) _ =>
             exact (emits_entries li_open _ _ [] _ layout_education_items Hd)
         | |- emits _ (concat "" (map layout_project _)) _ =>
             exact (emits_entries li_open _ _ [] _ layout_project_items Hp)
         end.
    all: apply Hs; simpl; tauto. }
  rewrite !concat_map_repeat_nil, !app_nil_l, app_nil_r; reflexivity.
Qed.

(** The views of the dict entries carry the items the code iterates. *)
Lemma view_entries_items (l : list pyval) (xs : list ExperienceView) :
  view_entries view_experience l = Ok xs ->
  flat_map xv_achievements xs = flat_map experience_items l.
Proof.
  revert xs; induction l as [|x l IH]; intros xs E; simpl in E.
  - injection E as <-; reflexivity.
  - destruct x; simpl; try (apply IH; exact E).
    unfold view_experience in E; simpl in E; unfold experience_items.
    destruct (py_iter (achievements_of entries)) as [items|]; [|discriminate].
    apply bind_result_ok_inv in E as [rest [E' E]]; injection E as <-; simpl.
    f_equal; apply IH, E'.
Qed.

Lemma view_dict_items (d : list (string * pyval)) (r : ResumeDoc) :
  view_dict d = Ok r -> flat_map xv_achievements (doc_experiences r) = achievement_texts (VDict d).
Proof.
  unfold view_dict; intros V; apply bind_result_ok_inv in V as [exps [E V]].
  repeat (apply bind_result_ok_inv in V as [? [_ V]]).
  injection V as <-; cbn [doc_experiences]; revert E; unfold entries_spec, achievement_texts.
  destruct (dict_lookup d "experiences") as [[]|]; intros E;
    try (injection E as <-; reflexivity).
  apply view_entries_items, E.
Qed.

(** ** Theorems *)

(** C15: the list items of the document are the achievements (line
    65): whenever [generate_resume_html] returns, on an input none of
    whose strings holds a ['<'], the texts of the output's [<li>]
    elements are exactly [str] of each item of
    [exp.get('achievements', [])], for every dict entry [exp] of
    [experiences] in order: nothing else in the document is a list
    item, and no item is lost, merged or reordered. *)
Theorem generate_resume_html_items (data : pyval) (html : string) :
  generate_resume_html data = Ok html -> value_clean data = true ->
  element_texts li_open html = achievement_texts data.
Proof.
  intros E H; destruct data as [| | | | |d]; try discriminate.
  rewrite generate_resume_html_dict in E; destruct (view_dict d) as [r|] eqn:V; [|discriminate].
  injection E as <-; unfold element_texts.
  rewrite (layout_items r (view_dict_clean d r H V)), (view_dict_items d r V); reflexivity.
Qed.

Lemma generate_resume_html_items_witness :
  value_clean (VDict [("experiences", VList [VDict [("achievements", VList [VStr "Led"; VStr "Built"])];
                                             VStr "x"; VDict [("achievements", VStr "ab")]])]) = true /\
  element_texts li_open
    (match generate_resume_html
       (VDict [("experiences", VList [VDict [("achievements", VList [VStr "Led"; VStr "Built"])];
                                      VStr "x"; VDict [("achievements", VStr "ab")]])])
     with Ok h => h | Raise _ => "" end) = ["Led"; "Built"; "a"; "b"].
Proof.
  split; [reflexivity|].
  apply (generate_resume_html_items
    (VDict [("experiences", VList [VDict [("achievements", VList [VStr "Led"; VStr "Built"])];
                                   VStr "x"; VDict [("achievements", VStr "ab")]])])); reflexivity.
Defined.
