(* ===== verification/Nesting.v ===== *)
(** * Nesting: the output's tags are well nested

    Spec section 4.1 calls the output "a complete HTML document"; the
    code writes its tags as fixed text around the f-string holes.  This
    file reads the tags of a text and checks their nesting.

    - [tok_char] is a tag tokenizer, a transducer run character by
      character: in text it waits for ['<']; in a tag it reads the name
      up to a blank or ['>'] and skips the attributes to ['>'].  Each
      closed tag yields an [Open] or [Close] event, except the void
      elements of HTML and the doctype declaration, which have no end
      tag.  [tag_events html] lists the events in order.
    - [nested] is the well-nesting of an event list as an inductive
      predicate (the empty list, concatenation, an element around a
      nested list), and [check_nest] a stack machine that recognises
      it; [check_nest_correct] proves the two agree.

    The theorems: a name holding one end tag breaks the nesting
    (C17), and (C16) on an input none of whose strings holds a ['<'],
    the output of [generate_resume_html] is one [<html>] element whose
    contents are well nested, whatever the number of entries and
    achievements.  The tags come from the templates alone
    ([tokens_clean]); each template's events are computed once
    ([tokens_build]), and the per-entry blocks are nested on their own,
    so they leave the stack as they find it ([check_nest_nested]). *)

From Stdlib Require Import List Ascii String Lia Wellfounded Wf_nat.
From S2P Require Import Prelude PyValue Renderer Reader.
Import ListNotations.
Open Scope bool_scope.
Open Scope string_scope.
Open Scope py_scope.

(** ** Tags *)

Inductive tag_event : Type :=
| Open (name : string)
| Close (name : string).

(** The void elements of HTML and the doctype: start tags with no end
    tag. *)
Definition void_elements : list string :=
  ["!DOCTYPE"; "area"; "base"; "br"; "col"; "embed"; "hr"; "img"; "input"; "link"; "meta";
   "source"; "track"; "wbr"].

Inductive tok_mode : Type :=
| Text
| TagStart
| TagName (closing : bool) (name : string)
| TagAttrs (closing : bool) (name : string).

Definition is_blank (c : ascii) : bool :=
  Ascii.eqb c " "%char || Ascii.eqb c "010"%char || Ascii.eqb c "009"%char.

Definition tag_event_of (closing : bool) (name : string) : list tag_event :=
  if closing then [Close name]
  else if existsb (String.eqb name) void_elements then [] else [Open name].

Definition tok_char (m : tok_mode) (c : ascii) : list tag_event * tok_mode :=
  match m with
  | Text => if Ascii.eqb c "<"%char then ([], TagStart) else ([], Text)
  | TagStart =>
      if Ascii.eqb c "/"%char then ([], TagName true "")
      else if Ascii.eqb c ">"%char then ([], Text)
      else ([], TagName false (String c ""))
  | TagName cl n =>
      if Ascii.eqb c ">"%char then (tag_event_of cl n, Text)
      else if is_blank c then ([], TagAttrs cl n)
      else ([], TagName cl (n ++ String c ""))
  | TagAttrs cl n => if Ascii.eqb c ">"%char then (tag_event_of cl n, Text) else ([], TagAttrs cl n)
  end.

Fixpoint tokenize_from (m : tok_mode) (s : string) : list tag_event * tok_mode :=
  match s with
  | EmptyString => ([], m)
  | String c s' =>
      let '(o, m') := tok_char m c in
      let '(o', m'') := tokenize_from m' s' in ((o ++ o')%list, m'')
  end.

Definition tag_events (html : string) : list tag_event := fst (tokenize_from Text html).

(** Read from text, [x] yields the events [evs] and ends in text. *)
Definition tokens (x : string) (evs : list tag_event) : Prop := tokenize_from Text x = (evs, Text).

(** ** Nesting *)

Inductive nested : list tag_event -> Prop :=
| nested_nil : nested []
| nested_app (l1 l2 : list tag_event) : nested l1 -> nested l2 -> nested (l1 ++ l2)%list
| nested_elem (n : string) (l : list tag_event) : nested l -> nested (Open n :: l ++ [Close n])%list.

(** The stack of open elements, innermost first; [None] on an end tag
    that does not close the innermost open element. *)
Fixpoint check_nest (st : list string) (evs : list tag_event) : option (list string) :=
  match evs with
  | [] => Some st
  | Open n :: evs' => check_nest (n :: st) evs'
  | Close n :: evs' =>
      match st with
      | m :: st' => if String.eqb m n then check_nest st' evs' else None
      | [] => None
      end
  end.

(** ** The templates' tags

    What [tag_events] reads in each template, holes apart (computed
    from [Renderer]'s text by [tokens_build] below). *)

Definition head_tags : list tag_event :=
  [Open "head"; Open "title"; Close "title"; Open "style"; Close "style"; Close "head";
   Open "body"; Open "div"; Open "h1"; Close "h1";
   Open "div"; Open "span"; Close "span"; Open "span"; Close "span"; Open "span"; Close "span";
   Open "span"; Close "span"; Open "span"; Close "span"; Close "div";
   Open "div"; Open "h2"; Close "h2"; Open "p"; Close "p"; Close "div";
   Open "div"; Open "h2"; Close "h2"].

Definition li_tags : list tag_event := [Open "li"; Close "li"].

Definition experience_tags (achievements : list string) : list tag_event :=
  [Open "div"; Open "h3"; Close "h3"; Open "ul"] ++ flat_map (fun _ => li_tags) achievements
  ++ [Close "ul"; Close "div"].

Definition education_open_tags : list tag_event := [Close "div"; Open "div"; Open "h2"; Close "h2"].

Definition education_tags : list tag_event :=
  [Open "div"; Open "h3"; Close "h3"; Open "p"; Close "p"; Open "p"; Close "p"; Close "div"].

Definition middle_tags : list tag_event :=
  [Close "div"; Open "div"; Open "h2"; Close "h2"; Open "p"; Close "p"; Close "div";
   Open "div"; Open "h2"; Close "h2"; Open "p"; Close "p"; Close "div";
   Open "div"; Open "h2"; Close "h2"].

Definition project_tags : list tag_event :=
  [Open "div"; Open "h3"; Close "h3";
   Open "p"; Open "strong"; Close "strong"; Close "p";
   Open "p"; Open "strong"; Close "strong"; Close "p";
   Open "p"; Open "strong"; Close "strong"; Close "p"; Close "div"].

Definition footer_tags : list tag_event :=
  [Close "div"; Open "div"; Open "h2"; Close "h2"; Open "p"; Close "p"; Close "div";
   Open "div"; Open "h2"; Close "h2"; Open "p"; Close "p"; Close "div";
   Close "div"; Close "body"].

(** ** Reading in pieces *)

Lemma tokenize_app (m : tok_mode) (a b : string) :
  tokenize_from m (a ++ b) =
  let '(o1, m1) := tokenize_from m a in let '(o2, m2) := tokenize_from m1 b in ((o1 ++ o2)%list, m2).
Proof.
  revert m; induction a as [|c a IH]; intros m; simpl.
  - destruct (tokenize_from m b); reflexivity.
  - destruct (tok_char m c) as [o m']; rewrite IH.
    destruct (tokenize_from m' a) as [o1 m1]; destruct (tokenize_from m1 b) as [o2 m2].
    rewrite app_assoc; reflexivity.
Qed.

Lemma tokens_nil : tokens "" [].
Proof. reflexivity. Qed.

Lemma tokens_app (a b : string) (e1 e2 : list tag_event) :
  tokens a e1 -> tokens b e2 -> tokens (a ++ b) (e1 ++ e2).
Proof. unfold tokens; intros H1 H2; rewrite tokenize_app, H1, H2; reflexivity. Qed.

Lemma tokens_eq (x : string) (e e' : list tag_event) : tokens x e -> e = e' -> tokens x e'.
Proof. intros H <-; exact H. Qed.

(** A text with no ['<'] read from text yields nothing. *)
Lemma tokens_clean (x : string) : no_lt x = true -> tokens x [].
Proof.
  unfold no_lt, tokens; induction x as [|c x IH]; [reflexivity|]; cbn [has_char]; intros H.
  destruct (Ascii.eqb_spec "<"%char c) as [Ec|Hc]; [subst c; discriminate|].
  assert (E : Ascii.eqb c "<"%char = false) by (apply Ascii.eqb_neq; congruence).
  cbn [tokenize_from tok_char]; rewrite E, IH by exact H; reflexivity.
Qed.

Lemma tokens_concat_flat {A} (f : A -> string) (w : A -> list tag_event) (sep : string)
  (xs : list A) :
  tokens sep [] -> (forall x, In x xs -> tokens (f x) (w x)) ->
  tokens (concat sep (map f xs)) (flat_map w xs).
Proof. apply hom_concat_flat; [exact tokens_nil | exact tokens_app]. Qed.

Lemma tokens_entries_flat {A} (lay : A -> string) (ok : A -> bool) (w : A -> list tag_event)
  (xs : list A) :
  (forall x, ok x = true -> tokens (lay x) (w x)) -> forallb ok xs = true ->
  tokens (concat "" (map lay xs)) (flat_map w xs).
Proof. apply hom_entries_flat; [exact tokens_nil | exact tokens_app]. Qed.

(** ** The stack machine recognises nesting *)

Lemma check_nest_app (st : list string) (l1 l2 : list tag_event) :
  check_nest st (l1 ++ l2) =
  match check_nest st l1 with Some st' => check_nest st' l2 | None => None end.
Proof.
  revert st; induction l1 as [|[n|n] l1 IH]; intros st; simpl; auto.
  destruct st as [|m st]; [reflexivity|]; destruct (String.eqb m n); auto.
Qed.

(** A nested list leaves the stack as it finds it. *)
Lemma check_nest_nested (l : list tag_event) (st : list string) :
  nested l -> check_nest st l = Some st.
Proof.
  intros H; revert st; induction H as [|l1 l2 _ IH1 _ IH2|n l _ IH]; intros st; [reflexivity| |].
  - rewrite check_nest_app, IH1; apply IH2.
  - simpl; rewrite check_nest_app, IH; simpl; rewrite String.eqb_refl; reflexivity.
Qed.

(** An accepted list from a stack [s ++ n :: st] closes [n] once the
    elements above it are closed. *)
Lemma check_nest_split (l : list tag_event) (s : list string) (n : string) (st : list string) :
  check_nest (s ++ n :: st) l = Some [] ->
  exists l1 l2, l = (l1 ++ Close n :: l2)%list /\ check_nest s l1 = Some [] /\ check_nest st l2 = Some [].
Proof.
  revert s; induction l as [|[m|m] l IH]; intros s H; simpl in H.
  - destruct s; discriminate.
  - destruct (IH (m :: s) H) as (l1 & l2 & -> & H1 & H2); exists (Open m :: l1), l2; auto.
  - destruct s as [|x s]; simpl in H.
    + destruct (String.eqb_spec n m) as [<-|]; [|discriminate]; exists [], l; auto.
    + destruct (String.eqb_spec x m) as [<-|]; [|discriminate].
      destruct (IH s H) as (l1 & l2 & -> & H1 & H2); exists (Close x :: l1), l2.
      simpl; rewrite String.eqb_refl; auto.
Qed.

Lemma check_nest_sound (l : list tag_event) : check_nest [] l = Some [] -> nested l.
Proof.
  induction l as [l IH] using (well_founded_induction (wf_inverse_image _ nat _ (@List.length _) lt_wf)).
  destruct l as [|[n|n] l]; intros H; [constructor | |discriminate].
  destruct (check_nest_split l [] n [] H) as (l1 & l2 & -> & H1 & H2).
  replace (Open n :: l1 ++ Close n :: l2)%list with ((Open n :: l1 ++ [Close n]) ++ l2)%list
    by (simpl; rewrite <- app_assoc; reflexivity).
  apply nested_app; [apply nested_elem|]; apply IH; auto; simpl; rewrite length_app; simpl; lia.
Qed.

Lemma nested_flat_map {A} (w : A -> list tag_event) (xs : list A) :
  (forall x, nested (w x)) -> nested (flat_map w xs).
Proof. intros H; induction xs as [|x xs IH]; simpl; [constructor | apply nested_app; auto]. Qed.

Create HintDb nesting.

(** A list made of fixed events and of repeated nested pieces, checked
    by running the machine: the fixed events are computed, each
    repeated piece is nested (by the [nesting] hints or by computation)
    and leaves the stack unchanged. *)
Ltac nest_piece := first [solve [eauto with nesting] | apply check_nest_sound; reflexivity].

Ltac nest_check :=
  apply check_nest_sound;
  repeat (simpl; first [rewrite check_nest_app
    | rewrite check_nest_nested by (apply nested_flat_map; intros; nest_piece)]);
  reflexivity.

Lemma experience_tags_nested (achs : list string) : nested (experience_tags achs).
Proof. unfold experience_tags; nest_check. Qed.

#[export] Hint Resolve experience_tags_nested : nesting.

(** ** The templates' events *)

(** Split a template at each append; a hole is discharged by its
    [tokens] hypothesis, a literal by computation. *)
Ltac tokens_split :=
  match goal with
  | |- tokens (?a ++ ?b) _ => apply tokens_app; tokens_split
  | |- tokens _ _ => first [eassumption | unfold tokens; vm_compute; reflexivity]
  end.

Ltac tokens_build :=
  intros; repeat match goal with
  | H : no_lt ?a = true |- _ => pose proof (tokens_clean a H); clear H
  end;
  eapply tokens_eq; [tokens_split | simpl; reflexivity].

Lemma head_html_tokens (a1 a2 a3 a4 a5 a6 a7 a8 : string) :
  no_lt a1 = true -> no_lt a2 = true -> no_lt a3 = true -> no_lt a4 = true ->
  no_lt a5 = true -> no_lt a6 = true -> no_lt a7 = true -> no_lt a8 = true ->
  tokens (head_html a1 a2 a3 a4 a5 a6 a7 a8) (Open "html" :: head_tags).
Proof. unfold head_html; tokens_build. Qed.

(** The head with the name's events in its two holes. *)
Lemma head_html_name_tokens (s : string) (e : list tag_event) (a3 a4 a5 a6 a7 a8 : string) :
  tokens s e -> no_lt a3 = true -> no_lt a4 = true -> no_lt a5 = true -> no_lt a6 = true ->
  no_lt a7 = true -> no_lt a8 = true ->
  exists rest, tokens (head_html s s a3 a4 a5 a6 a7 a8)
    (Open "html" :: Open "head" :: Open "title" :: e ++ Close "title" :: rest)%list.
Proof. intros; eexists; unfold head_html; tokens_build. Qed.

Lemma li_items_tokens (achs : list string) :
  forallb no_lt achs = true ->
  tokens (concat " " (map (fun a => "<li>" ++ a ++ "</li>") achs)) (flat_map (fun _ => li_tags) achs).
Proof.
  rewrite forallb_forall; intros H; apply tokens_concat_flat; [reflexivity|].
  intros a Ha; pose proof (tokens_clean a (H a Ha)); tokens_build.
Qed.

Lemma experience_html_tokens (a1 a2 a3 a4 a5 a6 : string) (achs : list string) :
  no_lt a1 = true -> no_lt a2 = true -> no_lt a3 = true -> no_lt a4 = true ->
  no_lt a5 = true -> tokens a6 (flat_map (fun _ => li_tags) achs) ->
  tokens (experience_html a1 a2 a3 a4 a5 a6) (experience_tags achs).
Proof. unfold experience_html, experience_tags; tokens_build. Qed.

Lemma education_open_tokens : tokens education_open education_open_tags.
Proof. unfold education_open; tokens_build. Qed.

Lemma education_html_tokens (a1 a2 a3 a4 a5 : string) :
  no_lt a1 = true -> no_lt a2 = true -> no_lt a3 = true -> no_lt a4 = true ->
  no_lt a5 = true -> tokens (education_html a1 a2 a3 a4 a5) education_tags.
Proof. unfold education_html; tokens_build. Qed.

Lemma middle_html_tokens (a1 a2 : string) :
  no_lt a1 = true -> no_lt a2 = true -> tokens (middle_html a1 a2) middle_tags.
Proof. unfold middle_html; tokens_build. Qed.

Lemma project_html_tokens (a1 a2 a3 a4 : string) :
  no_lt a1 = true -> no_lt a2 = true -> no_lt a3 = true -> no_lt a4 = true ->
  tokens (project_html a1 a2 a3 a4) project_tags.
Proof. unfold project_html; tokens_build. Qed.

Lemma footer_html_tokens (a1 a2 : string) :
  no_lt a1 = true -> no_lt a2 = true -> tokens (footer_html a1 a2) (footer_tags ++ [Close "html"]).
Proof. unfold footer_html; tokens_build. Qed.

(** ** The document's events *)

Lemma layout_experience_tokens (x : ExperienceView) :
  experience_clean x = true -> tokens (layout_experience x) (experience_tags (xv_achievements x)).
Proof.
  unfold experience_clean, layout_experience; intros Hc; apply andb_prop in Hc as [H1 H2].
  rewrite forallb_forall in H1.
  apply experience_html_tokens; try (apply H1; simpl; tauto); apply li_items_tokens, H2.
Qed.

Lemma layout_education_tokens (x : EducationView) :
  education_clean x = true -> tokens (layout_education x) education_tags.
Proof.
  unfold education_clean, layout_education; intros Hc; rewrite forallb_forall in Hc.
  apply education_html_tokens; apply Hc; simpl; tauto.
Qed.

Lemma layout_project_tokens (x : ProjectView) :
  project_clean x = true -> tokens (layout_project x) project_tags.
Proof.
  unfold project_clean, layout_project; intros Hc; rewrite forallb_forall in Hc.
  apply project_html_tokens; apply Hc; simpl; tauto.
Qed.

Lemma layout_tokens (r : ResumeDoc) :
  doc_clean r = true ->
  tokens (layout r)
    (Open "html" :: head_tags ++ flat_map (fun x => experience_tags (xv_achievements x)) (doc_experiences r)
     ++ education_open_tags ++ flat_map (fun _ => education_tags) (doc_education r)
     ++ middle_tags ++ flat_map (fun _ => project_tags) (doc_projects r)
     ++ footer_tags ++ [Close "html"])%list.
Proof.
  unfold doc_clean; intros H; apply andb_prop in H as [H Hp]; apply andb_prop in H as [H Hd];
    apply andb_prop in H as [Hs He].
  rewrite forallb_forall in Hs.
  unfold layout; eapply tokens_eq.
  { repeat match goal with |- tokens (_ ++ _) _ => apply tokens_app end.
    all: match goal with
         | |- tokens (head_html _ _ _ _ _ _ _ _) _ => apply head_html_tokens
         | |- tokens (middle_html _ _) _ => apply middle_html_tokens
         | |- tokens (footer_html _ _) _ => apply footer_html_tokens
         | |- tokens education_open _ => exact education_open_tokens
         | |- tokens (concat "" (map layout_experience _)) _ => exact (tokens_entries_flat _ _ _ _ layout_experience_tokens He)
         | |- tokens (concat "" (map layout_education _)) _ => exact (tokens_entries_flat _ _ _ _ layout_education_tokens Hd)
         | |- tokens (concat "" (map layout_project _)) _ => exact (tokens_entries_flat _ _ _ _ layout_project_tokens Hp)
         end.
    all: apply Hs; simpl; tauto. }
  reflexivity.
Qed.

(** Inside [<html>], the head, the entries and the sections are well
    nested, whatever the entries. *)
Lemma layout_body_nested (r : ResumeDoc) :
  nested (head_tags ++ flat_map (fun x => experience_tags (xv_achievements x)) (doc_experiences r)
          ++ education_open_tags ++ flat_map (fun _ => education_tags) (doc_education r)
          ++ middle_tags ++ flat_map (fun _ => project_tags) (doc_projects r) ++ footer_tags)%list.
Proof. nest_check. Qed.

(** ** Theorems *)

(** C16: the output is a well-formed HTML tree (spec section 4.1,
    a complete HTML document): whenever [generate_resume_html]
    returns, on an input none of whose strings holds a ['<'], the tags
    of the output form one [<html>] element whose contents are well
    nested (every element closed, innermost first), whatever the number
    of experience, education and project entries and of achievements. *)
Theorem generate_resume_html_nested (data : pyval) (html : string) :
  generate_resume_html data = Ok html -> value_clean data = true ->
  exists body, tag_events html = (Open "html" :: body ++ [Close "html"])%list /\ nested body.
Proof.
  intros E H; destruct data as [| | | | |d]; try discriminate.
  rewrite generate_resume_html_dict in E; destruct (view_dict d) as [r|] eqn:V; [|discriminate].
  injection E as <-; unfold tag_events; rewrite (layout_tokens r (view_dict_clean d r H V)); simpl fst.
  eexists; split; [|apply layout_body_nested]; rewrite <- !app_assoc; reflexivity.
Qed.

Lemma generate_resume_html_nested_witness :
  value_clean (VDict [("name", VStr "Ada"); ("experiences", VList [VDict [("achievements", VList [VStr "Led"])]])]) = true /\
  exists body,
    tag_events (match generate_resume_html
                  (VDict [("name", VStr "Ada"); ("experiences", VList [VDict [("achievements", VList [VStr "Led"])]])])
                with Ok h => h | Raise _ => "" end) = (Open "html" :: body ++ [Close "html"])%list /\ nested body.
Proof.
  split; [reflexivity|].
  apply (generate_resume_html_nested
    (VDict [("name", VStr "Ada"); ("experiences", VList [VDict [("achievements", VList [VStr "Led"])]])])); reflexivity.
Defined.

(** C17: markup in a field breaks the document (spec sections 7 and 8
    versus line 23): the name is inserted without escaping, inside
    [<title>] and inside [<h1>], so a name holding one end tag, of any
    element and with any text around it (["</div>"], ["A</b>B"],
    ["</title>"]), renders without error to a text whose tags are not
    one well-nested [<html>] element. *)
Theorem generate_resume_html_end_tag_unnested (s t : string) :
  tokens s [Close t] ->
  exists html, generate_resume_html (VDict [("name", VStr s)]) = Ok html /\
  ~ exists body, tag_events html = (Open "html" :: body ++ [Close "html"])%list /\ nested body.
Proof.
  intros Hs.
  exists (layout {| doc_name := s; doc_phone := ""; doc_email := ""; doc_linkedin := "N/A";
                    doc_portfolio := "N/A"; doc_address := "N/A"; doc_summary := "";
                    doc_experiences := []; doc_education := []; doc_skills := "";
                    doc_certifications := "N/A"; doc_projects := []; doc_languages := "N/A";
                    doc_hobbies := "N/A" |}).
  split; [rewrite generate_resume_html_dict; reflexivity|]; intros (body & E & N).
  pose proof (check_nest_nested _ [] (nested_elem "html" body N)) as C; rewrite <- E in C.
  destruct (head_html_name_tokens s [Close t] "" "" "N/A" "N/A" "N/A" "" Hs
              eq_refl eq_refl eq_refl eq_refl eq_refl eq_refl) as [rest Hh].
  unfold tag_events, layout in C; cbn [doc_name doc_phone doc_email doc_linkedin doc_portfolio
    doc_address doc_summary] in C; unfold tokens in Hh; rewrite tokenize_app, Hh in C.
  destruct (tokenize_from Text _) as [o m]; cbn [fst check_nest List.app] in C.
  destruct (String.eqb "title" t); simpl in C; discriminate.
Qed.

Lemma generate_resume_html_end_tag_unnested_witness :
  tokens "</div>" [Close "div"] /\
  exists html, generate_resume_html (VDict [("name", VStr "</div>")]) = Ok html /\
  ~ exists body, tag_events html = (Open "html" :: body ++ [Close "html"])%list /\ nested body.
Proof.
  split; [reflexivity|].
  apply (generate_resume_html_end_tag_unnested "</div>" "div"); reflexivity.
Defined.
