(* ===== verification/Prefix.v ===== *)
(** * Prefix: the html of a run is always a well-nested prefix

    [Machine] runs the body of [generate_resume_html] statement by
    statement; [Nesting] reads the tags of a text.  This file puts them
    together: along every run from the start on a dict none of whose
    strings holds a ['<'], the local [html] ends at a tag boundary and
    its tags never close an element that is not the innermost open
    one; before the head and after the footer no element is open, and
    in between exactly the four wrappers are ([<html>], [<body>], the
    container [<div>] and the current section's [<div>]), so every
    entry block is written inside its section (C18).

    The invariant [cfg_ok] of a configuration says where the run is in
    [resume_prog] and which elements its [html] leaves open; it holds
    at the start and every [step] preserves it ([step_ok]), so it holds
    at every configuration reached ([star_ok]), by induction on the
    run. *)

From Stdlib Require Import List Ascii String Lia.
From S2P Require Import Prelude PyValue Renderer Machine Reader Nesting.
Import ListNotations.
Open Scope bool_scope.
Open Scope string_scope.
Open Scope py_scope.

(** The wrappers open between the head and the footer, innermost
    first. *)
Definition open_sections : list string := ["div"; "div"; "body"; "html"].

(** The elements open before the statements [p] run. *)
Definition stack_for (p : list instr) : list string :=
  match p with
  | [] => []
  | _ => if Nat.eqb (List.length p) (List.length resume_prog) then [] else open_sections
  end.

(** The elements open at a configuration: the wrappers inside a loop,
    and none once the run has returned. *)
Definition open_at (c : cfg) : list string :=
  match c with
  | Run p _ => stack_for p
  | Loop _ _ _ _ => open_sections
  | _ => []
  end.

(** [h] ends at a tag boundary and leaves [st] open. *)
Definition html_at (h : string) (st : list string) : Prop :=
  exists evs, tokens h evs /\ check_nest [] evs = Some st.

Definition prog_at (p : list instr) : Prop := exists k, p = skipn k resume_prog.

Definition cfg_ok (data : pyval) (c : cfg) : Prop :=
  match c with
  | Run p h => prog_at p /\ html_at h (stack_for p)
  | Loop items b p h =>
      (exists k key l pre, skipn k resume_prog = ForEntries key b :: p /\
         py_get data key (VList []) = Ok (VList l) /\ l = (pre ++ items)%list)
      /\ html_at h open_sections
  | Done h => html_at h []
  | Failed _ => True
  end.

(** ** The statements' texts *)

Lemma html_at_app (h s : string) (st st' : list string) (w : list tag_event) :
  html_at h st -> tokens s w -> check_nest st w = Some st' -> html_at (h ++ s) st'.
Proof.
  intros (evs & Ht & Hc) Hs Hw; exists (evs ++ w)%list; split; [apply tokens_app; assumption|].
  rewrite check_nest_app, Hc; exact Hw.
Qed.

Lemma head_fstring_tokens (d : list (string * pyval)) (s : string) :
  value_clean (VDict d) = true -> head_fstring (VDict d) = Ok s -> tokens s (Open "html" :: head_tags).
Proof.
  intros H E; unfold head_fstring in E; rewrite !hole_dict in E; injection E as <-.
  apply head_html_tokens; apply field_clean; (exact H || reflexivity).
Qed.

Lemma middle_fstring_tokens (d : list (string * pyval)) (s : string) :
  value_clean (VDict d) = true -> middle_fstring (VDict d) = Ok s -> tokens s middle_tags.
Proof.
  unfold middle_fstring; rewrite skills_text_dict, na_list_text_dict; intros H E.
  destruct (skills_spec d) as [a|] eqn:Ea; [|discriminate];
    destruct (na_list_spec d "certifications") as [b|] eqn:Eb; [|discriminate].
  injection E as <-; apply middle_html_tokens;
    [eapply skills_spec_clean | eapply na_list_spec_clean]; eassumption.
Qed.

Lemma footer_fstring_tokens (d : list (string * pyval)) (s : string) :
  value_clean (VDict d) = true -> footer_fstring (VDict d) = Ok s -> tokens s (footer_tags ++ [Close "html"]).
Proof.
  unfold footer_fstring; rewrite !na_list_text_dict; intros H E.
  destruct (na_list_spec d "languages") as [a|] eqn:Ea; [|discriminate];
    destruct (na_list_spec d "hobbies") as [b|] eqn:Eb; [|discriminate].
  injection E as <-; apply footer_html_tokens; eapply na_list_spec_clean; eassumption.
Qed.

(** A loop body renders a clean dict entry as a nested block. *)
Lemma block_nested (b : pyval -> result string) (x : pyval) (s : string) :
  In b [experience_fstring; education_fstring; project_fstring] ->
  value_clean x = true -> is_dict x = true -> b x = Ok s -> exists w, tokens s w /\ nested w.
Proof.
  intros Hb H Hx E; destruct x as [| | | | |e]; try discriminate.
  destruct Hb as [<- | [<- | [<- | []]]];
    [rewrite experience_fstring_dict in E | rewrite education_fstring_dict in E
    | rewrite project_fstring_dict in E].
  - destruct (view_experience e) as [v|] eqn:V; [|discriminate]; injection E as <-.
    exists (experience_tags (xv_achievements v)); split; [|apply experience_tags_nested].
    apply layout_experience_tokens; eapply view_experience_clean; eassumption.
  - destruct (view_education e) as [v|] eqn:V; [|discriminate]; injection E as <-.
    exists education_tags; split; [|apply check_nest_sound; reflexivity].
    apply layout_education_tokens; eapply view_education_clean; eassumption.
  - destruct (view_project e) as [v|] eqn:V; [|discriminate]; injection E as <-.
    exists project_tags; split; [|apply check_nest_sound; reflexivity].
    apply layout_project_tokens; eapply view_project_clean; eassumption.
Qed.

(** The list a loop reads from a clean dict is clean. *)
Lemma py_get_list_clean (d : list (string * pyval)) (k : string) (l : list pyval) :
  value_clean (VDict d) = true -> py_get (VDict d) k (VList []) = Ok (VList l) ->
  forallb value_clean l = true.
Proof.
  intros H E; simpl in E; destruct (dict_lookup d k) eqn:L.
  - injection E as ->; exact (lookup_clean d k _ H L).
  - injection E as <-; reflexivity.
Qed.

(** ** Where the run is *)

Lemma skipn_cons_S {A} (k : nat) (l p : list A) (i : A) :
  skipn k l = i :: p -> skipn (S k) l = p.
Proof.
  revert l; induction k as [|k IH]; intros [|a l] H; simpl in *; try discriminate;
    [injection H as _ ->; reflexivity | apply IH, H].
Qed.

Lemma prog_at_tl (i : instr) (p : list instr) : prog_at (i :: p) -> prog_at p.
Proof. intros [k Hk]; exists (S k); symmetry; apply (skipn_cons_S k _ _ i); symmetry; exact Hk. Qed.

(** The eight positions of [resume_prog]: [Hk] fixes the statement
    and the rest of the program. *)
Ltac prog_cases Hk :=
  match type of Hk with
  | skipn _ _ = _ => symmetry in Hk; prog_cases Hk
  | _ = skipn _ [] => rewrite skipn_nil in Hk; discriminate
  | _ = skipn ?k _ =>
      let m := fresh "m" in
      destruct k as [|m]; cbn in Hk; [try discriminate; injection Hk; intros; subst | prog_cases Hk]
  end.

(** The text a statement appends, from a clean dict. *)
Ltac append_tokens Hf :=
  first [injection Hf as <-; exact education_open_tokens
        | eapply head_fstring_tokens; eassumption
        | eapply middle_fstring_tokens; eassumption
        | eapply footer_fstring_tokens; eassumption].

(** ** The invariant *)

Lemma cfg_ok_start (data : pyval) : cfg_ok data (Run resume_prog "").
Proof. split; [exists 0; reflexivity | exists []; split; reflexivity]. Qed.

Lemma step_ok (d : list (string * pyval)) (c c' : cfg) :
  value_clean (VDict d) = true -> step (VDict d) c c' -> cfg_ok (VDict d) c -> cfg_ok (VDict d) c'.
Proof.
  intros H S; destruct S as [f p h s Hf | f p h e Hf | key b p h items Hg | key b p h v Hg Hv
    | key b p h e Hg | b p h | x xs b p h Hx | x xs b p h s Hx Hb | x xs b p h e Hx Hb | h];
    cbn [cfg_ok]; try (intros; exact I).
  - (* html += f-string *)
    intros [Hp Hh]; split; [exact (prog_at_tl _ _ Hp)|]; destruct Hp as [n Hk]; prog_cases Hk;
      (eapply html_at_app; [exact Hh | append_tokens Hf | reflexivity]).
  - (* a loop starts *)
    intros [[n Hk] Hh]; split; [exists n, key, items, []; auto|].
    prog_cases Hk; exact Hh.
  - (* a loop over a non-list is skipped *)
    intros [Hp Hh]; split; [exact (prog_at_tl _ _ Hp)|]; destruct Hp as [n Hk]; prog_cases Hk; exact Hh.
  - (* a loop ends *)
    intros [(n & k & l & pre & Hk & Hg & Hl) Hh]; split.
    + exists (S n); symmetry; exact (skipn_cons_S _ _ _ _ Hk).
    + prog_cases Hk; exact Hh.
  - (* a non-dict entry is skipped *)
    intros [(n & k & l & pre & Hk & Hg & ->) Hh]; split; [|exact Hh].
    exists n, k, (pre ++ x :: xs)%list, (pre ++ [x])%list; rewrite <- app_assoc; auto.
  - (* a dict entry is rendered *)
    intros [(n & k & l & pre & Hk & Hg & ->) Hh]; split.
    + exists n, k, (pre ++ x :: xs)%list, (pre ++ [x])%list; rewrite <- app_assoc; auto.
    + assert (Hc : value_clean x = true).
      { apply (proj1 (forallb_forall _ _) (py_get_list_clean d k _ H Hg)), in_or_app; right; left; reflexivity. }
      assert (Hin : In b [experience_fstring; education_fstring; project_fstring])
        by (prog_cases Hk; simpl; tauto).
      destruct (block_nested b x s Hin Hc Hx Hb) as (w & Hs & Hw).
      exact (html_at_app _ _ _ _ _ Hh Hs (check_nest_nested w _ Hw)).
  - (* return html *)
    intros [_ Hh]; exact Hh.
Qed.

Lemma star_ok (d : list (string * pyval)) (c c' : cfg) :
  value_clean (VDict d) = true -> star (VDict d) c c' -> cfg_ok (VDict d) c -> cfg_ok (VDict d) c'.
Proof. intros H S; induction S as [c|a b c Hs _ IH]; [auto | intros Ha; apply IH, (step_ok d a b H Hs Ha)]. Qed.

(** ** Theorems *)

(** C18: at every point of a run of [generate_resume_html]'s
    statements on a dict none of whose strings holds a ['<'], the
    [html] built so far ends at a tag boundary and its tags are a
    well-nested prefix whose open elements are fixed by the position
    in the program ([open_at]): none before the head and after the
    footer, and exactly [<html>], [<body>], the container [<div>] and
    the current section's [<div>] in between, in particular during
    every loop, so every entry block is written inside its section and
    no step closes an element it did not open. *)
Theorem machine_html_prefix (d : list (string * pyval)) (c : cfg) (h : string) :
  value_clean (VDict d) = true -> star (VDict d) (Run resume_prog "") c -> html_of c = Some h ->
  exists evs, tokens h evs /\ check_nest [] evs = Some (open_at c).
Proof.
  intros H S E; pose proof (star_ok d _ _ H S (cfg_ok_start _)) as Hc.
  destruct c as [p h' | items b p h' | h' | e]; simpl in E; try discriminate; injection E as ->;
    simpl in Hc; [destruct Hc as [_ Hc] | destruct Hc as [_ Hc] |]; exact Hc.
Qed.

Lemma machine_html_prefix_witness :
  value_clean (VDict [("name", VStr "Ada"); ("experiences", VList [VDict []])]) = true /\
  exists evs,
    tokens (match head_fstring (VDict [("name", VStr "Ada"); ("experiences", VList [VDict []])])
            with Ok s => "" ++ s | Raise _ => "" end) evs /\
    check_nest [] evs = Some ["div"; "div"; "body"; "html"].
Proof.
  split; [reflexivity|].
  apply (machine_html_prefix [("name", VStr "Ada"); ("experiences", VList [VDict []])]
           (Loop [VDict []] experience_fstring (skipn 2 resume_prog)
              (match head_fstring (VDict [("name", VStr "Ada"); ("experiences", VList [VDict []])])
               with Ok s => "" ++ s | Raise _ => "" end))); [reflexivity | | reflexivity].
  eapply star_step; [apply step_append; reflexivity|].
  eapply star_step; [apply step_for; reflexivity | apply star_refl].
Defined.
