(* ===== verification/Summary.v ===== *)
(** * Summary: [generate_summary_from_experience] (resume_builder_logic.py, lines 4-15)

    The function loads T5 through the transformers library, tokenizes
    ["summarize: " + work_experience] with truncation to 512 tokens,
    generates with beam search (at most 150 and at least 30 tokens,
    length penalty 2.0, 4 beams, early stopping), decodes without the
    special tokens, and post-processes the text (lines 12-15).

    The library is an external collaborator: [Seq2Seq] is the interface
    the code uses (its three calls, with the code's arguments); a
    successful load of the weights ([from_pretrained], lines 5-6) gives
    the instance.  The post-processing [format_summary] is modelled
    exactly, on [PyString]'s [str.split]; the theorems are about it:
    it is the replacement of every [". "] by [". \n"] behind the
    prefix (C10), and it loses nothing (C11). *)

From Stdlib Require Import List Ascii String QArith Lia.
From S2P Require Import Prelude PyString.
Import ListNotations.
Open Scope bool_scope.
Open Scope string_scope.
Open Scope py_scope.
Close Scope Q_scope.

Definition newline : string := String "010"%char EmptyString.

(** Lines 13-14: [sentences = summary.split(". ")] and
    ["I worked as " + ". \n".join(sentences)]. *)
Definition format_summary (summary : string) : result string :=
  sentences <- py_split ". " summary ;;
  ret ("I worked as " ++ concat (". " ++ newline) sentences).

(** The keyword arguments of [model.generate] (line 9). *)
Record GenConfig := {
  gen_max_length : nat;
  gen_min_length : nat;
  gen_length_penalty : Q;
  gen_num_beams : nat;
  gen_early_stopping : bool
}.

Definition t5_generation : GenConfig :=
  {| gen_max_length := 150; gen_min_length := 30; gen_length_penalty := (2 # 1)%Q;
     gen_num_beams := 4; gen_early_stopping := true |}.

(** The three calls of lines 8-10. *)
Class Seq2Seq : Type := {
  token : Type;
  (** [tokenizer(text, max_length=n, truncation=True).input_ids] *)
  tokenize : string -> nat -> list token;
  (** [model.generate(ids, **config)[0]] *)
  generate : list token -> GenConfig -> list token;
  (** [tokenizer.decode(ids, skip_special_tokens=b)] *)
  decode : list token -> bool -> string
}.

Section Generate.
Context `{M : Seq2Seq}.

(** Lines 7-10. *)
Definition summary_input_ids (work_experience : string) : list token :=
  tokenize ("summarize: " ++ work_experience) 512.

Definition summary_ids (work_experience : string) : list token :=
  generate (summary_input_ids work_experience) t5_generation.

Definition decoded_summary (work_experience : string) : string :=
  decode (summary_ids work_experience) true.

(** Lines 4-15. *)
Definition generate_summary_from_experience (work_experience : string) : result string :=
  format_summary (decoded_summary work_experience).
End Generate.

(** The two separators of line 13 and line 14. *)
Definition sentence_sep : string := ". ".
Definition line_sep : string := ". " ++ newline.

(** C10: lines 13-14 split on [". "] and join with [". \n"]: the
    result is ["I worked as "] followed by the summary with every
    [". "] replaced by [". \n"] (Python's [str.replace]); the
    post-processing never fails. *)
Theorem format_summary_replace (s : string) :
  format_summary s = Ok ("I worked as " ++ py_replace ". " (". " ++ newline) s).
Proof.
  unfold format_summary, py_split, py_replace.
  change (String.eqb ". " "") with false; cbv iota; rewrite bind_result_ok.
  rewrite concat_split_loop_replace by (discriminate || lia); reflexivity.
Qed.

(** ** The formatted summary loses nothing *)


(** After a fragment free of [". "], the first [". \n"] is the one that
    follows it: [". \n"] cannot start inside the fragment. *)
Lemma find_line_sep_after (f rest : string) :
  find_sep sentence_sep f = None ->
  find_sep line_sep (f ++ line_sep ++ rest) = Some (f, rest).
Proof.
  induction f as [|c f IH]; intros Hf.
  - simpl; reflexivity.
  - rewrite find_sep_cons in Hf.
    destruct (strip_prefix sentence_sep (String c f)) as [r|] eqn:E; [discriminate|].
    destruct (find_sep sentence_sep f) as [[]|] eqn:F; [discriminate|].
    rewrite append_cons, find_sep_cons.
    destruct (strip_prefix line_sep (String c (f ++ line_sep ++ rest))) as [r|] eqn:G.
    + apply strip_prefix_some in G; unfold line_sep, newline in G; simpl in G.
      injection G as -> G.
      destruct f as [|c2 f]; simpl in G; [discriminate|]; injection G as -> _.
      unfold sentence_sep in E; simpl in E; discriminate.
    + rewrite IH by reflexivity; reflexivity.
Qed.

Lemma find_line_sep_none (f : string) :
  find_sep sentence_sep f = None -> find_sep line_sep f = None.
Proof.
  intros Hf; destruct (find_sep line_sep f) as [[pre post]|] eqn:E; [|reflexivity].
  apply find_sep_some in E; subst f.
  exfalso; apply (find_sep_complete sentence_sep pre (newline ++ post)); exact Hf.
Qed.

(** Splitting the joined clean fragments on [". \n"] gives them back. *)
Lemma split_join_line_sep (fuel : nat) (frags : list string) :
  frags <> [] -> Forall (fun f => find_sep sentence_sep f = None) frags ->
  String.length (concat line_sep frags) < fuel ->
  split_loop fuel line_sep (concat line_sep frags) = frags.
Proof.
  revert fuel; induction frags as [|f [|g l] IH]; intros fuel Hne Hcl Hf; [congruence| |];
    inversion Hcl as [|? ? Hf1 Hrest]; subst; destruct fuel as [|fuel]; try lia.
  - cbn [concat split_loop]; rewrite find_line_sep_none by exact Hf1; reflexivity.
  - rewrite concat_cons_cons in *; cbn [split_loop].
    rewrite find_line_sep_after by exact Hf1; rewrite IH; auto; [discriminate|].
    rewrite !length_append in Hf; change (String.length line_sep) with 3 in Hf; lia.
Qed.

(** C11: the post-processing is lossless: the formatted summary is
    ["I worked as "] followed by a body from which replacing every
    [". \\n"] by [". "] gives back exactly the decoded summary; the
    inserted newlines never merge with the text around them. *)
Theorem format_summary_lossless (s : string) :
  exists body, format_summary s = Ok ("I worked as " ++ body)
               /\ py_replace (". " ++ newline) ". " body = s.
Proof.
  set (frags := split_loop (S (String.length s)) sentence_sep s).
  exists (concat line_sep frags); split.
  - unfold format_summary, py_split; change (String.eqb ". " "") with false; cbv iota.
    rewrite bind_result_ok; reflexivity.
  - unfold py_replace; change (String.eqb (". " ++ newline) "") with false; cbv iota.
    rewrite <- (concat_split_loop_replace (S (String.length (concat line_sep frags))))
      by (discriminate || lia).
    rewrite split_join_line_sep; [apply concat_split_loop | apply split_loop_nonempty | | lia].
    apply split_loop_clean; [discriminate | lia].
Qed.

